(** * maplibre-gl-extend: layer registry, basemap switching and layer
      creation, embedded in Rocq

    The development follows the TypeScript sources module by module:

    - [JS]: the JavaScript primitives the library leans on (IEEE numbers
      with [Math.min]/[Math.max], string helpers, ordered objects,
      [URLSearchParams], [encodeURIComponent], [Number.prototype.toString]);
    - the rendering engine (the maplibre-gl [Map]) as an interface: the
      library never looks inside it, so neither do the definitions here;
    - [lib/utils/id-generator.ts], [lib/utils/validation.ts];
    - [lib/basemaps/catalog.ts], [lib/basemaps/index.ts];
    - [lib/layers/registry.ts], [lib/layers/geojson.ts],
      [lib/layers/raster.ts], [lib/layers/management.ts].

    Conventions.  A JavaScript string is a Rocq [string] (the bytes of its
    UTF-8 encoding).  A JavaScript [number] is an IEEE-754 binary64 value,
    [spec_float] of the Standard Library.  An object used as a dictionary
    keyed by identifiers is a [gmap string _] when only lookups matter and
    an ordered property list ([JS.obj]) when the enumeration order is
    observable.  Property names inherited from [Object.prototype] (such as
    [constructor]) are outside the model: a lookup sees own properties
    only.  The two module-level counters of the identifier generator count
    in [N]; the source counts in binary64, which is exact up to 2^53. *)

From Stdlib Require Import ZArith NArith String Ascii List DecimalString.
From Stdlib Require Import Sorted Permutation DecimalN.
From Stdlib Require Import Floats.SpecFloat.
From stdpp Require Import gmap strings list fin_maps.

Local Open Scope string_scope.
Set Warnings "-register-all".


(* ===================================================================== *)
(** ** JavaScript primitives *)
(* ===================================================================== *)

Module JS.

(** *** Numbers *)

Definition number : Type := spec_float.

(** [of_int m e] is the binary64 value [m * 2^e]. *)
Definition of_int (m e : Z) : number := binary_normalize 53 1024 m e false.

Definition zero : number := S754_zero false.
Definition neg_zero : number := S754_zero true.
Definition one : number := Eval vm_compute in of_int 1 0.
Definition half : number := Eval vm_compute in of_int 1 (-1).
Definition Infinity : number := S754_infinity false.
Definition neg_Infinity : number := S754_infinity true.
Definition NaN : number := S754_nan.

Definition is_neg_zero (x : number) : bool :=
  match x with S754_zero true => true | _ => false end.

(** [a < b], [a <= b], [a > b] of the language: false when either side is
    NaN. *)
Definition lt (a b : number) : bool := SFltb a b.
Definition le (a b : number) : bool := SFleb a b.
Definition gt (a b : number) : bool := SFltb b a.

(** [a === b] on numbers. *)
Definition strict_eq (a b : number) : bool := SFeqb a b.

(** [Math.max(a, b)]: NaN if either is NaN, and [+0] is larger than [-0]. *)
Definition Math_max (a b : number) : number :=
  match SFcompare a b with
  | None => NaN
  | Some Lt => b
  | Some Gt => a
  | Some Eq => if is_neg_zero a then b else a
  end.

(** [Math.min(a, b)]: NaN if either is NaN, and [-0] is smaller than [+0]. *)
Definition Math_min (a b : number) : number :=
  match SFcompare a b with
  | None => NaN
  | Some Lt => a
  | Some Gt => b
  | Some Eq => if is_neg_zero b then b else a
  end.

(** Truthiness of a number: [0], [-0] and NaN are falsy. *)
Definition truthy_number (x : number) : bool :=
  match x with
  | S754_zero _ | S754_nan => false
  | _ => true
  end.

(** Truthiness of a string: only the empty string is falsy. *)
Definition truthy_string (s : string) : bool :=
  match s with "" => false | _ => true end.

(** [x || d] for an optional string property. *)
Definition or_string (x : option string) (d : string) : string :=
  match x with
  | Some s => if truthy_string s then s else d
  | None => d
  end.

(** [x || d] for an optional number property. *)
Definition or_number (x : option number) (d : number) : number :=
  match x with
  | Some n => if truthy_number n then n else d
  | None => d
  end.

(** [x ?? d]: only [undefined] (and [null]) select the default. *)
Definition nullish {A : Type} (x : option A) (d : A) : A :=
  match x with Some a => a | None => d end.

(** Truthiness of an optional object: present objects are truthy,
    [undefined] and [null] are falsy. *)
Definition truthy {A : Type} (x : option A) : bool :=
  match x with Some _ => true | None => false end.

(** [String(b)] for a boolean. *)
Definition String_of_bool (b : bool) : string :=
  if b then "true" else "false".

(** *** Strings *)

(** [s.includes(sub)] *)
Fixpoint includes (s sub : string) : bool :=
  String.prefix sub s
  || match s with
     | "" => false
     | String _ s' => includes s' sub
     end.

(** [s.endsWith(suffix)] *)
Definition endsWith (s suffix : string) : bool :=
  let n := String.length s in
  let k := String.length suffix in
  (k <=? n)%nat && String.eqb (String.substring (n - k) k s) suffix.

(** [s.replace(pat, rep)] for a string pattern: the first occurrence only.
    The replacement is inserted as it is; the library only passes a single
    character, ["@2x"] or the empty string, none of which holds a [$]
    substitution pattern. *)
Fixpoint replace (s pat rep : string) : string :=
  if String.prefix pat s
  then rep +:+ String.substring (String.length pat)
                                (String.length s - String.length pat) s
  else match s with
       | "" => ""
       | String c s' => String c (replace s' pat rep)
       end.

(** [s.split('')]: one string per character. *)
Fixpoint split_chars (s : string) : list string :=
  match s with
  | "" => []
  | String c s' => String c "" :: split_chars s'
  end.

(** [xs.join(sep)] *)
Fixpoint join (sep : string) (xs : list string) : string :=
  match xs with
  | [] => ""
  | [x] => x
  | x :: rest => x +:+ sep +:+ join sep rest
  end.

(** Decimal rendering of a counter, as template literals do. *)
Definition String_of_N (n : N) : string :=
  NilEmpty.string_of_uint (N.to_uint n).

(** *** [Number.prototype.toString(36)] on integers *)

Definition digit36 (d : N) : ascii :=
  if (d <? 10)%N then ascii_of_N (48 + d) else ascii_of_N (87 + d).

Fixpoint radix36_aux (fuel : nat) (n : N) (acc : string) : string :=
  match fuel with
  | O => acc
  | S fuel' =>
      let acc' := String (digit36 (n mod 36)) acc in
      if (n / 36 =? 0)%N then acc' else radix36_aux fuel' (n / 36) acc'
  end.

Definition radix36 (n : N) : string := radix36_aux (S (N.size_nat n)) n "".

Definition toString36 (z : Z) : string :=
  match z with
  | Z0 => "0"
  | Zpos p => radix36 (Npos p)
  | Zneg p => "-" +:+ radix36 (Npos p)
  end.

(** *** Percent encoding *)

Definition hex_digit (d : N) : ascii :=
  if (d <? 10)%N then ascii_of_N (48 + d) else ascii_of_N (55 + d).

Definition percent_byte (c : ascii) : string :=
  let n := N_of_ascii c in
  String "%" (String (hex_digit (n / 16)) (String (hex_digit (n mod 16)) "")).

Definition is_alnum (c : ascii) : bool :=
  let n := N_of_ascii c in
  ((48 <=? n) && (n <=? 57) || (65 <=? n) && (n <=? 90)
   || (97 <=? n) && (n <=? 122))%N.

Definition ascii_in (c : ascii) (set : string) : bool :=
  existsb (Ascii.eqb c) (list_ascii_of_string set).

(** [encodeURIComponent(s)]: every byte but the unreserved marks is
    escaped. *)
Fixpoint encodeURIComponent (s : string) : string :=
  match s with
  | "" => ""
  | String c s' =>
      (if is_alnum c || ascii_in c "-_.!~*'()"
       then String c "" else percent_byte c)
      +:+ encodeURIComponent s'
  end.

(** The [application/x-www-form-urlencoded] byte serializer used by
    [URLSearchParams.prototype.toString]. *)
Fixpoint form_urlencode (s : string) : string :=
  match s with
  | "" => ""
  | String c s' =>
      (if Ascii.eqb c " " then "+"
       else if is_alnum c || ascii_in c "*-._"
       then String c "" else percent_byte c)
      +:+ form_urlencode s'
  end.

(** *** Objects with observable property order *)

(** An object is the list of its own properties in creation order. *)
Definition obj (V : Type) : Type := list (string * V).

Fixpoint obj_get {V} (o : obj V) (k : string) : option V :=
  match o with
  | [] => None
  | (k', v) :: o' => if String.eqb k k' then Some v else obj_get o' k
  end.

(** [o[k] = v]: an existing property keeps its place. *)
Fixpoint obj_set {V} (o : obj V) (k : string) (v : V) : obj V :=
  match o with
  | [] => [(k, v)]
  | (k', v') :: o' =>
      if String.eqb k k' then (k, v) :: o' else (k', v') :: obj_set o' k v
  end.

(** An object literal [{k1: v1, ..., kn: vn}], later keys overriding
    earlier ones. *)
Definition obj_literal {V} (props : list (string * V)) : obj V :=
  fold_left (fun o kv => obj_set o (fst kv) (snd kv)) props [].

Definition is_digit (c : ascii) : bool :=
  let n := N_of_ascii c in ((48 <=? n) && (n <=? 57))%N.

Fixpoint decimal_value (s : string) (acc : N) : N :=
  match s with
  | "" => acc
  | String c s' => decimal_value s' (10 * acc + (N_of_ascii c - 48))%N
  end.

(** A property name is an array index when it is the canonical decimal
    form of an integer below 2^32 - 1; such names are enumerated first, in
    ascending numeric order. *)
Definition array_index (k : string) : option N :=
  match k with
  | "" => None
  | String c rest =>
      if forallb is_digit (list_ascii_of_string k)
         && (negb (Ascii.eqb c "0") || String.eqb rest "")
         && (String.length k <=? 10)%nat
         && (decimal_value k 0 <? 4294967295)%N
      then Some (decimal_value k 0)
      else None
  end.

Fixpoint insert_index {V} (i : N) (kv : string * V)
    (sorted : list (N * (string * V))) : list (N * (string * V)) :=
  match sorted with
  | [] => [(i, kv)]
  | (j, kv') :: rest =>
      if (i <? j)%N then (i, kv) :: sorted
      else (j, kv') :: insert_index i kv rest
  end.

Fixpoint index_entries {V} (o : obj V) : list (N * (string * V)) :=
  match o with
  | [] => []
  | kv :: o' =>
      match array_index (fst kv) with
      | Some i => insert_index i kv (index_entries o')
      | None => index_entries o'
      end
  end.

Definition name_entries {V} (o : obj V) : list (string * V) :=
  List.filter (fun kv => match array_index (fst kv) with
                         | Some _ => false | None => true end) o.

(** [Object.entries(o)] *)
Definition entries {V} (o : obj V) : list (string * V) :=
  List.map snd (index_entries o) ++ name_entries o.

(** [Object.keys(o)] *)
Definition keys {V} (o : obj V) : list string := List.map fst (entries o).

(** [{...a, ...b}] continued: define the properties of [b] on [a]. *)
Definition spread {V} (a b : obj V) : obj V :=
  fold_left (fun o kv => obj_set o (fst kv) (snd kv)) (entries b) a.

(** The [name=value] items of [new URLSearchParams(o)], each side
    serialized. *)
Definition query_items (o : obj string) : list string :=
  List.map (fun kv => form_urlencode (fst kv) +:+ "=" +:+ form_urlencode (snd kv))
           (entries o).

(** [new URLSearchParams(o).toString()] *)
Definition URLSearchParams_toString (o : obj string) : string :=
  join "&" (query_items o).

End JS.

(* ===================================================================== *)
(** ** Data handed to and read from the rendering engine *)
(* ===================================================================== *)

(** A JSON-like value: paint properties, fit options and error details. *)
Inductive value : Type :=
| VNum (n : JS.number)
| VStr (s : string)
| VBool (b : bool)
| VArr (items : list value).

(** [[west, south, east, north]] *)
Definition BBox : Type := (JS.number * JS.number * JS.number * JS.number)%type.

(** [[[west, south], [east, north]]] *)
Definition LngLatBounds : Type :=
  ((JS.number * JS.number) * (JS.number * JS.number))%type.

Definition FitBoundsOptions : Type := JS.obj value.

(** *** GeoJSON ([geojson] type declarations) *)

Definition Position : Type := list JS.number.

Inductive Geometry : Type :=
| Point (coordinates : Position)
| MultiPoint (coordinates : list Position)
| LineString (coordinates : list Position)
| MultiLineString (coordinates : list (list Position))
| Polygon (coordinates : list (list Position))
| MultiPolygon (coordinates : list (list (list Position)))
| GeometryCollection (geometries : list Geometry).

(** A feature; its [properties] are never inspected by the library. *)
Record Feature : Type := { geometry : option Geometry }.

Inductive GeoJSON : Type :=
| GFeature (f : Feature)
| GFeatureCollection (features : list Feature)
| GGeometry (g : Geometry).

(** The [type] member of the objects above. *)
Definition Geometry_type (g : Geometry) : string :=
  match g with
  | Point _ => "Point"
  | MultiPoint _ => "MultiPoint"
  | LineString _ => "LineString"
  | MultiLineString _ => "MultiLineString"
  | Polygon _ => "Polygon"
  | MultiPolygon _ => "MultiPolygon"
  | GeometryCollection _ => "GeometryCollection"
  end.

Definition GeoJSON_type (d : GeoJSON) : string :=
  match d with
  | GFeature _ => "Feature"
  | GFeatureCollection _ => "FeatureCollection"
  | GGeometry g => Geometry_type g
  end.

(** *** Source and layer descriptions *)

(** The object literal passed to [map.addSource]; an absent or
    [undefined] member is [None]. *)
Record SourceSpecification : Type := {
  src_type : string;
  src_tiles : option (list string);
  src_url : option string;
  src_data : option GeoJSON;
  src_tileSize : option JS.number;
  src_attribution : option string;
  src_bounds : option BBox;
  src_minzoom : option JS.number;
  src_maxzoom : option JS.number;
}.

(** The object literal passed to [map.addLayer]. *)
Module AddLayerObject.
Record t : Type := {
  id : string;
  type : string;
  source : string;
  source_layer : option string;
  paint : JS.obj value;
  minzoom : option JS.number;
  maxzoom : option JS.number;
}.
End AddLayerObject.

(* ===================================================================== *)
(** ** The rendering engine *)
(* ===================================================================== *)

(** The capabilities of the maplibre-gl [Map] that the library invokes.
    The engine is a third-party collaborator: the library's functions are
    written against this interface and every statement below is made for
    an arbitrary implementation of it. *)
Class Engine (E : Type) : Type := {
  getLayer : E -> string -> option AddLayerObject.t;
  getSource : E -> string -> option SourceSpecification;
  (** [map.getStyle()?.layers] *)
  getStyle_layers : E -> option (list AddLayerObject.t);
  addSource : E -> string -> SourceSpecification -> E;
  addLayer : E -> AddLayerObject.t -> option string -> E;
  removeLayer : E -> string -> E;
  removeSource : E -> string -> E;
  setLayoutProperty : E -> string -> string -> string -> E;
  setPaintProperty : E -> string -> string -> JS.number -> E;
  moveLayer : E -> string -> option string -> E;
  fitBounds : E -> LngLatBounds -> FitBoundsOptions -> E;
}.

(** What the invariant of the registry asks of an engine: a layer handed
    to [addLayer] is registered afterwards, [removeLayer] unregisters no
    other layer, and no other call unregisters a layer. *)
Class EngineKeepsLayers (E : Type) `{Engine E} : Prop := {
  getLayer_addLayer e l before :
    is_Some (getLayer (addLayer e l before) (AddLayerObject.id l));
  getLayer_addLayer_other e l before k :
    is_Some (getLayer e k) -> is_Some (getLayer (addLayer e l before) k);
  getLayer_removeLayer_other e j k :
    j <> k -> is_Some (getLayer e k) -> is_Some (getLayer (removeLayer e j) k);
  getLayer_addSource e s spec k :
    is_Some (getLayer e k) -> is_Some (getLayer (addSource e s spec) k);
  getLayer_removeSource e s k :
    is_Some (getLayer e k) -> is_Some (getLayer (removeSource e s) k);
  getLayer_setLayoutProperty e j p v k :
    is_Some (getLayer e k) ->
    is_Some (getLayer (setLayoutProperty e j p v) k);
  getLayer_setPaintProperty e j p v k :
    is_Some (getLayer e k) ->
    is_Some (getLayer (setPaintProperty e j p v) k);
  getLayer_moveLayer e j before k :
    is_Some (getLayer e k) -> is_Some (getLayer (moveLayer e j before) k);
  getLayer_fitBounds e b o k :
    is_Some (getLayer e k) -> is_Some (getLayer (fitBounds e b o) k);
}.

(** *** A reference engine

    The simplest implementation of the interface: the style is the list
    of its layers from bottom to top and a table of sources; paint and
    layout updates are recorded on a table keyed by layer and property. *)
Module RefEngine.

Record t : Type := {
  layers : list AddLayerObject.t;
  sources : gmap string SourceSpecification;
  layout : gmap (string * string) string;
  painted : gmap (string * string) JS.number;
  camera : option (LngLatBounds * FitBoundsOptions);
}.

Definition empty : t :=
  {| layers := []; sources := ∅; layout := ∅; painted := ∅; camera := None |}.

Definition has_id (k : string) (l : AddLayerObject.t) : bool :=
  String.eqb (AddLayerObject.id l) k.

Definition without (k : string) (ls : list AddLayerObject.t) :=
  List.filter (fun l => negb (has_id k l)) ls.

Fixpoint insert_before (before : string) (l : AddLayerObject.t)
    (ls : list AddLayerObject.t) : list AddLayerObject.t :=
  match ls with
  | [] => [l]
  | x :: rest =>
      if has_id before x then l :: ls else x :: insert_before before l rest
  end.

Definition place (l : AddLayerObject.t) (before : option string)
    (ls : list AddLayerObject.t) : list AddLayerObject.t :=
  match before with
  | Some b => insert_before b l ls
  | None => ls ++ [l]
  end.

Definition with_layers (e : t) (ls : list AddLayerObject.t) : t :=
  {| layers := ls; sources := sources e; layout := layout e;
     painted := painted e; camera := camera e |}.

Definition with_sources (e : t) (ss : gmap string SourceSpecification) : t :=
  {| layers := layers e; sources := ss; layout := layout e;
     painted := painted e; camera := camera e |}.

Definition find_layer (e : t) (k : string) : option AddLayerObject.t :=
  List.find (has_id k) (layers e).

Definition move (e : t) (k : string) (before : option string) : t :=
  match find_layer e k with
  | Some l => with_layers e (place l before (without k (layers e)))
  | None => e
  end.

End RefEngine.

#[export] Instance RefEngine_Engine : Engine RefEngine.t := {
  getLayer := RefEngine.find_layer;
  getSource e k := RefEngine.sources e !! k;
  getStyle_layers e := Some (RefEngine.layers e);
  addSource e k spec :=
    RefEngine.with_sources e (<[k := spec]> (RefEngine.sources e));
  addLayer e l before :=
    RefEngine.with_layers e
      (RefEngine.place l before (RefEngine.without (AddLayerObject.id l)
                           (RefEngine.layers e)));
  removeLayer e k :=
    RefEngine.with_layers e (RefEngine.without k (RefEngine.layers e));
  removeSource e k :=
    RefEngine.with_sources e (delete k (RefEngine.sources e));
  setLayoutProperty e k p v :=
    {| RefEngine.layers := RefEngine.layers e;
       RefEngine.sources := RefEngine.sources e;
       RefEngine.layout := <[(k, p) := v]> (RefEngine.layout e);
       RefEngine.painted := RefEngine.painted e;
       RefEngine.camera := RefEngine.camera e |};
  setPaintProperty e k p v :=
    {| RefEngine.layers := RefEngine.layers e;
       RefEngine.sources := RefEngine.sources e;
       RefEngine.layout := RefEngine.layout e;
       RefEngine.painted := <[(k, p) := v]> (RefEngine.painted e);
       RefEngine.camera := RefEngine.camera e |};
  moveLayer := RefEngine.move;
  fitBounds e b o :=
    {| RefEngine.layers := RefEngine.layers e;
       RefEngine.sources := RefEngine.sources e;
       RefEngine.layout := RefEngine.layout e;
       RefEngine.painted := RefEngine.painted e;
       RefEngine.camera := Some (b, o) |};
}.

(* ===================================================================== *)
(** ** Exceptions *)
(* ===================================================================== *)

(** A thrown value: a plain [Error], or the library's [MapExtendError]
    with its [code] and [details] ([lib/utils/validation.ts]). *)
Inductive exn : Type :=
| Error (message : string)
| MapExtendError (message : string) (code : string)
    (details : option (JS.obj value)).

(** How a call ends. *)
Inductive completion (A : Type) : Type :=
| Return (a : A)
| Throw (e : exn).
Arguments Return {A} a.
Arguments Throw {A} e.

(* ===================================================================== *)
(** ** [lib/utils/id-generator.ts] *)
(* ===================================================================== *)

(** The two module-level counters. *)
Record Counters : Type := {
  layerCounter : N;
  sourceCounter : N;
}.

Definition initial_counters : Counters :=
  {| layerCounter := 0; sourceCounter := 0 |}.

(** The identifier built by the template literal
    [mgl-extend-${prefix}-${n}-${suffix}]. *)
Definition render_id (prefix : string) (n : N) (suffix : string) : string :=
  "mgl-extend-" +:+ prefix +:+ "-" +:+ JS.String_of_N n +:+ "-" +:+ suffix.

(** [generateLayerId(prefix = 'layer')]; [now] is the reading of
    [Date.now()] taken by the call. *)
Definition generateLayerId (prefix : option string) (now : Z) (c : Counters)
    : string * Counters :=
  let n := (layerCounter c + 1)%N in
  (render_id (JS.nullish prefix "layer") n (JS.toString36 now),
   {| layerCounter := n; sourceCounter := sourceCounter c |}).

(** [generateSourceId(prefix = 'source')] *)
Definition generateSourceId (prefix : option string) (now : Z) (c : Counters)
    : string * Counters :=
  let n := (sourceCounter c + 1)%N in
  (render_id (JS.nullish prefix "source") n (JS.toString36 now),
   {| layerCounter := layerCounter c; sourceCounter := n |}).

Definition resetCounters (c : Counters) : Counters :=
  {| layerCounter := 0; sourceCounter := 0 |}.

(** [options.id || generate(prefix)]: the generator runs, and reads the
    clock, only when the caller gave no usable identifier. *)
Definition id_or_generate (given : option string)
    (generate : option string -> Z -> Counters -> string * Counters)
    (prefix : string) (now : Z) (c : Counters) : string * Counters :=
  match given with
  | Some s => if JS.truthy_string s then (s, c) else generate (Some prefix) now c
  | None => generate (Some prefix) now c
  end.

(** A run of the generator: the calls made and what they returned. *)
Inductive IdCall : Type :=
| CallLayerId (prefix : option string) (now : Z)
| CallSourceId (prefix : option string) (now : Z)
| CallReset.

Inductive IdKind : Type := LayerId | SourceId.

#[export] Instance IdKind_eq_dec : EqDecision IdKind.
Proof. solve_decision. Defined.

(** One generated identifier: its kind, the category prefix used, the
    counter value [n], the time suffix, and the string returned. *)
Record Generated : Type := {
  gen_kind : IdKind;
  gen_prefix : string;
  gen_n : N;
  gen_suffix : string;
  gen_id : string;
}.

Definition id_step (c : Counters) (call : IdCall)
    : Counters * option Generated :=
  match call with
  | CallLayerId prefix now =>
      let r := generateLayerId prefix now c in
      (snd r,
       Some {| gen_kind := LayerId; gen_prefix := JS.nullish prefix "layer";
               gen_n := layerCounter (snd r);
               gen_suffix := JS.toString36 now; gen_id := fst r |})
  | CallSourceId prefix now =>
      let r := generateSourceId prefix now c in
      (snd r,
       Some {| gen_kind := SourceId; gen_prefix := JS.nullish prefix "source";
               gen_n := sourceCounter (snd r);
               gen_suffix := JS.toString36 now; gen_id := fst r |})
  | CallReset => (resetCounters c, None)
  end.

Fixpoint id_run (c : Counters) (calls : list IdCall)
    : Counters * list Generated :=
  match calls with
  | [] => (c, [])
  | call :: rest =>
      let '(c1, g) := id_step c call in
      let '(c2, gs) := id_run c1 rest in
      (c2, match g with Some x => x :: gs | None => gs end)
  end.

Definition is_reset (call : IdCall) : bool :=
  match call with CallReset => true | _ => false end.

(** The counter values handed out to identifiers of one kind, in call
    order. *)
Definition ns_of (k : IdKind) (gs : list Generated) : list N :=
  List.map gen_n (List.filter (fun g => bool_decide (gen_kind g = k)) gs).

(** The counter values [c + 1, ..., c + k]. *)
Definition following (c : N) (k : nat) : list N :=
  List.map (fun i => (c + N.of_nat i)%N) (List.seq 1 k).

(** How many calls of a run ask for an identifier of kind [k]. *)
Definition calls_of (k : IdKind) (calls : list IdCall) : nat :=
  length (List.filter
            (fun call => match call, k with
                         | CallLayerId _ _, LayerId => true
                         | CallSourceId _ _, SourceId => true
                         | _, _ => false
                         end) calls).

(* ===================================================================== *)
(** ** [lib/basemaps/types.ts], [lib/basemaps/catalog.ts] *)
(* ===================================================================== *)

Definition BasemapName : Type := string.

Record BasemapDefinition : Type := {
  name : string;
  url : string;
  attribution : string;
  maxZoom : option JS.number;
  minZoom : option JS.number;
  subdomains : option string;
  tileSize : option JS.number;
}.

(** The double quote character, for the anchors in attribution texts. *)
Definition dq : string := String (ascii_of_nat 34) "".

(** Every catalog entry gives [name], [url], [attribution], [maxZoom] and
    possibly [subdomains]. *)
Definition mkBasemap (name url attribution : string) (maxZoom : Z)
    (subdomains : option string) : BasemapDefinition :=
  {| name := name; url := url; attribution := attribution;
     maxZoom := Some (JS.of_int maxZoom 0); minZoom := None;
     subdomains := subdomains; tileSize := None |}.

Definition basemaps : JS.obj BasemapDefinition := [
  ("OpenStreetMap.Mapnik",
   mkBasemap "OpenStreetMap"
     "https://tile.openstreetmap.org/{z}/{x}/{y}.png"
     ("&copy; <a href=" +:+ dq +:+ "https://www.openstreetmap.org/copyright" +:+ dq +:+ ">OpenStreetMap</a> contributors")
     19 None);
  ("OpenStreetMap.DE",
   mkBasemap "OpenStreetMap DE"
     "https://tile.openstreetmap.de/{z}/{x}/{y}.png"
     ("&copy; <a href=" +:+ dq +:+ "https://www.openstreetmap.org/copyright" +:+ dq +:+ ">OpenStreetMap</a> contributors")
     18 None);
  ("OpenStreetMap.France",
   mkBasemap "OpenStreetMap France"
     "https://{s}.tile.openstreetmap.fr/osmfr/{z}/{x}/{y}.png"
     ("&copy; OpenStreetMap France | &copy; <a href=" +:+ dq +:+ "https://www.openstreetmap.org/copyright" +:+ dq +:+ ">OpenStreetMap</a> contributors")
     20 (Some "abc"));
  ("OpenStreetMap.HOT",
   mkBasemap "OpenStreetMap HOT"
     "https://{s}.tile.openstreetmap.fr/hot/{z}/{x}/{y}.png"
     ("&copy; <a href=" +:+ dq +:+ "https://www.openstreetmap.org/copyright" +:+ dq +:+ ">OpenStreetMap</a> contributors, Tiles style by <a href=" +:+ dq +:+ "https://www.hotosm.org/" +:+ dq +:+ ">Humanitarian OpenStreetMap Team</a>")
     19 (Some "abc"));
  ("CartoDB.Positron",
   mkBasemap "CartoDB Positron"
     "https://{s}.basemaps.cartocdn.com/light_all/{z}/{x}/{y}{r}.png"
     ("&copy; <a href=" +:+ dq +:+ "https://www.openstreetmap.org/copyright" +:+ dq +:+ ">OpenStreetMap</a> contributors &copy; <a href=" +:+ dq +:+ "https://carto.com/attributions" +:+ dq +:+ ">CARTO</a>")
     20 (Some "abcd"));
  ("CartoDB.PositronNoLabels",
   mkBasemap "CartoDB Positron (No Labels)"
     "https://{s}.basemaps.cartocdn.com/light_nolabels/{z}/{x}/{y}{r}.png"
     ("&copy; <a href=" +:+ dq +:+ "https://www.openstreetmap.org/copyright" +:+ dq +:+ ">OpenStreetMap</a> contributors &copy; <a href=" +:+ dq +:+ "https://carto.com/attributions" +:+ dq +:+ ">CARTO</a>")
     20 (Some "abcd"));
  ("CartoDB.PositronOnlyLabels",
   mkBasemap "CartoDB Positron (Labels Only)"
     "https://{s}.basemaps.cartocdn.com/light_only_labels/{z}/{x}/{y}{r}.png"
     ("&copy; <a href=" +:+ dq +:+ "https://www.openstreetmap.org/copyright" +:+ dq +:+ ">OpenStreetMap</a> contributors &copy; <a href=" +:+ dq +:+ "https://carto.com/attributions" +:+ dq +:+ ">CARTO</a>")
     20 (Some "abcd"));
  ("CartoDB.DarkMatter",
   mkBasemap "CartoDB Dark Matter"
     "https://{s}.basemaps.cartocdn.com/dark_all/{z}/{x}/{y}{r}.png"
     ("&copy; <a href=" +:+ dq +:+ "https://www.openstreetmap.org/copyright" +:+ dq +:+ ">OpenStreetMap</a> contributors &copy; <a href=" +:+ dq +:+ "https://carto.com/attributions" +:+ dq +:+ ">CARTO</a>")
     20 (Some "abcd"));
  ("CartoDB.DarkMatterNoLabels",
   mkBasemap "CartoDB Dark Matter (No Labels)"
     "https://{s}.basemaps.cartocdn.com/dark_nolabels/{z}/{x}/{y}{r}.png"
     ("&copy; <a href=" +:+ dq +:+ "https://www.openstreetmap.org/copyright" +:+ dq +:+ ">OpenStreetMap</a> contributors &copy; <a href=" +:+ dq +:+ "https://carto.com/attributions" +:+ dq +:+ ">CARTO</a>")
     20 (Some "abcd"));
  ("CartoDB.DarkMatterOnlyLabels",
   mkBasemap "CartoDB Dark Matter (Labels Only)"
     "https://{s}.basemaps.cartocdn.com/dark_only_labels/{z}/{x}/{y}{r}.png"
     ("&copy; <a href=" +:+ dq +:+ "https://www.openstreetmap.org/copyright" +:+ dq +:+ ">OpenStreetMap</a> contributors &copy; <a href=" +:+ dq +:+ "https://carto.com/attributions" +:+ dq +:+ ">CARTO</a>")
     20 (Some "abcd"));
  ("CartoDB.Voyager",
   mkBasemap "CartoDB Voyager"
     "https://{s}.basemaps.cartocdn.com/rastertiles/voyager/{z}/{x}/{y}{r}.png"
     ("&copy; <a href=" +:+ dq +:+ "https://www.openstreetmap.org/copyright" +:+ dq +:+ ">OpenStreetMap</a> contributors &copy; <a href=" +:+ dq +:+ "https://carto.com/attributions" +:+ dq +:+ ">CARTO</a>")
     20 (Some "abcd"));
  ("CartoDB.VoyagerNoLabels",
   mkBasemap "CartoDB Voyager (No Labels)"
     "https://{s}.basemaps.cartocdn.com/rastertiles/voyager_nolabels/{z}/{x}/{y}{r}.png"
     ("&copy; <a href=" +:+ dq +:+ "https://www.openstreetmap.org/copyright" +:+ dq +:+ ">OpenStreetMap</a> contributors &copy; <a href=" +:+ dq +:+ "https://carto.com/attributions" +:+ dq +:+ ">CARTO</a>")
     20 (Some "abcd"));
  ("CartoDB.VoyagerOnlyLabels",
   mkBasemap "CartoDB Voyager (Labels Only)"
     "https://{s}.basemaps.cartocdn.com/rastertiles/voyager_only_labels/{z}/{x}/{y}{r}.png"
     ("&copy; <a href=" +:+ dq +:+ "https://www.openstreetmap.org/copyright" +:+ dq +:+ ">OpenStreetMap</a> contributors &copy; <a href=" +:+ dq +:+ "https://carto.com/attributions" +:+ dq +:+ ">CARTO</a>")
     20 (Some "abcd"));
  ("CartoDB.VoyagerLabelsUnder",
   mkBasemap "CartoDB Voyager (Labels Under)"
     "https://{s}.basemaps.cartocdn.com/rastertiles/voyager_labels_under/{z}/{x}/{y}{r}.png"
     ("&copy; <a href=" +:+ dq +:+ "https://www.openstreetmap.org/copyright" +:+ dq +:+ ">OpenStreetMap</a> contributors &copy; <a href=" +:+ dq +:+ "https://carto.com/attributions" +:+ dq +:+ ">CARTO</a>")
     20 (Some "abcd"));
  ("Esri.WorldStreetMap",
   mkBasemap "Esri World Street Map"
     "https://server.arcgisonline.com/ArcGIS/rest/services/World_Street_Map/MapServer/tile/{z}/{y}/{x}"
     "Tiles &copy; Esri"
     19 None);
  ("Esri.DeLorme",
   mkBasemap "Esri DeLorme"
     "https://server.arcgisonline.com/ArcGIS/rest/services/Specialty/DeLorme_World_Base_Map/MapServer/tile/{z}/{y}/{x}"
     "Tiles &copy; Esri &mdash; Copyright: &copy;2012 DeLorme"
     11 None);
  ("Esri.WorldTopoMap",
   mkBasemap "Esri World Topo Map"
     "https://server.arcgisonline.com/ArcGIS/rest/services/World_Topo_Map/MapServer/tile/{z}/{y}/{x}"
     "Tiles &copy; Esri"
     19 None);
  ("Esri.WorldImagery",
   mkBasemap "Esri World Imagery"
     "https://server.arcgisonline.com/ArcGIS/rest/services/World_Imagery/MapServer/tile/{z}/{y}/{x}"
     "Tiles &copy; Esri"
     19 None);
  ("Esri.WorldTerrain",
   mkBasemap "Esri World Terrain"
     "https://server.arcgisonline.com/ArcGIS/rest/services/World_Terrain_Base/MapServer/tile/{z}/{y}/{x}"
     "Tiles &copy; Esri"
     13 None);
  ("Esri.WorldShadedRelief",
   mkBasemap "Esri World Shaded Relief"
     "https://server.arcgisonline.com/ArcGIS/rest/services/World_Shaded_Relief/MapServer/tile/{z}/{y}/{x}"
     "Tiles &copy; Esri"
     13 None);
  ("Esri.WorldPhysical",
   mkBasemap "Esri World Physical"
     "https://server.arcgisonline.com/ArcGIS/rest/services/World_Physical_Map/MapServer/tile/{z}/{y}/{x}"
     "Tiles &copy; Esri"
     8 None);
  ("Esri.OceanBasemap",
   mkBasemap "Esri Ocean Basemap"
     "https://server.arcgisonline.com/ArcGIS/rest/services/Ocean/World_Ocean_Base/MapServer/tile/{z}/{y}/{x}"
     "Tiles &copy; Esri"
     13 None);
  ("Esri.NatGeoWorldMap",
   mkBasemap "Esri National Geographic World Map"
     "https://server.arcgisonline.com/ArcGIS/rest/services/NatGeo_World_Map/MapServer/tile/{z}/{y}/{x}"
     "Tiles &copy; Esri"
     16 None);
  ("Esri.WorldGrayCanvas",
   mkBasemap "Esri World Gray Canvas"
     "https://server.arcgisonline.com/ArcGIS/rest/services/Canvas/World_Light_Gray_Base/MapServer/tile/{z}/{y}/{x}"
     "Tiles &copy; Esri"
     16 None);
  ("OpenTopoMap",
   mkBasemap "OpenTopoMap"
     "https://{s}.tile.opentopomap.org/{z}/{x}/{y}.png"
     ("Map data: &copy; <a href=" +:+ dq +:+ "https://www.openstreetmap.org/copyright" +:+ dq +:+ ">OpenStreetMap</a> contributors, <a href=" +:+ dq +:+ "http://viewfinderpanoramas.org" +:+ dq +:+ ">SRTM</a> | Map style: &copy; <a href=" +:+ dq +:+ "https://opentopomap.org" +:+ dq +:+ ">OpenTopoMap</a> (<a href=" +:+ dq +:+ "https://creativecommons.org/licenses/by-sa/3.0/" +:+ dq +:+ ">CC-BY-SA</a>)")
     17 (Some "abc"));
  ("USGS.USTopo",
   mkBasemap "USGS US Topo"
     "https://basemap.nationalmap.gov/arcgis/rest/services/USGSTopo/MapServer/tile/{z}/{y}/{x}"
     ("Tiles courtesy of the <a href=" +:+ dq +:+ "https://usgs.gov/" +:+ dq +:+ ">U.S. Geological Survey</a>")
     20 None);
  ("USGS.USImagery",
   mkBasemap "USGS US Imagery"
     "https://basemap.nationalmap.gov/arcgis/rest/services/USGSImageryOnly/MapServer/tile/{z}/{y}/{x}"
     ("Tiles courtesy of the <a href=" +:+ dq +:+ "https://usgs.gov/" +:+ dq +:+ ">U.S. Geological Survey</a>")
     20 None);
  ("USGS.USImageryTopo",
   mkBasemap "USGS US Imagery Topo"
     "https://basemap.nationalmap.gov/arcgis/rest/services/USGSImageryTopo/MapServer/tile/{z}/{y}/{x}"
     ("Tiles courtesy of the <a href=" +:+ dq +:+ "https://usgs.gov/" +:+ dq +:+ ">U.S. Geological Survey</a>")
     20 None);
  ("Stadia.AlidadeSmooth",
   mkBasemap "Stadia Alidade Smooth"
     "https://tiles.stadiamaps.com/tiles/alidade_smooth/{z}/{x}/{y}{r}.png"
     ("&copy; <a href=" +:+ dq +:+ "https://stadiamaps.com/" +:+ dq +:+ ">Stadia Maps</a>, &copy; <a href=" +:+ dq +:+ "https://openmaptiles.org/" +:+ dq +:+ ">OpenMapTiles</a> &copy; <a href=" +:+ dq +:+ "http://openstreetmap.org" +:+ dq +:+ ">OpenStreetMap</a> contributors")
     20 None);
  ("Stadia.AlidadeSmoothDark",
   mkBasemap "Stadia Alidade Smooth Dark"
     "https://tiles.stadiamaps.com/tiles/alidade_smooth_dark/{z}/{x}/{y}{r}.png"
     ("&copy; <a href=" +:+ dq +:+ "https://stadiamaps.com/" +:+ dq +:+ ">Stadia Maps</a>, &copy; <a href=" +:+ dq +:+ "https://openmaptiles.org/" +:+ dq +:+ ">OpenMapTiles</a> &copy; <a href=" +:+ dq +:+ "http://openstreetmap.org" +:+ dq +:+ ">OpenStreetMap</a> contributors")
     20 None);
  ("Stadia.OSMBright",
   mkBasemap "Stadia OSM Bright"
     "https://tiles.stadiamaps.com/tiles/osm_bright/{z}/{x}/{y}{r}.png"
     ("&copy; <a href=" +:+ dq +:+ "https://stadiamaps.com/" +:+ dq +:+ ">Stadia Maps</a>, &copy; <a href=" +:+ dq +:+ "https://openmaptiles.org/" +:+ dq +:+ ">OpenMapTiles</a> &copy; <a href=" +:+ dq +:+ "http://openstreetmap.org" +:+ dq +:+ ">OpenStreetMap</a> contributors")
     20 None);
  ("Stadia.Outdoors",
   mkBasemap "Stadia Outdoors"
     "https://tiles.stadiamaps.com/tiles/outdoors/{z}/{x}/{y}{r}.png"
     ("&copy; <a href=" +:+ dq +:+ "https://stadiamaps.com/" +:+ dq +:+ ">Stadia Maps</a>, &copy; <a href=" +:+ dq +:+ "https://openmaptiles.org/" +:+ dq +:+ ">OpenMapTiles</a> &copy; <a href=" +:+ dq +:+ "http://openstreetmap.org" +:+ dq +:+ ">OpenStreetMap</a> contributors")
     20 None);
  ("Stadia.StamenToner",
   mkBasemap "Stadia Stamen Toner"
     "https://tiles.stadiamaps.com/tiles/stamen_toner/{z}/{x}/{y}{r}.png"
     ("&copy; <a href=" +:+ dq +:+ "https://stadiamaps.com/" +:+ dq +:+ ">Stadia Maps</a>, &copy; <a href=" +:+ dq +:+ "https://stamen.com/" +:+ dq +:+ ">Stamen Design</a> &copy; <a href=" +:+ dq +:+ "http://openstreetmap.org" +:+ dq +:+ ">OpenStreetMap</a> contributors")
     20 None);
  ("Stadia.StamenTonerLite",
   mkBasemap "Stadia Stamen Toner Lite"
     "https://tiles.stadiamaps.com/tiles/stamen_toner_lite/{z}/{x}/{y}{r}.png"
     ("&copy; <a href=" +:+ dq +:+ "https://stadiamaps.com/" +:+ dq +:+ ">Stadia Maps</a>, &copy; <a href=" +:+ dq +:+ "https://stamen.com/" +:+ dq +:+ ">Stamen Design</a> &copy; <a href=" +:+ dq +:+ "http://openstreetmap.org" +:+ dq +:+ ">OpenStreetMap</a> contributors")
     20 None);
  ("Stadia.StamenWatercolor",
   mkBasemap "Stadia Stamen Watercolor"
     "https://tiles.stadiamaps.com/tiles/stamen_watercolor/{z}/{x}/{y}.jpg"
     ("&copy; <a href=" +:+ dq +:+ "https://stadiamaps.com/" +:+ dq +:+ ">Stadia Maps</a>, &copy; <a href=" +:+ dq +:+ "https://stamen.com/" +:+ dq +:+ ">Stamen Design</a> &copy; <a href=" +:+ dq +:+ "http://openstreetmap.org" +:+ dq +:+ ">OpenStreetMap</a> contributors")
     16 None);
  ("Stadia.StamenTerrain",
   mkBasemap "Stadia Stamen Terrain"
     "https://tiles.stadiamaps.com/tiles/stamen_terrain/{z}/{x}/{y}{r}.png"
     ("&copy; <a href=" +:+ dq +:+ "https://stadiamaps.com/" +:+ dq +:+ ">Stadia Maps</a>, &copy; <a href=" +:+ dq +:+ "https://stamen.com/" +:+ dq +:+ ">Stamen Design</a> &copy; <a href=" +:+ dq +:+ "http://openstreetmap.org" +:+ dq +:+ ">OpenStreetMap</a> contributors")
     18 None);
  ("Google.Streets",
   mkBasemap "Google Streets"
     "https://mt1.google.com/vt/lyrs=m&x={x}&y={y}&z={z}"
     "&copy; Google"
     21 None);
  ("Google.Satellite",
   mkBasemap "Google Satellite"
     "https://mt1.google.com/vt/lyrs=s&x={x}&y={y}&z={z}"
     "&copy; Google"
     21 None);
  ("Google.Hybrid",
   mkBasemap "Google Hybrid"
     "https://mt1.google.com/vt/lyrs=y&x={x}&y={y}&z={z}"
     "&copy; Google"
     21 None);
  ("Google.Terrain",
   mkBasemap "Google Terrain"
     "https://mt1.google.com/vt/lyrs=p&x={x}&y={y}&z={z}"
     "&copy; Google"
     21 None)
].

(* ===================================================================== *)
(** ** [lib/layers/types.ts] *)
(* ===================================================================== *)

(** ['fill' | 'line' | 'circle'] *)
Inductive StyleKind : Type := fill | line | circle.

Definition StyleKind_name (k : StyleKind) : string :=
  match k with fill => "fill" | line => "line" | circle => "circle" end.

Module AddGeojsonOptions.
Record t : Type := {
  layerId : option string;
  sourceId : option string;
  type : option StyleKind;
  paint : option (JS.obj value);
  opacity : option JS.number;
  fillColor : option string;
  fillOpacity : option JS.number;
  lineColor : option string;
  lineWidth : option JS.number;
  circleRadius : option JS.number;
  circleColor : option string;
  circleStrokeColor : option string;
  circleStrokeWidth : option JS.number;
  fitBounds : option bool;
  fitBoundsOptions : option FitBoundsOptions;
  minzoom : option JS.number;
  maxzoom : option JS.number;
  beforeId : option string;
}.
(** [{}], the default argument *)
Definition empty : t :=
  {| layerId := None; sourceId := None; type := None; paint := None;
     opacity := None; fillColor := None; fillOpacity := None;
     lineColor := None; lineWidth := None; circleRadius := None;
     circleColor := None; circleStrokeColor := None;
     circleStrokeWidth := None; fitBounds := None; fitBoundsOptions := None;
     minzoom := None; maxzoom := None; beforeId := None |}.
End AddGeojsonOptions.

Module AddRasterOptions.
Record t : Type := {
  layerId : option string;
  sourceId : option string;
  tileSize : option JS.number;
  opacity : option JS.number;
  attribution : option string;
  minzoom : option JS.number;
  maxzoom : option JS.number;
  bounds : option BBox;
  beforeId : option string;
}.
Definition empty : t :=
  {| layerId := None; sourceId := None; tileSize := None; opacity := None;
     attribution := None; minzoom := None; maxzoom := None; bounds := None;
     beforeId := None |}.
End AddRasterOptions.

(** [AddCogOptions extends AddRasterOptions] *)
Module AddCogOptions.
Record t : Type := {
  raster : AddRasterOptions.t;
  tileServerUrl : option string;
}.
Definition empty : t :=
  {| raster := AddRasterOptions.empty; tileServerUrl := None |}.
End AddCogOptions.

(** [AddWmsOptions extends AddRasterOptions] *)
Module AddWmsOptions.
Record t : Type := {
  raster : AddRasterOptions.t;
  layers : string;
  format : option string;
  version : option string;
  crs : option string;
  transparent : option bool;
  params : option (JS.obj string);
}.
End AddWmsOptions.

Module AddVectorOptions.
Record t : Type := {
  sourceId : option string;
  sourceLayer : option string;
  minzoom : option JS.number;
  maxzoom : option JS.number;
  attribution : option string;
  fitBounds : option bool;
  type : option StyleKind;
  fillColor : option string;
  lineColor : option string;
  lineWidth : option JS.number;
  circleRadius : option JS.number;
  circleColor : option string;
  opacity : option JS.number;
  layerId : option string;
  beforeId : option string;
}.
Definition empty : t :=
  {| sourceId := None; sourceLayer := None; minzoom := None; maxzoom := None;
     attribution := None; fitBounds := None; type := None; fillColor := None;
     lineColor := None; lineWidth := None; circleRadius := None;
     circleColor := None; opacity := None; layerId := None;
     beforeId := None |}.
End AddVectorOptions.

(** The [options: Record<string, unknown>] kept in a registry record: the
    options object of the creating call, with the members the call added
    ([url] for COG, [baseUrl] for WMS). *)
Inductive StoredOptions : Type :=
| GeojsonOptions (o : AddGeojsonOptions.t)
| VectorOptions (o : AddVectorOptions.t)
| RasterOptions (o : AddRasterOptions.t)
| CogOptions (o : AddCogOptions.t) (url : string)
| WmsOptions (o : AddWmsOptions.t) (baseUrl : string).

(** [options.opacity] *)
Definition options_opacity (o : StoredOptions) : option JS.number :=
  match o with
  | GeojsonOptions o => AddGeojsonOptions.opacity o
  | VectorOptions o => AddVectorOptions.opacity o
  | RasterOptions o => AddRasterOptions.opacity o
  | CogOptions o _ => AddRasterOptions.opacity (AddCogOptions.raster o)
  | WmsOptions o _ => AddRasterOptions.opacity (AddWmsOptions.raster o)
  end.

(** [options.bounds] *)
Definition options_bounds (o : StoredOptions) : option BBox :=
  match o with
  | GeojsonOptions _ | VectorOptions _ => None
  | RasterOptions o => AddRasterOptions.bounds o
  | CogOptions o _ => AddRasterOptions.bounds (AddCogOptions.raster o)
  | WmsOptions o _ => AddRasterOptions.bounds (AddWmsOptions.raster o)
  end.

Module LayerInfo.
Record t : Type := {
  layerId : string;
  sourceId : string;
  type : string;
  visible : bool;
  opacity : JS.number;
  options : StoredOptions;
}.
Definition set_visible (r : t) (v : bool) : t :=
  {| layerId := layerId r; sourceId := sourceId r; type := type r;
     visible := v; opacity := opacity r; options := options r |}.
Definition set_opacity (r : t) (o : JS.number) : t :=
  {| layerId := layerId r; sourceId := sourceId r; type := type r;
     visible := visible r; opacity := o; options := options r |}.
End LayerInfo.

(* ===================================================================== *)
(** ** The map instance *)
(* ===================================================================== *)

(** A map instance as the library sees it: the engine, the registry
    object kept under the property [__maplibreExtendLayers] (absent until
    first stored), and the entry of this map in the module-level
    [currentBasemapMap] (absent, [null], or a name). *)
Record Map (E : Type) : Type := {
  engine : E;
  LAYER_REGISTRY_KEY : option (gmap string LayerInfo.t);
  currentBasemapMap : option (option BasemapName);
}.
Arguments engine {E} m.
Arguments LAYER_REGISTRY_KEY {E} m.
Arguments currentBasemapMap {E} m.

Definition BASEMAP_SOURCE_ID : string := "__maplibre-extend-basemap".
Definition BASEMAP_LAYER_ID : string := "__maplibre-extend-basemap-layer".

Section Library.

Context {E : Type} `{Engine E}.

(** A call on the engine of a map. *)
Definition on_engine (f : E -> E) (map : Map E) : Map E :=
  {| engine := f (engine map);
     LAYER_REGISTRY_KEY := LAYER_REGISTRY_KEY map;
     currentBasemapMap := currentBasemapMap map |}.

(** [(map as Record)[LAYER_REGISTRY_KEY] = registry] *)
Definition set_registry (map : Map E) (registry : gmap string LayerInfo.t)
    : Map E :=
  {| engine := engine map;
     LAYER_REGISTRY_KEY := Some registry;
     currentBasemapMap := currentBasemapMap map |}.

(** [currentBasemapMap.set(map, name)] *)
Definition set_currentBasemap (map : Map E) (name : option BasemapName)
    : Map E :=
  {| engine := engine map;
     LAYER_REGISTRY_KEY := LAYER_REGISTRY_KEY map;
     currentBasemapMap := Some name |}.

(* ------------------------------------------------------------------- *)
(** *** [lib/layers/registry.ts] *)
(* ------------------------------------------------------------------- *)

Definition getLayerRegistry (map : Map E) : gmap string LayerInfo.t :=
  match LAYER_REGISTRY_KEY map with
  | Some registry => registry
  | None => ∅
  end.

Definition storeLayerInfo (map : Map E) (layerId sourceId type : string)
    (options : StoredOptions) : Map E :=
  let registry := getLayerRegistry map in
  set_registry map
    (<[layerId :=
         {| LayerInfo.layerId := layerId;
            LayerInfo.sourceId := sourceId;
            LayerInfo.type := type;
            LayerInfo.visible := true;
            LayerInfo.opacity := JS.nullish (options_opacity options) JS.one;
            LayerInfo.options := options |}]> registry).

Definition removeLayerInfo (map : Map E) (layerId : string) : Map E :=
  let registry := getLayerRegistry map in
  set_registry map (delete layerId registry).

(** The record is updated in place; a registry created on the fly by
    [getLayerRegistry] holds no record, so nothing is lost by not storing
    it back. *)
Definition updateLayerVisibility (map : Map E) (layerId : string)
    (visible : bool) : Map E :=
  let registry := getLayerRegistry map in
  match registry !! layerId with
  | Some r => set_registry map (<[layerId := LayerInfo.set_visible r visible]> registry)
  | None => map
  end.

Definition updateLayerOpacity (map : Map E) (layerId : string)
    (opacity : JS.number) : Map E :=
  let registry := getLayerRegistry map in
  match registry !! layerId with
  | Some r => set_registry map (<[layerId := LayerInfo.set_opacity r opacity]> registry)
  | None => map
  end.

(** [Object.values(registry)] *)
Definition getAllLayersFromRegistry (map : Map E) : list LayerInfo.t :=
  let registry := getLayerRegistry map in
  (map_to_list registry).*2.

Definition getLayerInfoById (map : Map E) (layerId : string)
    : option LayerInfo.t :=
  let registry := getLayerRegistry map in
  registry !! layerId.

End Library.

(* ===================================================================== *)
(** ** [lib/basemaps/index.ts] *)
(* ===================================================================== *)

Definition getBasemapNames : list BasemapName := JS.keys basemaps.

(** [basemaps[name]] *)
Definition getBasemapDefinition (name : BasemapName)
    : option BasemapDefinition :=
  JS.obj_get basemaps name.

(** [typeof window !== 'undefined' && window.devicePixelRatio > 1 ? '@2x' : '']
    with [retina] the outcome of the test in the caller's display
    environment. *)
Definition retina_suffix (retina : bool) : string :=
  if retina then "@2x" else "".

Definition buildTileUrls (retina : bool) (definition : BasemapDefinition)
    : list string :=
  let url := url definition in
  match subdomains definition with
  | Some subdomains =>
      if JS.truthy_string subdomains
      then List.map
             (fun s => JS.replace (JS.replace url "{s}" s) "{r}"
                         (retina_suffix retina))
             (JS.split_chars subdomains)
      else [JS.replace url "{r}" (retina_suffix retina)]
  | None => [JS.replace url "{r}" (retina_suffix retina)]
  end.

Section Basemaps.

Context {E : Type} `{Engine E}.

Definition removeBasemap (map : Map E) : Map E :=
  let map :=
    if JS.truthy (getLayer (engine map) BASEMAP_LAYER_ID)
    then on_engine (fun e => removeLayer e BASEMAP_LAYER_ID) map
    else map in
  let map :=
    if JS.truthy (getSource (engine map) BASEMAP_SOURCE_ID)
    then on_engine (fun e => removeSource e BASEMAP_SOURCE_ID) map
    else map in
  set_currentBasemap map None.

Definition addBasemap (retina : bool) (map : Map E) (name : BasemapName)
    : Map E * completion unit :=
  match getBasemapDefinition name with
  | None =>
      (map,
       Throw (Error ("Unknown basemap: " +:+ name
                     +:+ ". Available basemaps: "
                     +:+ JS.join ", " getBasemapNames)))
  | Some definition =>
      (* Remove existing basemap if present *)
      let map := removeBasemap map in
      (* Add the basemap source *)
      let map :=
        on_engine
          (fun e =>
             addSource e BASEMAP_SOURCE_ID
               {| src_type := "raster";
                  src_tiles := Some (buildTileUrls retina definition);
                  src_url := None;
                  src_data := None;
                  src_tileSize :=
                    Some (JS.or_number (tileSize definition) (JS.of_int 256 0));
                  src_attribution := Some (attribution definition);
                  src_bounds := None;
                  src_minzoom :=
                    Some (JS.or_number (minZoom definition) JS.zero);
                  src_maxzoom :=
                    Some (JS.or_number (maxZoom definition) (JS.of_int 22 0))
               |}) map in
      (* Add the basemap layer at the bottom *)
      let layers := default [] (getStyle_layers (engine map)) in
      let firstLayerId :=
        match layers with
        | first :: _ => Some (AddLayerObject.id first)
        | [] => None
        end in
      let map :=
        on_engine
          (fun e =>
             addLayer e
               {| AddLayerObject.id := BASEMAP_LAYER_ID;
                  AddLayerObject.type := "raster";
                  AddLayerObject.source := BASEMAP_SOURCE_ID;
                  AddLayerObject.source_layer := None;
                  AddLayerObject.paint := [("raster-opacity", VNum JS.one)];
                  AddLayerObject.minzoom := None;
                  AddLayerObject.maxzoom := None |}
               firstLayerId) map in
      (* Track current basemap *)
      (set_currentBasemap map (Some name), Return tt)
  end.

(** Alias for [addBasemap]. *)
Definition setBasemap (retina : bool) (map : Map E) (name : BasemapName)
    : Map E * completion unit :=
  addBasemap retina map name.

(** [currentBasemapMap.get(map) || null] *)
Definition getBasemap (map : Map E) : option BasemapName :=
  match currentBasemapMap map with
  | Some (Some name) => if JS.truthy_string name then Some name else None
  | _ => None
  end.

End Basemaps.

(* ===================================================================== *)
(** ** [lib/utils/validation.ts] *)
(* ===================================================================== *)

(** [validNames.includes(name)] *)
Definition Array_includes (xs : list string) (x : string) : bool :=
  existsb (String.eqb x) xs.

Definition validateBasemapName (name : string) : completion unit :=
  let validNames := getBasemapNames in
  if negb (Array_includes validNames name)
  then Throw (MapExtendError
                ("Unknown basemap: " +:+ name +:+ ". Valid options: "
                 +:+ JS.join ", " validNames)
                "UNKNOWN_BASEMAP"
                (Some [("name", VStr name);
                       ("validNames", VArr (List.map VStr validNames))]))
  else Return tt.

Definition clamp (value min max : JS.number) : JS.number :=
  JS.Math_min (JS.Math_max value min) max.

(* ===================================================================== *)
(** ** [lib/layers/geojson.ts] *)
(* ===================================================================== *)

(** ['Point' | 'LineString' | 'Polygon' | 'Mixed'] *)
Inductive GeometryType : Type := TPoint | TLineString | TPolygon | TMixed.

#[export] Instance GeometryType_eq_dec : EqDecision GeometryType.
Proof. solve_decision. Defined.

(** The three [includes] tests on a possibly missing [type]:
    [t?.includes('Point')], then ['Line'], then ['Polygon']. *)
Definition family (t : option string) : option GeometryType :=
  match t with
  | Some t =>
      if JS.includes t "Point" then Some TPoint
      else if JS.includes t "Line" then Some TLineString
      else if JS.includes t "Polygon" then Some TPolygon
      else None
  | None => None
  end.

(** [new Set(xs)]: the distinct values in order of first occurrence. *)
Fixpoint Set_of {A} `{EqDecision A} (xs : list A) : list A :=
  match xs with
  | [] => []
  | x :: rest => x :: List.filter (fun y => negb (bool_decide (y = x))) (Set_of rest)
  end.

Definition detectGeometryType (data : GeoJSON) : GeometryType :=
  let in_feature :=
    match data with
    | GFeature f => family (Geometry_type <$> geometry f)
    | _ => None
    end in
  match in_feature with
  | Some t => t
  | None =>
      match data with
      | GFeatureCollection features =>
          let types :=
            Set_of (List.map
                      (fun f => default TMixed
                                  (family (Geometry_type <$> geometry f)))
                      features) in
          match types with
          | [t] => t
          | _ => TMixed
          end
      | _ =>
          (* Geometry object *)
          default TMixed (family (Some (GeoJSON_type data)))
      end
  end.

Definition getDefaultLayerType (geometryType : GeometryType) : StyleKind :=
  match geometryType with
  | TPoint => circle
  | TLineString => line
  | TPolygon => fill
  | _ => fill
  end.

(** The running [minLng, minLat, maxLng, maxLat] of [calculateBbox]. *)
Definition Extent : Type := (JS.number * JS.number * JS.number * JS.number)%type.

Definition processCoords (acc : Extent) (coords : Position) : Extent :=
  let '(minLng, minLat, maxLng, maxLat) := acc in
  match coords with
  | lng :: lat :: _ =>
      (JS.Math_min minLng lng, JS.Math_min minLat lat,
       JS.Math_max maxLng lng, JS.Math_max maxLat lat)
  | _ => acc
  end.

Definition forEach {A S} (f : S -> A -> S) (xs : list A) (acc : S) : S :=
  fold_left f xs acc.

Fixpoint processGeometry (acc : Extent) (geom : Geometry) : Extent :=
  match geom with
  | Point coordinates => processCoords acc coordinates
  | MultiPoint coordinates
  | LineString coordinates => forEach processCoords coordinates acc
  | MultiLineString coordinates
  | Polygon coordinates =>
      forEach (fun acc ring => forEach processCoords ring acc) coordinates acc
  | MultiPolygon coordinates =>
      forEach (fun acc poly =>
                 forEach (fun acc ring => forEach processCoords ring acc)
                         poly acc)
              coordinates acc
  | GeometryCollection geometries =>
      (fix each (gs : list Geometry) (acc : Extent) : Extent :=
         match gs with
         | [] => acc
         | g :: rest => each rest (processGeometry acc g)
         end) geometries acc
  end.

Definition processGeometry_opt (acc : Extent) (geom : option Geometry)
    : Extent :=
  match geom with
  | Some g => processGeometry acc g
  | None => acc
  end.

Definition calculateBbox (data : GeoJSON) : option BBox :=
  let start : Extent :=
    (JS.Infinity, JS.Infinity, JS.neg_Infinity, JS.neg_Infinity) in
  let '(minLng, minLat, maxLng, maxLat) :=
    match data with
    | GFeature f => processGeometry_opt start (geometry f)
    | GFeatureCollection features =>
        forEach (fun acc f => processGeometry_opt acc (geometry f))
                features start
    | GGeometry g => processGeometry start g
    end in
  if JS.strict_eq minLng JS.Infinity then None
  else Some (minLng, minLat, maxLng, maxLat).

(** The [data] argument: a GeoJSON object, or a URL together with what
    [fetch(data)] followed by [response.json()] yields for it. *)
Inductive GeojsonData : Type :=
| Inline (data : GeoJSON)
| FromUrl (url : string) (fetched : completion GeoJSON).

(** The clock readings a creation call may take: one for the source
    identifier and one for the layer identifier. *)
Record Clock : Type := { source_now : Z; layer_now : Z }.

Definition bounds_of (b : BBox) : LngLatBounds :=
  let '(w, s, e, n) := b in ((w, s), (e, n)).

Definition padding50 : JS.obj value := [("padding", VNum (JS.of_int 50 0))].

Definition geojson_paint (layerType : StyleKind) (options : AddGeojsonOptions.t)
    : JS.obj value :=
  let paint :=
    match layerType with
    | fill =>
        let paint :=
          JS.obj_literal
            [("fill-color",
              VStr (JS.or_string (AddGeojsonOptions.fillColor options) "#3388ff"));
             ("fill-opacity",
              VNum (JS.nullish (AddGeojsonOptions.fillOpacity options)
                      (JS.nullish (AddGeojsonOptions.opacity options) JS.half)))] in
        match AddGeojsonOptions.lineColor options with
        | Some c =>
            if JS.truthy_string c
            then JS.obj_set paint "fill-outline-color" (VStr c)
            else paint
        | None => paint
        end
    | line =>
        JS.obj_literal
          [("line-color",
            VStr (JS.or_string (AddGeojsonOptions.lineColor options) "#3388ff"));
           ("line-width",
            VNum (JS.nullish (AddGeojsonOptions.lineWidth options) (JS.of_int 2 0)));
           ("line-opacity",
            VNum (JS.nullish (AddGeojsonOptions.opacity options) JS.one))]
    | circle =>
        JS.obj_literal
          [("circle-color",
            VStr (JS.or_string (AddGeojsonOptions.circleColor options) "#3388ff"));
           ("circle-radius",
            VNum (JS.nullish (AddGeojsonOptions.circleRadius options) (JS.of_int 6 0)));
           ("circle-opacity",
            VNum (JS.nullish (AddGeojsonOptions.opacity options) JS.one));
           ("circle-stroke-color",
            VStr (JS.or_string (AddGeojsonOptions.circleStrokeColor options) "#ffffff"));
           ("circle-stroke-width",
            VNum (JS.nullish (AddGeojsonOptions.circleStrokeWidth options) JS.one))]
    end in
  (* Override with custom paint if provided *)
  match AddGeojsonOptions.paint options with
  | Some custom => JS.spread paint custom
  | None => paint
  end.

(** [options.type || getDefaultLayerType(detectGeometryType(geojsonData))] *)
Definition geojson_layerType (geojsonData : GeoJSON)
    (options : AddGeojsonOptions.t) : StyleKind :=
  let geometryType := detectGeometryType geojsonData in
  match AddGeojsonOptions.type options with
  | Some t => t
  | None => getDefaultLayerType geometryType
  end.

Definition geojson_source (geojsonData : GeoJSON) : SourceSpecification :=
  {| src_type := "geojson"; src_tiles := None; src_url := None;
     src_data := Some geojsonData; src_tileSize := None;
     src_attribution := None; src_bounds := None;
     src_minzoom := None; src_maxzoom := None |}.

(** The layer object [addGeojson] hands to [map.addLayer]. *)
Definition geojson_layer (layerId sourceId : string) (layerType : StyleKind)
    (options : AddGeojsonOptions.t) : AddLayerObject.t :=
  {| AddLayerObject.id := layerId;
     AddLayerObject.type := StyleKind_name layerType;
     AddLayerObject.source := sourceId;
     AddLayerObject.source_layer := None;
     AddLayerObject.paint := geojson_paint layerType options;
     AddLayerObject.minzoom := AddGeojsonOptions.minzoom options;
     AddLayerObject.maxzoom := AddGeojsonOptions.maxzoom options |}.

(** The geometry families of the specification: the family of a geometry,
    and the layer kind that goes with the geometries of a document. *)
Inductive Family : Type := PointFamily | LineFamily | PolygonFamily | NoFamily.

#[export] Instance Family_eq_dec : EqDecision Family.
Proof. solve_decision. Defined.

Definition family_of (g : Geometry) : Family :=
  match g with
  | Point _ | MultiPoint _ => PointFamily
  | LineString _ | MultiLineString _ => LineFamily
  | Polygon _ | MultiPolygon _ => PolygonFamily
  | GeometryCollection _ => NoFamily
  end.

Definition family_of_feature (f : Feature) : Family :=
  match geometry f with
  | Some g => family_of g
  | None => NoFamily
  end.

(** The detected type that stands for a family. *)
Definition type_of_family (f : Family) : GeometryType :=
  match f with
  | PointFamily => TPoint
  | LineFamily => TLineString
  | PolygonFamily => TPolygon
  | NoFamily => TMixed
  end.

Definition kind_of_family (f : Family) : StyleKind :=
  match f with
  | PointFamily => circle
  | LineFamily => line
  | PolygonFamily => fill
  | NoFamily => fill
  end.

(** A single geometry or feature renders by the family of its geometry; a
    feature collection renders by the family common to all its features,
    and as a fill layer when they are of different families (or when
    there is none). *)
Definition kind_by_geometry (data : GeoJSON) : StyleKind :=
  match data with
  | GGeometry g => kind_of_family (family_of g)
  | GFeature f => kind_of_family (family_of_feature f)
  | GFeatureCollection [] => fill
  | GFeatureCollection (f :: rest) =>
      if forallb (fun f' => bool_decide (family_of_feature f'
                                         = family_of_feature f)) rest
      then kind_of_family (family_of_feature f)
      else fill
  end.

Section Geojson.

Context {E : Type} `{Engine E}.

Definition addGeojson (map : Map E) (ids : Counters) (clock : Clock)
    (data : GeojsonData) (options : AddGeojsonOptions.t)
    : Map E * Counters * completion string :=
  let '(sourceId, ids) :=
    id_or_generate (AddGeojsonOptions.sourceId options) generateSourceId
      "geojson" (source_now clock) ids in
  let '(layerId, ids) :=
    id_or_generate (AddGeojsonOptions.layerId options) generateLayerId
      "geojson" (layer_now clock) ids in
  (* Fetch data if URL provided *)
  let fetched :=
    match data with
    | Inline d => Return d
    | FromUrl _ response => response
    end in
  match fetched with
  | Throw e => (map, ids, Throw e)
  | Return geojsonData =>
      (* Detect geometry type and layer type *)
      let layerType := geojson_layerType geojsonData options in
      (* Add source *)
      let map :=
        on_engine (fun e => addSource e sourceId (geojson_source geojsonData))
                  map in
      (* Add layer *)
      let map :=
        on_engine
          (fun e =>
             addLayer e (geojson_layer layerId sourceId layerType options)
                      (AddGeojsonOptions.beforeId options)) map in
      (* Fit bounds if requested *)
      let map :=
        if JS.nullish (AddGeojsonOptions.fitBounds options) false
        then match calculateBbox geojsonData with
             | Some bbox =>
                 on_engine
                   (fun e =>
                      fitBounds e (bounds_of bbox)
                        (JS.spread padding50
                           (JS.nullish
                              (AddGeojsonOptions.fitBoundsOptions options) [])))
                   map
             | None => map
             end
        else map in
      (* Store layer info for management *)
      let map :=
        storeLayerInfo map layerId sourceId "geojson" (GeojsonOptions options) in
      (map, ids, Return layerId)
  end.

Definition vector_paint (layerType : StyleKind) (options : AddVectorOptions.t)
    : JS.obj value :=
  match layerType with
  | fill =>
      JS.obj_literal
        [("fill-color",
          VStr (JS.or_string (AddVectorOptions.fillColor options) "#3388ff"));
         ("fill-opacity",
          VNum (JS.nullish (AddVectorOptions.opacity options) JS.half))]
  | line =>
      JS.obj_literal
        [("line-color",
          VStr (JS.or_string (AddVectorOptions.lineColor options) "#3388ff"));
         ("line-width",
          VNum (JS.nullish (AddVectorOptions.lineWidth options) (JS.of_int 2 0)));
         ("line-opacity",
          VNum (JS.nullish (AddVectorOptions.opacity options) JS.one))]
  | circle =>
      JS.obj_literal
        [("circle-color",
          VStr (JS.or_string (AddVectorOptions.circleColor options) "#3388ff"));
         ("circle-radius",
          VNum (JS.nullish (AddVectorOptions.circleRadius options) (JS.of_int 6 0)));
         ("circle-opacity",
          VNum (JS.nullish (AddVectorOptions.opacity options) JS.one))]
  end.

Definition addVector (map : Map E) (ids : Counters) (clock : Clock)
    (url : string) (options : AddVectorOptions.t)
    : Map E * Counters * string :=
  let '(sourceId, ids) :=
    id_or_generate (AddVectorOptions.sourceId options) generateSourceId
      "vector" (source_now clock) ids in
  let '(layerId, ids) :=
    id_or_generate (AddVectorOptions.layerId options) generateLayerId
      "vector" (layer_now clock) ids in
  let layerType := JS.nullish (AddVectorOptions.type options) fill in
  (* Determine source type based on URL *)
  let isPMTiles := JS.endsWith url ".pmtiles" in
  (* Add source *)
  let map :=
    if isPMTiles
    then on_engine
           (fun e =>
              addSource e sourceId
                {| src_type := "vector"; src_tiles := None;
                   src_url := Some ("pmtiles://" +:+ url);
                   src_data := None; src_tileSize := None;
                   src_attribution := AddVectorOptions.attribution options;
                   src_bounds := None; src_minzoom := None;
                   src_maxzoom := None |}) map
    else on_engine
           (fun e =>
              addSource e sourceId
                {| src_type := "vector"; src_tiles := Some [url];
                   src_url := None; src_data := None; src_tileSize := None;
                   src_attribution := AddVectorOptions.attribution options;
                   src_bounds := None;
                   src_minzoom := AddVectorOptions.minzoom options;
                   src_maxzoom := AddVectorOptions.maxzoom options |}) map in
  (* Add layer *)
  let map :=
    on_engine
      (fun e =>
         addLayer e
           {| AddLayerObject.id := layerId;
              AddLayerObject.type := StyleKind_name layerType;
              AddLayerObject.source := sourceId;
              AddLayerObject.source_layer :=
                Some (JS.or_string (AddVectorOptions.sourceLayer options) "");
              AddLayerObject.paint := vector_paint layerType options;
              AddLayerObject.minzoom := AddVectorOptions.minzoom options;
              AddLayerObject.maxzoom := AddVectorOptions.maxzoom options |}
           (AddVectorOptions.beforeId options)) map in
  (* Store layer info *)
  let map :=
    storeLayerInfo map layerId sourceId "vector" (VectorOptions options) in
  (map, ids, layerId).

End Geojson.

(* ===================================================================== *)
(** ** [lib/layers/raster.ts] *)
(* ===================================================================== *)

(** The ten computed members of the object given to
    [new URLSearchParams] by [addWmsLayer]. *)
Definition wms_defaults (options : AddWmsOptions.t) : JS.obj string :=
  JS.obj_literal
    [("service", "WMS");
     ("version", JS.or_string (AddWmsOptions.version options) "1.1.1");
     ("request", "GetMap");
     ("layers", AddWmsOptions.layers options);
     ("format", JS.or_string (AddWmsOptions.format options) "image/png");
     ("transparent",
      JS.String_of_bool (JS.nullish (AddWmsOptions.transparent options) true));
     ("srs", JS.or_string (AddWmsOptions.crs options) "EPSG:3857");
     ("width", "256");
     ("height", "256");
     ("bbox", "{bbox-epsg-3857}")].

(** The whole object: the computed members, then [...options.params]. *)
Definition wms_params (options : AddWmsOptions.t) : JS.obj string :=
  JS.spread (wms_defaults options) (JS.nullish (AddWmsOptions.params options) []).

(** [`${baseUrl}?${params.toString()}`] *)
Definition wmsUrl (baseUrl : string) (options : AddWmsOptions.t) : string :=
  baseUrl +:+ "?" +:+ JS.URLSearchParams_toString (wms_params options).

(** The tile URL of [addCogLayer]. *)
Definition cog_tileUrl (url : string) (options : AddCogOptions.t) : string :=
  match AddCogOptions.tileServerUrl options with
  | Some server =>
      if JS.truthy_string server
      then server +:+ "/cog/tiles/{z}/{x}/{y}?url=" +:+ JS.encodeURIComponent url
      else url
  | None => url
  end.

Definition raster_layer (layerId sourceId : string)
    (options : AddRasterOptions.t) : AddLayerObject.t :=
  {| AddLayerObject.id := layerId;
     AddLayerObject.type := "raster";
     AddLayerObject.source := sourceId;
     AddLayerObject.source_layer := None;
     AddLayerObject.paint :=
       [("raster-opacity",
         VNum (JS.nullish (AddRasterOptions.opacity options) JS.one))];
     AddLayerObject.minzoom := AddRasterOptions.minzoom options;
     AddLayerObject.maxzoom := AddRasterOptions.maxzoom options |}.

Section Raster.

Context {E : Type} `{Engine E}.

Definition addRaster (map : Map E) (ids : Counters) (clock : Clock)
    (url : string) (options : AddRasterOptions.t)
    : Map E * Counters * string :=
  let '(sourceId, ids) :=
    id_or_generate (AddRasterOptions.sourceId options) generateSourceId
      "raster" (source_now clock) ids in
  let '(layerId, ids) :=
    id_or_generate (AddRasterOptions.layerId options) generateLayerId
      "raster" (layer_now clock) ids in
  (* Add source *)
  let map :=
    on_engine
      (fun e =>
         addSource e sourceId
           {| src_type := "raster"; src_tiles := Some [url]; src_url := None;
              src_data := None;
              src_tileSize :=
                Some (JS.or_number (AddRasterOptions.tileSize options)
                                   (JS.of_int 256 0));
              src_attribution := AddRasterOptions.attribution options;
              src_bounds := AddRasterOptions.bounds options;
              src_minzoom := AddRasterOptions.minzoom options;
              src_maxzoom := AddRasterOptions.maxzoom options |}) map in
  (* Add layer *)
  let map :=
    on_engine
      (fun e => addLayer e (raster_layer layerId sourceId options)
                         (AddRasterOptions.beforeId options)) map in
  (* Store layer info *)
  let map :=
    storeLayerInfo map layerId sourceId "raster" (RasterOptions options) in
  (map, ids, layerId).

Definition addCogLayer (map : Map E) (ids : Counters) (clock : Clock)
    (url : string) (options : AddCogOptions.t)
    : Map E * Counters * string :=
  let raster := AddCogOptions.raster options in
  let '(sourceId, ids) :=
    id_or_generate (AddRasterOptions.sourceId raster) generateSourceId
      "cog" (source_now clock) ids in
  let '(layerId, ids) :=
    id_or_generate (AddRasterOptions.layerId raster) generateLayerId
      "cog" (layer_now clock) ids in
  let tileUrl := cog_tileUrl url options in
  (* Add source *)
  let map :=
    on_engine
      (fun e =>
         addSource e sourceId
           {| src_type := "raster"; src_tiles := Some [tileUrl];
              src_url := None; src_data := None;
              src_tileSize :=
                Some (JS.or_number (AddRasterOptions.tileSize raster)
                                   (JS.of_int 256 0));
              src_attribution := AddRasterOptions.attribution raster;
              src_bounds := AddRasterOptions.bounds raster;
              src_minzoom :=
                Some (JS.nullish (AddRasterOptions.minzoom raster) JS.zero);
              src_maxzoom :=
                Some (JS.nullish (AddRasterOptions.maxzoom raster)
                                 (JS.of_int 22 0)) |}) map in
  (* Add layer *)
  let map :=
    on_engine
      (fun e => addLayer e (raster_layer layerId sourceId raster)
                         (AddRasterOptions.beforeId raster)) map in
  (* Fit bounds if provided *)
  let map :=
    match AddRasterOptions.bounds raster with
    | Some bounds =>
        on_engine (fun e => fitBounds e (bounds_of bounds) padding50) map
    | None => map
    end in
  (* Store layer info *)
  let map :=
    storeLayerInfo map layerId sourceId "cog" (CogOptions options url) in
  (map, ids, layerId).

Definition addWmsLayer (map : Map E) (ids : Counters) (clock : Clock)
    (baseUrl : string) (options : AddWmsOptions.t)
    : Map E * Counters * string :=
  let raster := AddWmsOptions.raster options in
  let '(sourceId, ids) :=
    id_or_generate (AddRasterOptions.sourceId raster) generateSourceId
      "wms" (source_now clock) ids in
  let '(layerId, ids) :=
    id_or_generate (AddRasterOptions.layerId raster) generateLayerId
      "wms" (layer_now clock) ids in
  (* Build WMS tile URL with query parameters *)
  let wmsUrl := wmsUrl baseUrl options in
  (* Add source *)
  let map :=
    on_engine
      (fun e =>
         addSource e sourceId
           {| src_type := "raster"; src_tiles := Some [wmsUrl];
              src_url := None; src_data := None;
              src_tileSize :=
                Some (JS.or_number (AddRasterOptions.tileSize raster)
                                   (JS.of_int 256 0));
              src_attribution := AddRasterOptions.attribution raster;
              src_bounds := AddRasterOptions.bounds raster;
              src_minzoom := None; src_maxzoom := None |}) map in
  (* Add layer *)
  let map :=
    on_engine
      (fun e => addLayer e (raster_layer layerId sourceId raster)
                         (AddRasterOptions.beforeId raster)) map in
  (* Store layer info *)
  let map :=
    storeLayerInfo map layerId sourceId "wms" (WmsOptions options baseUrl) in
  (map, ids, layerId).

End Raster.

(* ===================================================================== *)
(** ** [lib/layers/management.ts] *)
(* ===================================================================== *)

(** [layers.findIndex(pred)], [None] standing for [-1]. *)
Fixpoint findIndex {A} (pred : A -> bool) (xs : list A) : option nat :=
  match xs with
  | [] => None
  | x :: rest => if pred x then Some 0 else S <$> findIndex pred rest
  end.

(** The paint properties that carry the opacity of a layer of a given
    type, in the order they are to be set: one for fill, line, circle and
    raster layers, two for symbol layers, none for any other type. *)
Definition opacity_properties (layerType : string) : list string :=
  if String.eqb layerType "fill" then ["fill-opacity"]
  else if String.eqb layerType "line" then ["line-opacity"]
  else if String.eqb layerType "circle" then ["circle-opacity"]
  else if String.eqb layerType "raster" then ["raster-opacity"]
  else if String.eqb layerType "symbol" then ["icon-opacity"; "text-opacity"]
  else [].

Section Management.

Context {E : Type} `{Engine E}.

Definition removeLayerById (map : Map E) (layerId : string) : Map E :=
  let layerInfo := getLayerInfoById map layerId in
  (* Remove the layer *)
  let map :=
    if JS.truthy (getLayer (engine map) layerId)
    then on_engine (fun e => removeLayer e layerId) map
    else map in
  (* Remove the source if we have info about it *)
  let map :=
    match layerInfo with
    | Some layerInfo =>
        if JS.truthy (getSource (engine map) (LayerInfo.sourceId layerInfo))
        then
          (* Check if any other layers are using this source *)
          let allLayers := getAllLayersFromRegistry map in
          let otherLayersUsingSameSource :=
            List.filter
              (fun l =>
                 String.eqb (LayerInfo.sourceId l) (LayerInfo.sourceId layerInfo)
                 && negb (String.eqb (LayerInfo.layerId l) layerId))
              allLayers in
          if (length otherLayersUsingSameSource =? 0)%nat
          then on_engine
                 (fun e => removeSource e (LayerInfo.sourceId layerInfo)) map
          else map
        else map
    | None => map
    end in
  (* Remove from registry *)
  removeLayerInfo map layerId.

Definition getLayerInfo (map : Map E) (layerId : string)
    : option LayerInfo.t :=
  getLayerInfoById map layerId.

Definition getAllCustomLayers (map : Map E) : list LayerInfo.t :=
  getAllLayersFromRegistry map.

Definition setLayerVisibility (map : Map E) (layerId : string)
    (visible : bool) : Map E :=
  if JS.truthy (getLayer (engine map) layerId)
  then
    let map :=
      on_engine
        (fun e => setLayoutProperty e layerId "visibility"
                    (if visible then "visible" else "none")) map in
    updateLayerVisibility map layerId visible
  else map.

Definition setLayerOpacity (map : Map E) (layerId : string)
    (opacity : JS.number) : Map E :=
  let clampedOpacity := clamp opacity JS.zero JS.one in
  let layer := getLayer (engine map) layerId in
  match layer with
  | Some layer =>
      let layerType := AddLayerObject.type layer in
      let setPaint property :=
        on_engine (fun e => setPaintProperty e layerId property clampedOpacity) in
      (* Set appropriate opacity property based on layer type *)
      let map :=
        if String.eqb layerType "fill" then setPaint "fill-opacity" map
        else if String.eqb layerType "line" then setPaint "line-opacity" map
        else if String.eqb layerType "circle" then setPaint "circle-opacity" map
        else if String.eqb layerType "raster" then setPaint "raster-opacity" map
        else if String.eqb layerType "symbol"
        then setPaint "text-opacity" (setPaint "icon-opacity" map)
        else map in
      updateLayerOpacity map layerId clampedOpacity
  | None => map
  end.

Definition bringLayerToFront (map : Map E) (layerId : string) : Map E :=
  if JS.truthy (getLayer (engine map) layerId)
  then on_engine (fun e => moveLayer e layerId None) map
  else map.

Definition sendLayerToBack (map : Map E) (layerId : string) : Map E :=
  if JS.truthy (getLayer (engine map) layerId)
  then
    let layers := default [] (getStyle_layers (engine map)) in
    (* Find the first non-basemap layer *)
    let basemapLayerId := "__maplibre-extend-basemap-layer" in
    let firstNonBasemapIndex :=
      findIndex (fun l => negb (String.eqb (AddLayerObject.id l) basemapLayerId))
                layers in
    match firstNonBasemapIndex with
    | Some (S i) =>
        match layers !! S i with
        | Some found =>
            let beforeId := AddLayerObject.id found in
            if negb (String.eqb beforeId layerId)
            then on_engine (fun e => moveLayer e layerId (Some beforeId)) map
            else map
        | None => map
        end
    | _ => map
    end
  else map.

Definition fitToLayer (map : Map E) (layerId : string)
    (options : option FitBoundsOptions) : Map E :=
  let layerInfo := getLayerInfoById map layerId in
  match layerInfo with
  | Some layerInfo =>
      (* Check if bounds were stored in options *)
      match options_bounds (LayerInfo.options layerInfo) with
      | Some storedBounds =>
          on_engine
            (fun e => fitBounds e (bounds_of storedBounds)
                        (JS.spread padding50 (JS.nullish options []))) map
      | None => map
      end
  | None => map
  end.

End Management.

(* ===================================================================== *)
(** ** [index.ts]: the methods installed on the map prototype *)
(* ===================================================================== *)

(** The state the methods act on: a map instance and the module-level
    identifier counters. *)
Record World (E : Type) : Type := {
  map : Map E;
  ids : Counters;
}.
Arguments map {E} w.
Arguments ids {E} w.

(** One call of a method installed by [extendMapPrototype], with the
    inputs it takes from its environment (clock readings, the fetched
    document, the display density). *)
Inductive Operation : Type :=
| AddBasemap (retina : bool) (name : BasemapName)
| SetBasemap (retina : bool) (name : BasemapName)
| AddGeojson (clock : Clock) (data : GeojsonData) (options : AddGeojsonOptions.t)
| AddVector (clock : Clock) (url : string) (options : AddVectorOptions.t)
| AddRaster (clock : Clock) (url : string) (options : AddRasterOptions.t)
| AddCogLayer (clock : Clock) (url : string) (options : AddCogOptions.t)
| AddWmsLayer (clock : Clock) (baseUrl : string) (options : AddWmsOptions.t)
| RemoveLayerById (layerId : string)
| SetLayerVisibility (layerId : string) (visible : bool)
| SetLayerOpacity (layerId : string) (opacity : JS.number)
| BringLayerToFront (layerId : string)
| SendLayerToBack (layerId : string)
| FitToLayer (layerId : string) (options : option FitBoundsOptions).

Section Prototype.

Context {E : Type} `{Engine E}.

Definition on_map (f : Map E -> Map E) (w : World E) : World E :=
  {| map := f (map w); ids := ids w |}.

Definition perform (w : World E) (op : Operation) : World E :=
  match op with
  | AddBasemap retina name =>
      {| map := fst (addBasemap retina (map w) name); ids := ids w |}
  | SetBasemap retina name =>
      {| map := fst (setBasemap retina (map w) name); ids := ids w |}
  | AddGeojson clock data options =>
      let r := addGeojson (map w) (ids w) clock data options in
      {| map := fst (fst r); ids := snd (fst r) |}
  | AddVector clock url options =>
      let r := addVector (map w) (ids w) clock url options in
      {| map := fst (fst r); ids := snd (fst r) |}
  | AddRaster clock url options =>
      let r := addRaster (map w) (ids w) clock url options in
      {| map := fst (fst r); ids := snd (fst r) |}
  | AddCogLayer clock url options =>
      let r := addCogLayer (map w) (ids w) clock url options in
      {| map := fst (fst r); ids := snd (fst r) |}
  | AddWmsLayer clock baseUrl options =>
      let r := addWmsLayer (map w) (ids w) clock baseUrl options in
      {| map := fst (fst r); ids := snd (fst r) |}
  | RemoveLayerById layerId => on_map (fun m => removeLayerById m layerId) w
  | SetLayerVisibility layerId visible =>
      on_map (fun m => setLayerVisibility m layerId visible) w
  | SetLayerOpacity layerId opacity =>
      on_map (fun m => setLayerOpacity m layerId opacity) w
  | BringLayerToFront layerId => on_map (fun m => bringLayerToFront m layerId) w
  | SendLayerToBack layerId => on_map (fun m => sendLayerToBack m layerId) w
  | FitToLayer layerId options =>
      on_map (fun m => fitToLayer m layerId options) w
  end.

Definition perform_all (w : World E) (ops : list Operation) : World E :=
  fold_left perform ops w.

(** The registry invariant of the data model: every registered
    identifier names a layer the engine currently has. *)
Definition registry_backed (m : Map E) : Prop :=
  forall layerId, is_Some (getLayerRegistry m !! layerId) ->
                  is_Some (getLayer (engine m) layerId).

(** Every layer of [e] is still a layer of [e']. *)
Definition layers_kept (e e' : E) : Prop :=
  forall k, is_Some (getLayer e k) -> is_Some (getLayer e' k).

(** Another record, under a different [layerId], uses the source. *)
Definition shared_source (m : Map E) (layerId sourceId : string) : Prop :=
  exists k r, getLayerRegistry m !! k = Some r
              /\ LayerInfo.sourceId r = sourceId
              /\ LayerInfo.layerId r <> layerId.

End Prototype.

(** A fresh reference map with nothing registered. *)
Definition fresh_map : Map RefEngine.t :=
  {| engine := RefEngine.empty; LAYER_REGISTRY_KEY := None;
     currentBasemapMap := None |}.

Definition fresh_world : World RefEngine.t :=
  {| map := fresh_map; ids := initial_counters |}.

(* ===================================================================== *)
(** ** Inputs used in the examples below *)
(* ===================================================================== *)

Definition noon : Clock :=
  {| source_now := 1730000000000; layer_now := 1730000000001 |}.

(** The options of the WMS test of the repository. *)
Definition wms_test_options : AddWmsOptions.t :=
  {| AddWmsOptions.raster := AddRasterOptions.empty;
     AddWmsOptions.layers := "layer1,layer2";
     AddWmsOptions.format := Some "image/png";
     AddWmsOptions.version := None;
     AddWmsOptions.crs := None;
     AddWmsOptions.transparent := Some true;
     AddWmsOptions.params := None |}.

(** The same, with extra parameters naming the computed members. *)
Definition wfs_options : AddWmsOptions.t :=
  {| AddWmsOptions.raster := AddRasterOptions.empty;
     AddWmsOptions.layers := "layer1,layer2";
     AddWmsOptions.format := Some "image/png";
     AddWmsOptions.version := None;
     AddWmsOptions.crs := None;
     AddWmsOptions.transparent := Some true;
     AddWmsOptions.params :=
       Some [("service", "WFS"); ("request", "GetCapabilities");
             ("bbox", "0,0,1,1")] |}.

(** Options naming the layer and the source of a raster layer. *)
Definition raster_named (layerId sourceId : string) : AddRasterOptions.t :=
  {| AddRasterOptions.layerId := Some layerId;
     AddRasterOptions.sourceId := Some sourceId;
     AddRasterOptions.tileSize := None; AddRasterOptions.opacity := None;
     AddRasterOptions.attribution := None; AddRasterOptions.minzoom := None;
     AddRasterOptions.maxzoom := None; AddRasterOptions.bounds := None;
     AddRasterOptions.beforeId := None |}.

(** The record [storeLayerInfo] writes for a raster layer added with
    these options. *)
Definition raster_record (layerId sourceId : string) : LayerInfo.t :=
  {| LayerInfo.layerId := layerId; LayerInfo.sourceId := sourceId;
     LayerInfo.type := "raster"; LayerInfo.visible := true;
     LayerInfo.opacity := JS.one;
     LayerInfo.options := RasterOptions (raster_named layerId sourceId) |}.

(** A map whose registry knows the layer ["a"] while the engine has no
    such layer (it was removed behind the library's back). *)
Definition orphan_map : Map RefEngine.t :=
  {| engine := RefEngine.empty;
     LAYER_REGISTRY_KEY := Some {[ "a" := raster_record "a" "s" ]};
     currentBasemapMap := None |}.

(** A map on which a basemap is active. *)
Definition positron_map : Map RefEngine.t :=
  fst (addBasemap false fresh_map "CartoDB.Positron").

Definition tiles_url : string := "https://example.com/{z}/{x}/{y}.png".

(** The reference map after adding the raster layer ["a"] on source
    ["s"]. *)
Definition one_layer_world : World RefEngine.t :=
  perform fresh_world (AddRaster noon tiles_url (raster_named "a" "s")).

(** The same after a second layer ["b"] on the same source ["s"]. *)
Definition shared_source_world : World RefEngine.t :=
  perform one_layer_world (AddRaster noon tiles_url (raster_named "b" "s")).

Definition fifteen : JS.number := Eval vm_compute in JS.of_int 15 0.

(** The documents of the repository's GeoJSON tests: a collection with
    one point feature, and a polygon feature. *)
Definition point_collection : GeoJSON :=
  GFeatureCollection [ {| geometry := Some (Point [JS.zero; JS.zero]) |} ].

Definition polygon_feature : GeoJSON :=
  GFeature
    {| geometry :=
         Some (Polygon [[ [JS.zero; JS.zero]; [JS.one; JS.zero];
                          [JS.one; JS.one]; [JS.zero; JS.one];
                          [JS.zero; JS.zero] ]]) |}.

(** A run of every kind of operation on the reference engine. *)
Definition sample_operations : list Operation :=
  [ AddBasemap false "CartoDB.Positron";
    AddRaster noon tiles_url (raster_named "a" "s");
    AddGeojson noon (Inline point_collection) AddGeojsonOptions.empty;
    SetLayerOpacity "a" fifteen;
    SetLayerVisibility "a" false;
    SendLayerToBack "a";
    SetBasemap true "Esri.WorldImagery";
    RemoveLayerById "a";
    BringLayerToFront "mgl-extend-geojson-1-m2r1bz7l" ].

(* ===================================================================== *)
(** ** Further definitions: well-formed registries, catalog, positions *)
(* ===================================================================== *)

(** The record [storeLayerInfo] builds. *)
Definition new_record (layerId sourceId type : string)
    (options : StoredOptions) : LayerInfo.t :=
  {| LayerInfo.layerId := layerId;
     LayerInfo.sourceId := sourceId;
     LayerInfo.type := type;
     LayerInfo.visible := true;
     LayerInfo.opacity := JS.nullish (options_opacity options) JS.one;
     LayerInfo.options := options |}.

(** Every record sits under its own [layerId]. *)
Definition keyed_by_layerId {E : Type} (m : Map E) : Prop :=
  forall k r, getLayerRegistry m !! k = Some r -> LayerInfo.layerId r = k.

(** The identifier returned by a creation call, if the call returned. *)
Definition created {E : Type} `{Engine E} (w : World E) (op : Operation)
    : option string :=
  match op with
  | AddGeojson clock data options =>
      match snd (addGeojson (map w) (ids w) clock data options) with
      | Return layerId => Some layerId
      | Throw _ => None
      end
  | AddVector clock url options =>
      Some (snd (addVector (map w) (ids w) clock url options))
  | AddRaster clock url options =>
      Some (snd (addRaster (map w) (ids w) clock url options))
  | AddCogLayer clock url options =>
      Some (snd (addCogLayer (map w) (ids w) clock url options))
  | AddWmsLayer clock baseUrl options =>
      Some (snd (addWmsLayer (map w) (ids w) clock baseUrl options))
  | _ => None
  end.

(** The kind tag of the record a creation call stores. *)
Definition kind_tag (op : Operation) : string :=
  match op with
  | AddGeojson _ _ _ => "geojson"
  | AddVector _ _ _ => "vector"
  | AddRaster _ _ _ => "raster"
  | AddCogLayer _ _ _ => "cog"
  | AddWmsLayer _ _ _ => "wms"
  | _ => ""
  end.

(** The record a creation call is to store: the identifiers are the
    caller's when given and non-empty, generated otherwise (source first,
    then layer); the tag names the operation; the options are the
    caller's, with the URL added for COG and WMS layers.  A GeoJSON call
    whose fetch fails stores nothing. *)
Definition created_record {E : Type} (w : World E) (op : Operation)
    : option LayerInfo.t :=
  let ids2 given_source given_layer prefix clock :=
    let source :=
      id_or_generate given_source generateSourceId prefix
        (source_now clock) (ids w) in
    let layer :=
      id_or_generate given_layer generateLayerId prefix
        (layer_now clock) (snd source) in
    (fst layer, fst source) in
  match op with
  | AddGeojson clock data options =>
      let '(layerId, sourceId) :=
        ids2 (AddGeojsonOptions.sourceId options)
             (AddGeojsonOptions.layerId options) "geojson" clock in
      match data with
      | FromUrl _ (Throw _) => None
      | _ => Some (new_record layerId sourceId "geojson" (GeojsonOptions options))
      end
  | AddVector clock url options =>
      let '(layerId, sourceId) :=
        ids2 (AddVectorOptions.sourceId options)
             (AddVectorOptions.layerId options) "vector" clock in
      Some (new_record layerId sourceId "vector" (VectorOptions options))
  | AddRaster clock url options =>
      let '(layerId, sourceId) :=
        ids2 (AddRasterOptions.sourceId options)
             (AddRasterOptions.layerId options) "raster" clock in
      Some (new_record layerId sourceId "raster" (RasterOptions options))
  | AddCogLayer clock url options =>
      let '(layerId, sourceId) :=
        ids2 (AddRasterOptions.sourceId (AddCogOptions.raster options))
             (AddRasterOptions.layerId (AddCogOptions.raster options))
             "cog" clock in
      Some (new_record layerId sourceId "cog" (CogOptions options url))
  | AddWmsLayer clock baseUrl options =>
      let '(layerId, sourceId) :=
        ids2 (AddRasterOptions.sourceId (AddWmsOptions.raster options))
             (AddRasterOptions.layerId (AddWmsOptions.raster options))
             "wms" clock in
      Some (new_record layerId sourceId "wms" (WmsOptions options baseUrl))
  | _ => None
  end.

(** What an operation is to do to the registry. *)
Definition registry_after {E : Type} `{Engine E} (w : World E)
    (op : Operation) : gmap string LayerInfo.t :=
  let registry := getLayerRegistry (map w) in
  match op with
  | RemoveLayerById layerId => delete layerId registry
  | SetLayerVisibility layerId visible =>
      if JS.truthy (getLayer (engine (map w)) layerId)
      then alter (fun r => LayerInfo.set_visible r visible) layerId registry
      else registry
  | SetLayerOpacity layerId opacity =>
      if JS.truthy (getLayer (engine (map w)) layerId)
      then alter (fun r => LayerInfo.set_opacity r
                             (clamp opacity JS.zero JS.one))
                 layerId registry
      else registry
  | _ =>
      match created_record w op with
      | Some r => <[LayerInfo.layerId r := r]> registry
      | None => registry
      end
  end.

Definition is_basemap_operation (op : Operation) : bool :=
  match op with
  | AddBasemap _ _ | SetBasemap _ _ => true
  | _ => false
  end.

(** A tile URL ready for the engine: the three tile coordinates are still
    placeholders, the subdomain and density placeholders are gone. *)
Definition tile_template_ok (u : string) : bool :=
  JS.includes u "{x}" && JS.includes u "{y}" && JS.includes u "{z}"
  && negb (JS.includes u "{s}") && negb (JS.includes u "{r}").

Definition catalog_entry_ok (d : BasemapDefinition) : bool :=
  forallb tile_template_ok (buildTileUrls false d)
  && forallb tile_template_ok (buildTileUrls true d)
  && JS.truthy_string (name d) && JS.truthy_string (attribution d)
  && JS.truthy (maxZoom d).

(** A heatmap layer, of a type [setLayerOpacity] has no case for. *)
Definition heatmap_layer : AddLayerObject.t :=
  {| AddLayerObject.id := "h";
     AddLayerObject.type := "heatmap";
     AddLayerObject.source := "s";
     AddLayerObject.source_layer := None;
     AddLayerObject.paint := [];
     AddLayerObject.minzoom := None;
     AddLayerObject.maxzoom := None |}.

(** A reference map with that layer in the style and a record for it. *)
Definition heatmap_map : Map RefEngine.t :=
  {| engine := addLayer RefEngine.empty heatmap_layer None;
     LAYER_REGISTRY_KEY := Some {[ "h" := raster_record "h" "s" ]};
     currentBasemapMap := None |}.

(** One of the five layer types [setLayerOpacity] has a case for. *)
Definition opacity_supported (layerType : string) : bool :=
  existsb (String.eqb layerType) ["fill"; "line"; "circle"; "raster"; "symbol"].

(** A number that is not NaN. *)
Definition is_number (x : JS.number) : bool :=
  match x with S754_nan => false | _ => true end.

(** The identifier of the bottom layer of the style, if any. *)
Definition bottom_layer_id {E : Type} `{Engine E} (e : E) : option string :=
  match default [] (getStyle_layers e) with
  | first :: _ => Some (AddLayerObject.id first)
  | [] => None
  end.

(** Raster options carrying bounds. *)
Definition raster_bounded : AddRasterOptions.t :=
  {| AddRasterOptions.layerId := Some "r";
     AddRasterOptions.sourceId := Some "rs";
     AddRasterOptions.tileSize := None; AddRasterOptions.opacity := None;
     AddRasterOptions.attribution := None; AddRasterOptions.minzoom := None;
     AddRasterOptions.maxzoom := None;
     AddRasterOptions.bounds := Some (JS.zero, JS.zero, JS.one, JS.one);
     AddRasterOptions.beforeId := None |}.

Definition bounded_world : World RefEngine.t :=
  perform fresh_world (AddRaster noon tiles_url raster_bounded).

(** No dash in the string. *)
Fixpoint dash_free (s : string) : bool :=
  match s with
  | "" => true
  | String c s' => negb (Ascii.eqb c "-") && dash_free s'
  end.

(** [split_last s] cuts [s] at its last dash. *)
Fixpoint split_last (s : string) : option (string * string) :=
  match s with
  | "" => None
  | String c s' =>
      match split_last s' with
      | Some (a, b) => Some (String c a, b)
      | None => if Ascii.eqb c "-" then Some ("", s') else None
      end
  end.

(** The clock of a call did not read a time before the epoch. *)
Definition clock_nonneg (call : IdCall) : bool :=
  match call with
  | CallLayerId _ now | CallSourceId _ now => (0 <=? now)%Z
  | CallReset => true
  end.

(** Characters that pass through a URL query untouched or as part of a
    percent escape: no separator of the query ([&], [=], [?], [#], [/])
    and no brace of a tile placeholder is among them. *)
Definition query_safe (c : ascii) : bool :=
  JS.is_alnum c || JS.ascii_in c "-_.!~*'()+%".

Definition all_query_safe (s : string) : bool :=
  forallb query_safe (list_ascii_of_string s).

(** The options with [paint] taken out: what the paint of a layer is
    computed from when the caller gives no paint object. *)
Definition computed_paint_only (options : AddGeojsonOptions.t)
    : AddGeojsonOptions.t :=
  {| AddGeojsonOptions.layerId := AddGeojsonOptions.layerId options;
     AddGeojsonOptions.sourceId := AddGeojsonOptions.sourceId options;
     AddGeojsonOptions.type := AddGeojsonOptions.type options;
     AddGeojsonOptions.paint := None;
     AddGeojsonOptions.opacity := AddGeojsonOptions.opacity options;
     AddGeojsonOptions.fillColor := AddGeojsonOptions.fillColor options;
     AddGeojsonOptions.fillOpacity := AddGeojsonOptions.fillOpacity options;
     AddGeojsonOptions.lineColor := AddGeojsonOptions.lineColor options;
     AddGeojsonOptions.lineWidth := AddGeojsonOptions.lineWidth options;
     AddGeojsonOptions.circleRadius := AddGeojsonOptions.circleRadius options;
     AddGeojsonOptions.circleColor := AddGeojsonOptions.circleColor options;
     AddGeojsonOptions.circleStrokeColor :=
       AddGeojsonOptions.circleStrokeColor options;
     AddGeojsonOptions.circleStrokeWidth :=
       AddGeojsonOptions.circleStrokeWidth options;
     AddGeojsonOptions.fitBounds := AddGeojsonOptions.fitBounds options;
     AddGeojsonOptions.fitBoundsOptions :=
       AddGeojsonOptions.fitBoundsOptions options;
     AddGeojsonOptions.minzoom := AddGeojsonOptions.minzoom options;
     AddGeojsonOptions.maxzoom := AddGeojsonOptions.maxzoom options;
     AddGeojsonOptions.beforeId := AddGeojsonOptions.beforeId options |}.

(** GeoJSON options with a custom paint object. *)
Definition red_fill_options : AddGeojsonOptions.t :=
  {| AddGeojsonOptions.layerId := None; AddGeojsonOptions.sourceId := None;
     AddGeojsonOptions.type := None;
     AddGeojsonOptions.paint := Some [("fill-color", VStr "#ff0000")];
     AddGeojsonOptions.opacity := None; AddGeojsonOptions.fillColor := None;
     AddGeojsonOptions.fillOpacity := Some JS.zero;
     AddGeojsonOptions.lineColor := None; AddGeojsonOptions.lineWidth := None;
     AddGeojsonOptions.circleRadius := None;
     AddGeojsonOptions.circleColor := None;
     AddGeojsonOptions.circleStrokeColor := None;
     AddGeojsonOptions.circleStrokeWidth := None;
     AddGeojsonOptions.fitBounds := None;
     AddGeojsonOptions.fitBoundsOptions := None;
     AddGeojsonOptions.minzoom := None; AddGeojsonOptions.maxzoom := None;
     AddGeojsonOptions.beforeId := None |}.

(** The characters that would end a query value or open a placeholder. *)
Definition query_separator (c : ascii) : bool := JS.ascii_in c "&=?#/{}".

(** No separator and no brace occurs in the string. *)
Definition separator_free (s : string) : bool :=
  forallb (fun c => negb (query_separator c)) (list_ascii_of_string s).

(** COG options naming a tile server. *)
Definition titiler_options : AddCogOptions.t :=
  {| AddCogOptions.raster := AddRasterOptions.empty;
     AddCogOptions.tileServerUrl := Some "https://titiler.example.com" |}.

(** *** Positions of a document and the order of numbers *)

(** Every coordinate tuple of a geometry, in the order [calculateBbox]
    visits them. *)
Fixpoint Geometry_positions (g : Geometry) : list Position :=
  match g with
  | Point coordinates => [coordinates]
  | MultiPoint coordinates | LineString coordinates => coordinates
  | MultiLineString coordinates | Polygon coordinates =>
      List.concat coordinates
  | MultiPolygon coordinates =>
      List.concat (List.map (@List.concat Position) coordinates)
  | GeometryCollection geometries =>
      (fix each (gs : list Geometry) : list Position :=
         match gs with
         | [] => []
         | g :: rest => (Geometry_positions g ++ each rest)%list
         end) geometries
  end.

Definition Feature_positions (f : Feature) : list Position :=
  match geometry f with
  | Some g => Geometry_positions g
  | None => []
  end.

Definition GeoJSON_positions (data : GeoJSON) : list Position :=
  match data with
  | GFeature f => Feature_positions f
  | GFeatureCollection features =>
      List.concat (List.map Feature_positions features)
  | GGeometry g => Geometry_positions g
  end.

(** Every coordinate of the position is a number. *)
Definition numeric (p : Position) : bool := forallb is_number p.

(** The position has a longitude and a latitude. *)
Definition usable (p : Position) : bool := (2 <=? length p)%nat.

(** A key that orders the numbers as the comparisons of the language do:
    the sign class first, then exponent and mantissa. *)
Definition order_key (x : JS.number) : Z * Z * Z :=
  match x with
  | S754_infinity true => (-2, 0, 0)
  | S754_finite true m e => (-1, - e, Zneg m)
  | S754_zero _ => (0, 0, 0)
  | S754_nan => (0, 0, 0)
  | S754_finite false m e => (1, e, Zpos m)
  | S754_infinity false => (2, 0, 0)
  end%Z.

Definition lex_compare (a b : Z * Z * Z) : comparison :=
  let '(a1, a2, a3) := a in
  let '(b1, b2, b3) := b in
  match (a1 ?= b1)%Z with
  | Eq => match (a2 ?= b2)%Z with
          | Eq => (a3 ?= b3)%Z
          | c => c
          end
  | c => c
  end.

(** The box spans the point. *)
Definition inside (box : BBox) (lng lat : JS.number) : Prop :=
  let '(west, south, east, north) := box in
  JS.le west lng = true /\ JS.le lng east = true
  /\ JS.le south lat = true /\ JS.le lat north = true.

(** The second box spans the first. *)
Definition wider (box box' : BBox) : Prop :=
  let '(west, south, east, north) := box in
  let '(west', south', east', north') := box' in
  JS.le west' west = true /\ JS.le south' south = true
  /\ JS.le east east' = true /\ JS.le north north' = true.

Definition box_numbers (box : BBox) : Prop :=
  let '(west, south, east, north) := box in
  is_number west = true /\ is_number south = true
  /\ is_number east = true /\ is_number north = true.

(** A line from the origin to (1, 1/2). *)
Definition short_line : GeoJSON :=
  GGeometry (LineString [[JS.zero; JS.zero]; [JS.one; JS.half]]).

(** A feature whose geometry is null. *)
Definition bare_feature : Feature :=
  {| geometry := None |}.

(** *** What a creation call asks for *)

(** The clock readings and the [sourceId] and [id] options of a creation
    call. *)
Definition creation_request (op : Operation)
    : option (Clock * option string * option string) :=
  match op with
  | AddGeojson clock _ options =>
      Some (clock, AddGeojsonOptions.sourceId options,
            AddGeojsonOptions.layerId options)
  | AddVector clock _ options =>
      Some (clock, AddVectorOptions.sourceId options,
            AddVectorOptions.layerId options)
  | AddRaster clock _ options =>
      Some (clock, AddRasterOptions.sourceId options,
            AddRasterOptions.layerId options)
  | AddCogLayer clock _ options =>
      Some (clock, AddRasterOptions.sourceId (AddCogOptions.raster options),
            AddRasterOptions.layerId (AddCogOptions.raster options))
  | AddWmsLayer clock _ options =>
      Some (clock, AddRasterOptions.sourceId (AddWmsOptions.raster options),
            AddRasterOptions.layerId (AddWmsOptions.raster options))
  | _ => None
  end.

(** The identifier is given and not the empty string. *)
Definition usable_id (given : option string) : bool :=
  match given with
  | Some s => JS.truthy_string s
  | None => false
  end.

(** The call is [addGeojson] on a URL whose fetch fails. *)
Definition fetch_fails (op : Operation) : bool :=
  match op with
  | AddGeojson _ (FromUrl _ (Throw _)) _ => true
  | _ => false
  end.

(* ===================================================================== *)
(** ** Facts about ordered objects *)
(* ===================================================================== *)

Section ObjFacts.

Context {V : Type}.
Implicit Types (o : JS.obj V) (k : string) (v : V).

Lemma obj_get_None o k : JS.obj_get o k = None <-> ~ In k (List.map fst o).
Proof.
  induction o as [|[k' v'] o IH]; simpl.
  - tauto.
  - destruct (String.eqb_spec k k') as [->|Hne].
    + split; [discriminate | intros Hn; exfalso; apply Hn; now left].
    + rewrite IH. split.
      * intros Hn [Heq|Hin]; [congruence | tauto].
      * intros Hn Hin. apply Hn. now right.
Qed.

Lemma obj_get_Some_In o k v : JS.obj_get o k = Some v -> In (k, v) o.
Proof.
  induction o as [|[k' v'] o IH]; simpl; [discriminate|].
  destruct (String.eqb_spec k k') as [->|Hne].
  - intros [= ->]. now left.
  - intros Hg. right. auto.
Qed.

Lemma obj_get_In o k v :
  List.NoDup (List.map fst o) -> In (k, v) o -> JS.obj_get o k = Some v.
Proof.
  induction o as [|[k' v'] o IH]; simpl; [tauto|].
  intros Hnd [Heq|Hin].
  - injection Heq as -> ->. now rewrite String.eqb_refl.
  - simpl in Hnd. apply List.NoDup_cons_iff in Hnd as [Hk' Hnd].
    destruct (String.eqb_spec k k') as [->|Hne].
    + exfalso. apply Hk'. apply (in_map fst) in Hin. exact Hin.
    + auto.
Qed.

Lemma obj_get_Permutation o o' k :
  List.NoDup (List.map fst o) -> Permutation o o' ->
  JS.obj_get o k = JS.obj_get o' k.
Proof.
  intros Hnd Hp.
  assert (Hnd' : List.NoDup (List.map fst o')).
  { eapply Permutation_NoDup; [|exact Hnd]. now apply Permutation_map. }
  destruct (JS.obj_get o k) as [v|] eqn:Hg.
  - symmetry. apply obj_get_In; [exact Hnd'|].
    eapply Permutation_in; [exact Hp|]. now apply obj_get_Some_In.
  - destruct (JS.obj_get o' k) as [v'|] eqn:Hg'; [|reflexivity].
    apply obj_get_Some_In in Hg'.
    apply obj_get_None in Hg. exfalso. apply Hg.
    apply (in_map fst) in Hg'. simpl in Hg'.
    eapply Permutation_in; [|exact Hg'].
    apply Permutation_map. now symmetry.
Qed.

Lemma obj_get_set o k v k' :
  JS.obj_get (JS.obj_set o k v) k'
  = if String.eqb k' k then Some v else JS.obj_get o k'.
Proof.
  induction o as [|[k0 v0] o IH]; simpl.
  - reflexivity.
  - destruct (String.eqb_spec k k0) as [->|Hne]; simpl.
    + destruct (String.eqb_spec k' k0); reflexivity.
    + rewrite IH. destruct (String.eqb_spec k' k0) as [->|Hne'].
      * destruct (String.eqb_spec k0 k); [congruence | reflexivity].
      * reflexivity.
Qed.

(** Defining a list of properties on an object: the defined ones take the
    new value, the others keep theirs. *)
Lemma obj_get_define (props : list (string * V)) o k :
  List.NoDup (List.map fst props) ->
  JS.obj_get
    (fold_left (fun o kv => JS.obj_set o (fst kv) (snd kv)) props o) k
  = match JS.obj_get props k with
    | Some v => Some v
    | None => JS.obj_get o k
    end.
Proof.
  revert o. induction props as [|[k0 v0] props IH]; intros o Hnd; simpl.
  - reflexivity.
  - simpl in Hnd. apply List.NoDup_cons_iff in Hnd as [Hk0 Hnd].
    rewrite IH by exact Hnd. simpl.
    destruct (String.eqb_spec k k0) as [->|Hne].
    + apply obj_get_None in Hk0. rewrite Hk0.
      rewrite obj_get_set. now rewrite String.eqb_refl.
    + rewrite obj_get_set.
      destruct (String.eqb_spec k k0); [congruence | reflexivity].
Qed.

Lemma insert_index_Permutation i (kv : string * V) sorted :
  Permutation (List.map snd (JS.insert_index i kv sorted))
              (kv :: List.map snd sorted).
Proof.
  induction sorted as [|[j kv'] rest IH]; simpl.
  - reflexivity.
  - destruct (i <? j)%N; simpl.
    + reflexivity.
    + rewrite IH. apply perm_swap.
Qed.

Lemma entries_Permutation o : Permutation (JS.entries o) o.
Proof.
  unfold JS.entries, JS.name_entries.
  induction o as [|kv o IH]; simpl.
  - reflexivity.
  - destruct (JS.array_index (fst kv)); simpl.
    + rewrite insert_index_Permutation. simpl. now rewrite IH.
    + rewrite <- Permutation_middle. now rewrite IH.
Qed.

Lemma keys_In o k : In k (JS.keys o) <-> In k (List.map fst o).
Proof.
  unfold JS.keys.
  pose proof (Permutation_map fst (entries_Permutation o)) as Hp.
  split; intros Hin.
  - eapply Permutation_in; [exact Hp | exact Hin].
  - eapply Permutation_in; [symmetry; exact Hp | exact Hin].
Qed.

(** A name missing from [Object.keys(o)] is an undefined property. *)
Lemma obj_get_not_key o k : ~ In k (JS.keys o) -> JS.obj_get o k = None.
Proof. rewrite keys_In. apply obj_get_None. Qed.

Lemma obj_get_spread (a b : JS.obj V) k :
  List.NoDup (List.map fst b) ->
  JS.obj_get (JS.spread a b) k
  = match JS.obj_get b k with
    | Some v => Some v
    | None => JS.obj_get a k
    end.
Proof.
  intros Hnd. unfold JS.spread.
  assert (Hnd' : List.NoDup (List.map fst (JS.entries b))).
  { eapply Permutation_NoDup; [|exact Hnd].
    apply Permutation_map. symmetry. apply entries_Permutation. }
  rewrite obj_get_define by exact Hnd'.
  now rewrite (obj_get_Permutation (JS.entries b) b k Hnd'
                 (entries_Permutation b)).
Qed.

End ObjFacts.

(* ===================================================================== *)
(** ** Basemap activation *)
(* ===================================================================== *)

Lemma Array_includes_In xs x : Array_includes xs x = true <-> In x xs.
Proof.
  unfold Array_includes. rewrite existsb_exists. split.
  - intros (y & Hin & Heq). apply String.eqb_eq in Heq. now subst.
  - intros Hin. exists x. split; [exact Hin | apply String.eqb_refl].
Qed.

Lemma getBasemapDefinition_unknown name :
  ~ In name getBasemapNames -> getBasemapDefinition name = None.
Proof. apply obj_get_not_key. Qed.

Section BasemapFacts.

Context {E : Type} `{Engine E}.



End BasemapFacts.

(** The name used in the examples is not in the catalog. *)
Lemma Nope_unknown : ~ In "Nope" getBasemapNames.
Proof.
  intros Hin. apply Array_includes_In in Hin.
  vm_compute in Hin. discriminate Hin.
Qed.




(* ===================================================================== *)
(** ** The WMS tile URL *)
(* ===================================================================== *)

Lemma query_items_carries (o : JS.obj string) k v :
  JS.obj_get o k = Some v ->
  In (JS.form_urlencode k +:+ "=" +:+ JS.form_urlencode v) (JS.query_items o).
Proof.
  intros Hget. unfold JS.query_items.
  apply (in_map (fun kv => JS.form_urlencode (fst kv) +:+ "="
                           +:+ JS.form_urlencode (snd kv)) _ (k, v)).
  eapply Permutation_in; [symmetry; apply entries_Permutation|].
  now apply obj_get_Some_In.
Qed.

Section WmsFacts.

Context {E : Type} `{Engine E}.

(** C4, as amended.  The parameter object of the tile URL is the ten
    computed members overlaid with [options.params]: a name defined in
    [params] takes the caller's value, whichever name it is ([service],
    [request] and [bbox] included), and any other name keeps its computed
    value.  So when [params] defines none of [service], [request] and
    [bbox], the URL carries [service=WMS], [request=GetMap] and the
    bounding-box placeholder, whose braces [URLSearchParams] serializes as
    [%7B] and [%7D].  The URL is the one handed to the engine as the tile
    template of the new source. *)
Theorem wms_params_precedence (m : Map E) (ids : Counters) (clock : Clock)
    (baseUrl : string) (options : AddWmsOptions.t) :
  let params := JS.nullish (AddWmsOptions.params options) [] in
  List.NoDup (List.map fst params) ->
  (forall k,
      JS.obj_get (wms_params options) k
      = match JS.obj_get params k with
        | Some v => Some v
        | None => JS.obj_get (wms_defaults options) k
        end)
  /\ JS.obj_get (wms_defaults options) "service" = Some "WMS"
  /\ JS.obj_get (wms_defaults options) "request" = Some "GetMap"
  /\ JS.obj_get (wms_defaults options) "bbox" = Some "{bbox-epsg-3857}"
  /\ (JS.obj_get params "service" = None ->
      In "service=WMS" (JS.query_items (wms_params options)))
  /\ (JS.obj_get params "request" = None ->
      In "request=GetMap" (JS.query_items (wms_params options)))
  /\ (JS.obj_get params "bbox" = None ->
      In "bbox=%7Bbbox-epsg-3857%7D" (JS.query_items (wms_params options)))
  /\ (forall k v, JS.obj_get params k = Some v ->
      In (JS.form_urlencode k +:+ "=" +:+ JS.form_urlencode v)
         (JS.query_items (wms_params options)))
  /\ wmsUrl baseUrl options
     = baseUrl +:+ "?" +:+ JS.join "&" (JS.query_items (wms_params options))
  /\ exists sourceId spec layer,
       engine (fst (fst (addWmsLayer m ids clock baseUrl options)))
       = addLayer (addSource (engine m) sourceId spec) layer
           (AddRasterOptions.beforeId (AddWmsOptions.raster options))
       /\ src_tiles spec = Some [wmsUrl baseUrl options].
Proof.
  intros params Hnd.
  assert (Hget : forall k,
             JS.obj_get (wms_params options) k
             = match JS.obj_get params k with
               | Some v => Some v
               | None => JS.obj_get (wms_defaults options) k
               end).
  { intros k. unfold wms_params. now apply obj_get_spread. }
  split; [exact Hget|].
  split; [reflexivity|]. split; [reflexivity|]. split; [reflexivity|].
  split; [|split; [|split; [|split; [|split]]]].
  - intros Hno.
    apply (query_items_carries (wms_params options) "service" "WMS").
    rewrite Hget, Hno. reflexivity.
  - intros Hno.
    apply (query_items_carries (wms_params options) "request" "GetMap").
    rewrite Hget, Hno. reflexivity.
  - intros Hno.
    apply (query_items_carries (wms_params options) "bbox" "{bbox-epsg-3857}").
    rewrite Hget, Hno. reflexivity.
  - intros k v Hk. apply query_items_carries. rewrite Hget, Hk. reflexivity.
  - reflexivity.
  - unfold addWmsLayer.
    destruct (id_or_generate _ generateSourceId _ _ _) as [sourceId ids1].
    destruct (id_or_generate _ generateLayerId _ _ _) as [layerId ids2].
    simpl. eexists _, _, _. split; reflexivity.
Qed.

End WmsFacts.

Lemma wms_params_precedence_witness :
  List.NoDup (List.map fst (JS.nullish (AddWmsOptions.params wms_test_options) []))
  /\ In "bbox=%7Bbbox-epsg-3857%7D" (JS.query_items (wms_params wms_test_options)).
Proof.
  assert (Hnd : List.NoDup
                  (List.map fst
                     (JS.nullish (AddWmsOptions.params wms_test_options) [])))
    by (simpl; constructor).
  split; [exact Hnd|].
  destruct (wms_params_precedence fresh_map initial_counters noon
              "https://example.com/wms" wms_test_options Hnd)
    as (_ & _ & _ & _ & _ & _ & Hbbox & _).
  apply Hbbox. reflexivity.
Defined.

(** C4, as stated, fails.  With extra parameters named [service],
    [request] and [bbox] the URL carries the caller's values and not the
    computed ones; and even without extra parameters the placeholder is
    not in the URL literally, its braces being percent-encoded. *)
Lemma wms_fixed_parameters_overridden :
  wmsUrl "https://example.com/wms" wfs_options
  = "https://example.com/wms?service=WFS&version=1.1.1&request=GetCapabilities&layers=layer1%2Clayer2&format=image%2Fpng&transparent=true&srs=EPSG%3A3857&width=256&height=256&bbox=0%2C0%2C1%2C1"
  /\ JS.includes (wmsUrl "https://example.com/wms" wfs_options) "service=WMS" = false
  /\ JS.includes (wmsUrl "https://example.com/wms" wfs_options) "request=GetMap" = false
  /\ JS.includes (wmsUrl "https://example.com/wms" wfs_options) "bbox-epsg-3857" = false
  /\ JS.includes (wmsUrl "https://example.com/wms" wms_test_options) "{bbox-epsg-3857}" = false
  /\ (RefEngine.sources
        (engine (fst (fst (addWmsLayer fresh_map initial_counters noon
                             "https://example.com/wms" wfs_options))))
      !! "mgl-extend-wms-1-m2r1bz7k") ≫= src_tiles
     = Some [wmsUrl "https://example.com/wms" wfs_options].
Proof. vm_compute. repeat split; reflexivity. Qed.

(* ===================================================================== *)
(** ** The identifier generator *)
(* ===================================================================== *)

Lemma following_S c k : following c (S k) = (c + 1)%N :: following (c + 1) k.
Proof.
  unfold following. simpl. f_equal.
  rewrite <- List.seq_shift, List.map_map.
  apply List.map_ext. intros i. lia.
Qed.

Lemma following_increasing c k : StronglySorted N.lt (following c k).
Proof.
  revert c. induction k as [|k IH]; intros c.
  - constructor.
  - rewrite following_S. constructor; [apply IH|].
    apply List.Forall_forall. intros n Hn.
    unfold following in Hn. apply List.in_map_iff in Hn as (i & <- & Hi).
    apply List.in_seq in Hi. lia.
Qed.

Lemma id_run_numbers calls :
  forallb (fun call => negb (is_reset call)) calls = true ->
  forall c,
    ns_of LayerId (snd (id_run c calls))
    = following (layerCounter c) (calls_of LayerId calls)
    /\ ns_of SourceId (snd (id_run c calls))
       = following (sourceCounter c) (calls_of SourceId calls)
    /\ List.Forall
         (fun g => gen_id g
                   = render_id (gen_prefix g) (gen_n g) (gen_suffix g))
         (snd (id_run c calls)).
Proof.
  induction calls as [|call calls IH]; intros Hepoch c.
  - repeat split; constructor.
  - simpl in Hepoch. apply andb_prop in Hepoch as [Hcall Hepoch].
    specialize (IH Hepoch).
    destruct call as [prefix now|prefix now|]; [| |discriminate Hcall].
    + simpl. destruct (id_run _ calls) as [c2 gs] eqn:Hrun.
      specialize (IH {| layerCounter := layerCounter c + 1;
                        sourceCounter := sourceCounter c |}).
      rewrite Hrun in IH. simpl in IH. destruct IH as (Hl & Hs & Hf).
      unfold calls_of. simpl. fold (calls_of LayerId calls).
      fold (calls_of SourceId calls).
      unfold ns_of in *. simpl. rewrite following_S.
      repeat split; [now f_equal | exact Hs | constructor; [reflexivity | exact Hf]].
    + simpl. destruct (id_run _ calls) as [c2 gs] eqn:Hrun.
      specialize (IH {| layerCounter := layerCounter c;
                        sourceCounter := sourceCounter c + 1 |}).
      rewrite Hrun in IH. simpl in IH. destruct IH as (Hl & Hs & Hf).
      unfold calls_of. simpl. fold (calls_of LayerId calls).
      fold (calls_of SourceId calls).
      unfold ns_of in *. simpl. rewrite following_S.
      repeat split; [exact Hl | now f_equal | constructor; [reflexivity | exact Hf]].
Qed.



(* ===================================================================== *)
(** ** Clamping *)
(* ===================================================================== *)

Lemma clamp_below (v : JS.number) :
  JS.lt v JS.zero = true -> clamp v JS.zero JS.one = JS.zero.
Proof.
  intros Hlt.
  destruct v as [s|s| |s m e].
  - destruct s; discriminate Hlt.
  - destruct s; [reflexivity | discriminate Hlt].
  - discriminate Hlt.
  - destruct s; [reflexivity | discriminate Hlt].
Qed.

Lemma clamp_above (v : JS.number) :
  JS.gt v JS.one = true -> clamp v JS.zero JS.one = JS.one.
Proof.
  intros Hgt.
  destruct v as [s|s| |s m e].
  - destruct s; discriminate Hgt.
  - destruct s; [discriminate Hgt | reflexivity].
  - discriminate Hgt.
  - destruct s; [discriminate Hgt|].
    unfold JS.gt, SFltb, JS.one, SFcompare in Hgt.
    unfold clamp, JS.Math_max, JS.Math_min, JS.zero, JS.one, SFcompare,
      JS.is_neg_zero.
    rewrite (Z.compare_antisym e (-52)) in Hgt.
    assert (Hanti : CompOpp (Pos.compare_cont Eq m 4503599627370496)
                    = Pos.compare_cont Eq 4503599627370496 m)
      by exact (Pos.compare_cont_antisym m 4503599627370496 Eq).
    destruct (e ?= -52)%Z; simpl CompOpp in Hgt; cbv iota in Hgt.
    + rewrite <- Hanti in Hgt.
      destruct (Pos.compare_cont Eq m 4503599627370496);
        simpl CompOpp in Hgt; cbv iota in Hgt.
      * discriminate Hgt.
      * discriminate Hgt.
      * exact eq_refl.
    + discriminate Hgt.
    + exact eq_refl.
Qed.

Lemma clamp_within (v : JS.number) :
  JS.le JS.zero v = true -> JS.le v JS.one = true ->
  clamp v JS.zero JS.one = if JS.is_neg_zero v then JS.zero else v.
Proof.
  intros Hlo Hhi.
  destruct v as [s|s| |s m e].
  - destruct s; reflexivity.
  - destruct s; [discriminate Hlo | discriminate Hhi].
  - discriminate Hlo.
  - destruct s; [discriminate Hlo|].
    unfold JS.le, SFleb, JS.one, SFcompare in Hhi.
    unfold clamp, JS.Math_max, JS.Math_min, JS.zero, JS.one, SFcompare,
      JS.is_neg_zero.
    destruct (e ?= -52)%Z; cbv iota in Hhi.
    + destruct (Pos.compare_cont Eq m 4503599627370496); cbv iota in Hhi.
      * exact eq_refl.
      * exact eq_refl.
      * discriminate Hhi.
    + exact eq_refl.
    + discriminate Hhi.
Qed.

(* ===================================================================== *)
(** ** Layer management *)
(* ===================================================================== *)

Section ManagementFacts.

Context {E : Type} `{Engine E}.

Lemma getLayerRegistry_set_registry (m : Map E) registry :
  getLayerRegistry (set_registry m registry) = registry.
Proof. reflexivity. Qed.

Lemma getLayerRegistry_on_engine (f : E -> E) (m : Map E) :
  getLayerRegistry (on_engine f m) = getLayerRegistry m.
Proof. reflexivity. Qed.

Lemma updateLayerOpacity_lookup (m : Map E) layerId opacity k :
  getLayerRegistry (updateLayerOpacity m layerId opacity) !! k
  = if decide (k = layerId)
    then (fun r => LayerInfo.set_opacity r opacity) <$> getLayerRegistry m !! k
    else getLayerRegistry m !! k.
Proof.
  unfold updateLayerOpacity.
  destruct (getLayerRegistry m !! layerId) as [r|] eqn:Hr.
  - rewrite getLayerRegistry_set_registry.
    destruct (decide (k = layerId)) as [->|Hne].
    + now rewrite lookup_insert_eq, Hr.
    + now rewrite lookup_insert_ne by congruence.
  - destruct (decide (k = layerId)) as [->|Hne]; [now rewrite Hr | reflexivity].
Qed.

Lemma updateLayerVisibility_lookup (m : Map E) layerId visible k :
  getLayerRegistry (updateLayerVisibility m layerId visible) !! k
  = if decide (k = layerId)
    then (fun r => LayerInfo.set_visible r visible) <$> getLayerRegistry m !! k
    else getLayerRegistry m !! k.
Proof.
  unfold updateLayerVisibility.
  destruct (getLayerRegistry m !! layerId) as [r|] eqn:Hr.
  - rewrite getLayerRegistry_set_registry.
    destruct (decide (k = layerId)) as [->|Hne].
    + now rewrite lookup_insert_eq, Hr.
    + now rewrite lookup_insert_ne by congruence.
  - destruct (decide (k = layerId)) as [->|Hne]; [now rewrite Hr | reflexivity].
Qed.

Lemma engine_updateLayerOpacity (m : Map E) layerId opacity :
  engine (updateLayerOpacity m layerId opacity) = engine m.
Proof.
  unfold updateLayerOpacity. now destruct (getLayerRegistry m !! layerId).
Qed.

Lemma engine_updateLayerVisibility (m : Map E) layerId visible :
  engine (updateLayerVisibility m layerId visible) = engine m.
Proof.
  unfold updateLayerVisibility. now destruct (getLayerRegistry m !! layerId).
Qed.

(** What [setLayerOpacity] does to a map whose engine has the layer. *)
Lemma setLayerOpacity_present (m : Map E) layerId opacity layer :
  getLayer (engine m) layerId = Some layer ->
  setLayerOpacity m layerId opacity
  = updateLayerOpacity
      (on_engine
         (fun e => fold_left
                     (fun e property =>
                        setPaintProperty e layerId property
                          (clamp opacity JS.zero JS.one))
                     (opacity_properties (AddLayerObject.type layer)) e) m)
      layerId (clamp opacity JS.zero JS.one).
Proof.
  intros Hlayer. unfold setLayerOpacity, opacity_properties. rewrite Hlayer.
  destruct m as [e reg cur]. unfold on_engine. simpl.
  repeat (match goal with
          | |- context [String.eqb ?a ?b] => destruct (String.eqb a b)
          end; [reflexivity|]).
  reflexivity.
Qed.


(** C10.  When the engine reports no layer for the identifier,
    [setLayerOpacity] changes nothing: no paint property is set, a
    registry record of that identifier keeps its opacity, and the map
    returned is the map given. *)
Theorem setLayerOpacity_absent (m : Map E) (layerId : string)
    (opacity : JS.number) :
  getLayer (engine m) layerId = None ->
  setLayerOpacity m layerId opacity = m
  /\ engine (setLayerOpacity m layerId opacity) = engine m
  /\ LayerInfo.opacity <$> getLayerRegistry (setLayerOpacity m layerId opacity) !! layerId
     = LayerInfo.opacity <$> getLayerRegistry m !! layerId.
Proof.
  intros Hlayer.
  assert (Heq : setLayerOpacity m layerId opacity = m).
  { unfold setLayerOpacity. now rewrite Hlayer. }
  now rewrite Heq.
Qed.


End ManagementFacts.


Lemma setLayerOpacity_absent_witness :
  getLayer (engine orphan_map) "a" = None
  /\ setLayerOpacity orphan_map "a" fifteen = orphan_map.
Proof.
  assert (Hlayer : getLayer (engine orphan_map) "a" = None)
    by (vm_compute; reflexivity).
  split; [exact Hlayer|].
  exact (proj1 (setLayerOpacity_absent orphan_map "a" fifteen Hlayer)).
Defined.



(* ===================================================================== *)
(** ** Removal and the sources *)
(* ===================================================================== *)

Section RemovalFacts.

Context {E : Type} `{Engine E}.

Lemma getAllLayersFromRegistry_In (m : Map E) (r : LayerInfo.t) :
  In r (getAllLayersFromRegistry m)
  <-> exists k, getLayerRegistry m !! k = Some r.
Proof.
  unfold getAllLayersFromRegistry. rewrite <- list_elem_of_In.
  rewrite list_elem_of_fmap. split.
  - intros ([k r'] & -> & Hin). exists k. now apply elem_of_map_to_list.
  - intros [k Hk]. exists (k, r). split; [reflexivity|].
    now apply elem_of_map_to_list.
Qed.

(** The test made by [removeLayerById]: the list of the other records on
    the same source is non-empty exactly when another record shares it. *)
Lemma other_layer_iff (m : Map E) (layerId sourceId : string) :
  (length
     (List.filter
        (fun l => String.eqb (LayerInfo.sourceId l) sourceId
                  && negb (String.eqb (LayerInfo.layerId l) layerId))
        (getAllLayersFromRegistry m)) =? 0)%nat = false
  <-> shared_source m layerId sourceId.
Proof.
  rewrite Nat.eqb_neq. split.
  - intros Hlen.
    destruct (List.filter _ _) as [|r rest] eqn:Hf; [contradiction|].
    assert (Hin : In r (r :: rest)) by now left.
    rewrite <- Hf in Hin. apply List.filter_In in Hin as [Hin Hp].
    apply getAllLayersFromRegistry_In in Hin as [k Hk].
    apply andb_prop in Hp as [Hs Hl].
    exists k, r. split; [exact Hk|]. split.
    + now apply String.eqb_eq.
    + apply String.eqb_neq. now apply negb_true_iff.
  - intros (k & r & Hk & Hs & Hl).
    assert (Hin : In r (List.filter
                          (fun l => String.eqb (LayerInfo.sourceId l) sourceId
                                    && negb (String.eqb (LayerInfo.layerId l) layerId))
                          (getAllLayersFromRegistry m))).
    { apply List.filter_In. split.
      - apply getAllLayersFromRegistry_In. now exists k.
      - apply andb_true_intro. split.
        + now apply String.eqb_eq.
        + apply negb_true_iff. now apply String.eqb_neq. }
    destruct (List.filter _ _); [contradiction | discriminate].
Qed.

(** Whatever it finds, [removeLayerById] deletes the record. *)
Lemma removeLayerById_registry (m : Map E) (layerId : string) :
  getLayerRegistry (removeLayerById m layerId)
  = delete layerId (getLayerRegistry m).
Proof.
  unfold removeLayerById, removeLayerInfo.
  rewrite getLayerRegistry_set_registry. f_equal.
  destruct (getLayerInfoById m layerId);
    destruct (JS.truthy (getLayer (engine m) layerId));
    try reflexivity;
    (destruct (JS.truthy (getSource _ _)); [|reflexivity]);
    destruct (_ =? 0)%nat; reflexivity.
Qed.


End RemovalFacts.


(* ===================================================================== *)
(** ** The reference engine keeps its layers *)
(* ===================================================================== *)

Lemma find_is_Some {A} (f : A -> bool) (xs : list A) :
  is_Some (List.find f xs) <-> existsb f xs = true.
Proof.
  induction xs as [|x xs IH]; simpl.
  - split; [intros [y Hy]; discriminate | discriminate].
  - destruct (f x); simpl; [|exact IH]. split; eauto.
Qed.

Lemma existsb_without j k ls :
  j <> k ->
  existsb (RefEngine.has_id k) (RefEngine.without j ls)
  = existsb (RefEngine.has_id k) ls.
Proof.
  intros Hne. unfold RefEngine.without.
  induction ls as [|x ls IH]; [reflexivity|].
  cbn [List.filter existsb].
  destruct (RefEngine.has_id j x) eqn:Hj; cbn [negb existsb].
  - rewrite IH. unfold RefEngine.has_id in *.
    apply String.eqb_eq in Hj.
    destruct (String.eqb_spec (AddLayerObject.id x) k); [congruence | reflexivity].
  - now rewrite IH.
Qed.

Lemma existsb_insert_before k before l ls :
  existsb (RefEngine.has_id k) (RefEngine.insert_before before l ls)
  = RefEngine.has_id k l || existsb (RefEngine.has_id k) ls.
Proof.
  induction ls as [|x ls IH]; simpl.
  - reflexivity.
  - destruct (RefEngine.has_id before x); simpl; [reflexivity|].
    rewrite IH.
    destruct (RefEngine.has_id k x), (RefEngine.has_id k l); reflexivity.
Qed.

Lemma existsb_place k l before ls :
  existsb (RefEngine.has_id k) (RefEngine.place l before ls)
  = RefEngine.has_id k l || existsb (RefEngine.has_id k) ls.
Proof.
  destruct before as [b|]; simpl.
  - apply existsb_insert_before.
  - rewrite existsb_app. simpl.
    destruct (RefEngine.has_id k l), (existsb (RefEngine.has_id k) ls);
      reflexivity.
Qed.

Lemma RefEngine_keeps_layers : EngineKeepsLayers RefEngine.t.
Proof.
  split; simpl; unfold RefEngine.find_layer; simpl.
  - intros e l before. apply find_is_Some. rewrite existsb_place.
    unfold RefEngine.has_id at 1. now rewrite String.eqb_refl.
  - intros e l before k Hk. apply find_is_Some. apply find_is_Some in Hk.
    rewrite existsb_place.
    destruct (String.eqb_spec (AddLayerObject.id l) k) as [Heq|Hne].
    + unfold RefEngine.has_id at 1. apply String.eqb_eq in Heq.
      now rewrite Heq.
    + rewrite existsb_without by exact Hne. rewrite Hk. apply orb_true_r.
  - intros e j k Hne Hk. apply find_is_Some. apply find_is_Some in Hk.
    now rewrite existsb_without.
  - intros e s spec k Hk. exact Hk.
  - intros e s k Hk. exact Hk.
  - intros e j p v k Hk. exact Hk.
  - intros e j p v k Hk. exact Hk.
  - intros e j before k Hk. unfold RefEngine.move, RefEngine.find_layer.
    destruct (List.find (RefEngine.has_id j) (RefEngine.layers e)) as [l|] eqn:Hl;
      [|exact Hk].
    simpl. apply find_is_Some. apply find_is_Some in Hk.
    rewrite existsb_place.
    apply List.find_some in Hl as [_ Hid].
    destruct (String.eqb_spec j k) as [->|Hne].
    + now rewrite Hid.
    + rewrite existsb_without by exact Hne. rewrite Hk. apply orb_true_r.
  - intros e b o k Hk. exact Hk.
Qed.

(* ===================================================================== *)
(** ** The registry invariant *)
(* ===================================================================== *)

Section InvariantFacts.

Context {E : Type} `{EngineKeepsLayers E}.

Lemma layers_kept_refl (e : E) : layers_kept e e.
Proof. intros k Hk. exact Hk. Qed.

Lemma layers_kept_trans (e1 e2 e3 : E) :
  layers_kept e1 e2 -> layers_kept e2 e3 -> layers_kept e1 e3.
Proof. intros H12 H23 k Hk. apply H23, H12, Hk. Qed.

(** Storing a record for a layer the engine has keeps the invariant. *)
Lemma storeLayerInfo_backed (m m1 : Map E) layerId sourceId type options :
  layers_kept (engine m) (engine m1) ->
  is_Some (getLayer (engine m1) layerId) ->
  getLayerRegistry m1 = getLayerRegistry m ->
  registry_backed m ->
  registry_backed (storeLayerInfo m1 layerId sourceId type options).
Proof.
  intros Hkept Hlayer Hreg Hinv k Hk.
  unfold storeLayerInfo in Hk. rewrite getLayerRegistry_set_registry in Hk.
  change (engine (storeLayerInfo m1 layerId sourceId type options))
    with (engine m1).
  destruct (decide (k = layerId)) as [->|Hne]; [exact Hlayer|].
  rewrite lookup_insert_ne in Hk by congruence.
  rewrite Hreg in Hk. apply Hkept, Hinv, Hk.
Qed.

(** A call that only moves the engine, keeping its layers, keeps the
    invariant. *)
Lemma engine_only_backed (m m1 : Map E) :
  layers_kept (engine m) (engine m1) ->
  (forall k, is_Some (getLayerRegistry m1 !! k) ->
             is_Some (getLayerRegistry m !! k)) ->
  registry_backed m -> registry_backed m1.
Proof. intros Hkept Hreg Hinv k Hk. apply Hkept, Hinv, Hreg, Hk. Qed.

Lemma fitBounds_opt_kept (e : E) (b : option BBox) o :
  layers_kept e (match b with
                 | Some bbox => fitBounds e (bounds_of bbox) o
                 | None => e
                 end).
Proof.
  destruct b; [|apply layers_kept_refl].
  intros k Hk. now apply getLayer_fitBounds.
Qed.

Lemma addGeojson_backed m ids clock data options :
  registry_backed m ->
  registry_backed (fst (fst (addGeojson m ids clock data options))).
Proof.
  intros Hinv. unfold addGeojson.
  destruct (id_or_generate _ generateSourceId _ _ _) as [sourceId ids1].
  destruct (id_or_generate _ generateLayerId _ _ _) as [layerId ids2].
  destruct (match data with Inline d => Return d | FromUrl _ r => r end)
    as [geojsonData|e]; [|exact Hinv].
  simpl.
  eapply storeLayerInfo_backed; [| | |exact Hinv].
  - destruct (JS.nullish (AddGeojsonOptions.fitBounds options) false);
      [destruct (calculateBbox geojsonData)|]; simpl;
      intros k Hk; repeat first
        [ apply getLayer_fitBounds | apply getLayer_addLayer_other
        | apply getLayer_addSource ]; exact Hk.
  - destruct (JS.nullish (AddGeojsonOptions.fitBounds options) false);
      [destruct (calculateBbox geojsonData)|]; simpl;
      try apply getLayer_fitBounds;
      apply (getLayer_addLayer _ (geojson_layer layerId sourceId _ options)).
  - destruct (JS.nullish (AddGeojsonOptions.fitBounds options) false);
      [destruct (calculateBbox geojsonData)|]; reflexivity.
Qed.

Lemma addVector_backed m ids clock url options :
  registry_backed m ->
  registry_backed (fst (fst (addVector m ids clock url options))).
Proof.
  intros Hinv. unfold addVector.
  destruct (id_or_generate _ generateSourceId _ _ _) as [sourceId ids1].
  destruct (id_or_generate _ generateLayerId _ _ _) as [layerId ids2].
  simpl.
  eapply storeLayerInfo_backed; [| | |exact Hinv].
  - destruct (JS.endsWith url ".pmtiles"); simpl; intros k Hk;
      apply getLayer_addLayer_other, getLayer_addSource, Hk.
  - destruct (JS.endsWith url ".pmtiles"); simpl;
      match goal with
      | |- is_Some (getLayer (addLayer ?e ?l ?b) _) =>
          apply (getLayer_addLayer e l b)
      end.
  - destruct (JS.endsWith url ".pmtiles"); reflexivity.
Qed.

Lemma addRaster_backed m ids clock url options :
  registry_backed m ->
  registry_backed (fst (fst (addRaster m ids clock url options))).
Proof.
  intros Hinv. unfold addRaster.
  destruct (id_or_generate _ generateSourceId _ _ _) as [sourceId ids1].
  destruct (id_or_generate _ generateLayerId _ _ _) as [layerId ids2].
  simpl.
  eapply storeLayerInfo_backed; [| | |exact Hinv].
  - simpl. intros k Hk. apply getLayer_addLayer_other, getLayer_addSource, Hk.
  - simpl. apply (getLayer_addLayer _ (raster_layer layerId sourceId options)).
  - reflexivity.
Qed.

Lemma addCogLayer_backed m ids clock url options :
  registry_backed m ->
  registry_backed (fst (fst (addCogLayer m ids clock url options))).
Proof.
  intros Hinv. unfold addCogLayer.
  destruct (id_or_generate _ generateSourceId _ _ _) as [sourceId ids1].
  destruct (id_or_generate _ generateLayerId _ _ _) as [layerId ids2].
  simpl.
  eapply storeLayerInfo_backed; [| | |exact Hinv].
  - destruct (AddRasterOptions.bounds (AddCogOptions.raster options)); simpl;
      intros k Hk; repeat first
        [ apply getLayer_fitBounds | apply getLayer_addLayer_other
        | apply getLayer_addSource ]; exact Hk.
  - destruct (AddRasterOptions.bounds (AddCogOptions.raster options)); simpl;
      try apply getLayer_fitBounds;
      apply (getLayer_addLayer _
               (raster_layer layerId sourceId (AddCogOptions.raster options))).
  - destruct (AddRasterOptions.bounds (AddCogOptions.raster options));
      reflexivity.
Qed.

Lemma addWmsLayer_backed m ids clock baseUrl options :
  registry_backed m ->
  registry_backed (fst (fst (addWmsLayer m ids clock baseUrl options))).
Proof.
  intros Hinv. unfold addWmsLayer.
  destruct (id_or_generate _ generateSourceId _ _ _) as [sourceId ids1].
  destruct (id_or_generate _ generateLayerId _ _ _) as [layerId ids2].
  simpl.
  eapply storeLayerInfo_backed; [| | |exact Hinv].
  - simpl. intros k Hk. apply getLayer_addLayer_other, getLayer_addSource, Hk.
  - simpl. apply (getLayer_addLayer _
                    (raster_layer layerId sourceId (AddWmsOptions.raster options))).
  - reflexivity.
Qed.

Lemma removeLayerById_backed (m : Map E) layerId :
  registry_backed m -> registry_backed (removeLayerById m layerId).
Proof.
  intros Hinv k Hk.
  rewrite removeLayerById_registry in Hk.
  destruct (decide (k = layerId)) as [->|Hne].
  { rewrite lookup_delete_eq in Hk. destruct Hk as [r Hr]. discriminate Hr. }
  rewrite lookup_delete_ne in Hk by congruence.
  apply Hinv in Hk.
  unfold removeLayerById, removeLayerInfo.
  set (m1 := if JS.truthy (getLayer (engine m) layerId)
             then on_engine (fun e => removeLayer e layerId) m else m).
  assert (H1 : is_Some (getLayer (engine m1) k)).
  { subst m1. destruct (JS.truthy (getLayer (engine m) layerId)); simpl;
      [apply getLayer_removeLayer_other; [congruence | exact Hk] | exact Hk]. }
  clearbody m1.
  change (engine (set_registry ?x ?r)) with (engine x).
  destruct (getLayerInfoById m layerId); [|exact H1].
  destruct (JS.truthy _); [|exact H1].
  destruct (_ =? 0)%nat; [|exact H1].
  cbn [engine on_engine]. now apply getLayer_removeSource.
Qed.

Lemma setLayerVisibility_backed (m : Map E) layerId visible :
  registry_backed m -> registry_backed (setLayerVisibility m layerId visible).
Proof.
  intros Hinv k Hk. unfold setLayerVisibility in *.
  destruct (JS.truthy (getLayer (engine m) layerId)); [|now apply Hinv].
  rewrite engine_updateLayerVisibility. simpl.
  apply getLayer_setLayoutProperty, Hinv.
  rewrite updateLayerVisibility_lookup, getLayerRegistry_on_engine in Hk.
  destruct (decide (k = layerId)); [|exact Hk].
  now apply fmap_is_Some in Hk.
Qed.

Lemma setPaintProperty_fold_kept (e : E) layerId value properties k :
  is_Some (getLayer e k) ->
  is_Some (getLayer
             (fold_left (fun e property =>
                           setPaintProperty e layerId property value)
                        properties e) k).
Proof.
  revert e. induction properties as [|p ps IH]; intros e Hk; simpl;
    [exact Hk|].
  apply IH. now apply getLayer_setPaintProperty.
Qed.

Lemma setLayerOpacity_backed (m : Map E) layerId opacity :
  registry_backed m -> registry_backed (setLayerOpacity m layerId opacity).
Proof.
  intros Hinv k Hk.
  destruct (getLayer (engine m) layerId) as [layer|] eqn:Hlayer.
  - rewrite (setLayerOpacity_present m layerId opacity layer Hlayer) in *.
    rewrite engine_updateLayerOpacity. cbn [engine on_engine].
    rewrite updateLayerOpacity_lookup, getLayerRegistry_on_engine in Hk.
    apply setPaintProperty_fold_kept, Hinv.
    destruct (decide (k = layerId)); [|exact Hk].
    now apply fmap_is_Some in Hk.
  - unfold setLayerOpacity in *. rewrite Hlayer in *. now apply Hinv.
Qed.

Lemma bringLayerToFront_backed (m : Map E) layerId :
  registry_backed m -> registry_backed (bringLayerToFront m layerId).
Proof.
  intros Hinv k Hk. unfold bringLayerToFront in *.
  destruct (JS.truthy (getLayer (engine m) layerId)); [|now apply Hinv].
  simpl. now apply getLayer_moveLayer, Hinv.
Qed.

Lemma sendLayerToBack_backed (m : Map E) layerId :
  registry_backed m -> registry_backed (sendLayerToBack m layerId).
Proof.
  intros Hinv k Hk. unfold sendLayerToBack in *.
  destruct (JS.truthy (getLayer (engine m) layerId)); [|now apply Hinv].
  destruct (findIndex _ _) as [[|i]|]; try now apply Hinv.
  destruct (_ !! S i); [|now apply Hinv].
  destruct (negb _); [|now apply Hinv].
  simpl. now apply getLayer_moveLayer, Hinv.
Qed.

Lemma fitToLayer_backed (m : Map E) layerId options :
  registry_backed m -> registry_backed (fitToLayer m layerId options).
Proof.
  intros Hinv k Hk. unfold fitToLayer in *.
  destruct (getLayerInfoById m layerId) as [info|]; [|now apply Hinv].
  destruct (options_bounds (LayerInfo.options info)); [|now apply Hinv].
  simpl. now apply getLayer_fitBounds, Hinv.
Qed.

Lemma getLayerRegistry_removeBasemap (m : Map E) :
  getLayerRegistry (removeBasemap m) = getLayerRegistry m.
Proof.
  unfold removeBasemap.
  destruct (JS.truthy (getLayer (engine m) BASEMAP_LAYER_ID));
    cbn [engine on_engine];
    destruct (JS.truthy (getSource _ BASEMAP_SOURCE_ID)); reflexivity.
Qed.

Lemma removeBasemap_keeps_others (m : Map E) k :
  k <> BASEMAP_LAYER_ID ->
  is_Some (getLayer (engine m) k) ->
  is_Some (getLayer (engine (removeBasemap m)) k).
Proof.
  intros Hne Hk. unfold removeBasemap.
  change (engine (set_currentBasemap ?x ?n)) with (engine x).
  set (m1 := if JS.truthy (getLayer (engine m) BASEMAP_LAYER_ID)
             then on_engine (fun e => removeLayer e BASEMAP_LAYER_ID) m
             else m).
  assert (H1 : is_Some (getLayer (engine m1) k)).
  { subst m1. destruct (JS.truthy (getLayer (engine m) BASEMAP_LAYER_ID));
      cbn [engine on_engine];
      [apply getLayer_removeLayer_other; [congruence | exact Hk] | exact Hk]. }
  clearbody m1.
  destruct (JS.truthy (getSource (engine m1) BASEMAP_SOURCE_ID));
    cbn [engine on_engine]; [now apply getLayer_removeSource | exact H1].
Qed.

Lemma addBasemap_backed retina (m : Map E) name :
  registry_backed m -> registry_backed (fst (addBasemap retina m name)).
Proof.
  intros Hinv. unfold addBasemap.
  destruct (getBasemapDefinition name) as [definition|]; [|exact Hinv].
  cbv zeta. cbn [fst].
  intros k Hk.
  change (is_Some (getLayerRegistry (removeBasemap m) !! k)) in Hk.
  rewrite getLayerRegistry_removeBasemap in Hk. apply Hinv in Hk.
  change (engine (set_currentBasemap ?x ?n)) with (engine x).
  cbn [engine on_engine].
  destruct (decide (k = BASEMAP_LAYER_ID)) as [->|Hne].
  - match goal with
    | |- is_Some (getLayer (addLayer ?e ?l ?b) _) =>
        apply (getLayer_addLayer e l b)
    end.
  - apply getLayer_addLayer_other, getLayer_addSource.
    now apply removeBasemap_keeps_others.
Qed.

Lemma perform_backed (w : World E) (op : Operation) :
  registry_backed (map w) -> registry_backed (map (perform w op)).
Proof.
  intros Hinv. destruct op; simpl.
  - now apply addBasemap_backed.
  - now apply addBasemap_backed.
  - now apply addGeojson_backed.
  - now apply addVector_backed.
  - now apply addRaster_backed.
  - now apply addCogLayer_backed.
  - now apply addWmsLayer_backed.
  - now apply removeLayerById_backed.
  - now apply setLayerVisibility_backed.
  - now apply setLayerOpacity_backed.
  - now apply bringLayerToFront_backed.
  - now apply sendLayerToBack_backed.
  - now apply fitToLayer_backed.
Qed.

Lemma perform_all_backed (ops : list Operation) (w : World E) :
  registry_backed (map w) -> registry_backed (map (perform_all w ops)).
Proof.
  unfold perform_all. revert w.
  induction ops as [|op ops IH]; intros w Hinv; simpl; [exact Hinv|].
  apply IH. now apply perform_backed.
Qed.



End InvariantFacts.


(* ===================================================================== *)
(** ** The layer kind of GeoJSON data *)
(* ===================================================================== *)

Lemma family_Geometry_type (g : Geometry) :
  default TMixed (family (Some (Geometry_type g))) = type_of_family (family_of g)
  /\ (family (Some (Geometry_type g)) = None <-> family_of g = NoFamily).
Proof.
  destruct g; (split; [reflexivity|]); vm_compute;
    split; intros Hx; first [reflexivity | discriminate Hx].
Qed.

Lemma family_feature (f : Feature) :
  default TMixed (family (Geometry_type <$> geometry f))
  = type_of_family (family_of_feature f).
Proof.
  unfold family_of_feature. destruct (geometry f) as [g|]; [|reflexivity].
  apply family_Geometry_type.
Qed.

Lemma type_of_family_inj (a b : Family) :
  type_of_family a = type_of_family b -> a = b.
Proof. destruct a, b; simpl; congruence. Qed.

Lemma getDefaultLayerType_family (f : Family) :
  getDefaultLayerType (type_of_family f) = kind_of_family f.
Proof. now destruct f. Qed.

Lemma Set_of_In {A} `{EqDecision A} (xs : list A) (y : A) :
  In y (Set_of xs) <-> In y xs.
Proof.
  induction xs as [|x xs IH]; simpl; [tauto|].
  rewrite List.filter_In, IH, negb_true_iff, bool_decide_eq_false.
  destruct (decide (y = x)) as [->|Hne]; [tauto|].
  split; [tauto|]. intros [Heq|Hin]; [congruence | tauto].
Qed.

(** A set with a single value: every element of the list is that value. *)
Lemma Set_of_single {A} `{EqDecision A} (x : A) (xs : list A) :
  match Set_of (x :: xs) with
  | [t] => t = x /\ forallb (fun y => bool_decide (y = x)) xs = true
  | _ => forallb (fun y => bool_decide (y = x)) xs = false
  end.
Proof.
  simpl.
  destruct (List.filter _ (Set_of xs)) as [|y rest] eqn:Hf.
  - split; [reflexivity|]. apply forallb_forall. intros y Hy.
    apply bool_decide_eq_true.
    destruct (decide (y = x)) as [->|Hne]; [reflexivity|].
    assert (Hin : In y (List.filter (fun y => negb (bool_decide (y = x)))
                          (Set_of xs))).
    { apply List.filter_In. split; [now apply (proj2 (Set_of_In xs y))|].
      apply negb_true_iff. now apply bool_decide_eq_false. }
    rewrite Hf in Hin. contradiction.
  - assert (Hin : In y (y :: rest)) by now left.
    rewrite <- Hf in Hin. apply List.filter_In in Hin as [Hin Hy].
    apply (proj1 (Set_of_In xs y)) in Hin.
    apply negb_true_iff in Hy.
    destruct (forallb _ xs) eqn:Hall; [|reflexivity].
    rewrite forallb_forall in Hall. rewrite (Hall y Hin) in Hy. discriminate Hy.
Qed.

Lemma detectGeometryType_kind (data : GeoJSON) :
  getDefaultLayerType (detectGeometryType data) = kind_by_geometry data.
Proof.
  destruct data as [f|features|g]; unfold detectGeometryType.
  - pose proof (family_feature f) as Hf. simpl.
    destruct (family (Geometry_type <$> geometry f)) as [t|]; simpl in Hf.
    + rewrite Hf. apply getDefaultLayerType_family.
    + rewrite <- getDefaultLayerType_family, <- Hf. reflexivity.
  - destruct features as [|f rest]; [reflexivity|].
    cbn [List.map kind_by_geometry].
    assert (Hall : forallb (fun y => bool_decide
                              (y = default TMixed
                                     (family (Geometry_type <$> geometry f))))
                     (List.map (fun f => default TMixed
                                           (family (Geometry_type <$> geometry f)))
                               rest)
                   = forallb (fun f' => bool_decide (family_of_feature f'
                                                     = family_of_feature f))
                             rest).
    { induction rest as [|f' rest IHrest]; [reflexivity|].
      cbn [List.map forallb]. rewrite IHrest. f_equal.
      rewrite !family_feature.
      apply bool_decide_ext.
      split; [apply type_of_family_inj | intros Heq; now rewrite Heq]. }
    pose proof (Set_of_single
                  (default TMixed (family (Geometry_type <$> geometry f)))
                  (List.map (fun f => default TMixed
                                        (family (Geometry_type <$> geometry f)))
                            rest)) as Hset.
    rewrite Hall in Hset.
    destruct (Set_of _) as [|t [|t' ts]].
    + now rewrite Hset.
    + destruct Hset as [-> ->]. rewrite family_feature.
      apply getDefaultLayerType_family.
    + now rewrite Hset.
  - change (getDefaultLayerType
              (default TMixed (family (Some (Geometry_type g))))
            = kind_of_family (family_of g)).
    rewrite (proj1 (family_Geometry_type g)).
    apply getDefaultLayerType_family.
Qed.

Section GeojsonFacts.

Context {E : Type} `{Engine E}.

(** C9.  When the caller gives no [type], the layer [addGeojson] hands to
    the engine has the kind that goes with the geometry of the data: a
    circle layer for the Point family, a line layer for the Line family,
    a fill layer for the Polygon family, and a fill layer for a feature
    collection whose features are of different families. *)
Theorem addGeojson_layer_kind (m : Map E) (ids : Counters) (clock : Clock)
    (data : GeoJSON) (options : AddGeojsonOptions.t) :
  AddGeojsonOptions.type options = None ->
  geojson_layerType data options = kind_by_geometry data
  /\ exists sourceId layerId,
       snd (addGeojson m ids clock (Inline data) options) = Return layerId
       /\ AddLayerObject.type
            (geojson_layer layerId sourceId (kind_by_geometry data) options)
          = StyleKind_name (kind_by_geometry data)
       /\ let e1 :=
            addLayer (addSource (engine m) sourceId (geojson_source data))
              (geojson_layer layerId sourceId (kind_by_geometry data) options)
              (AddGeojsonOptions.beforeId options) in
          engine (fst (fst (addGeojson m ids clock (Inline data) options))) = e1
          \/ exists bbox,
               engine (fst (fst (addGeojson m ids clock (Inline data) options)))
               = fitBounds e1 (bounds_of bbox)
                   (JS.spread padding50
                      (JS.nullish (AddGeojsonOptions.fitBoundsOptions options) [])).
Proof.
  intros Htype.
  assert (Hkind : geojson_layerType data options = kind_by_geometry data).
  { unfold geojson_layerType. rewrite Htype. apply detectGeometryType_kind. }
  split; [exact Hkind|].
  unfold addGeojson.
  destruct (id_or_generate _ generateSourceId _ _ _) as [sourceId ids1].
  destruct (id_or_generate _ generateLayerId _ _ _) as [layerId ids2].
  exists sourceId, layerId. rewrite Hkind.
  split; [reflexivity|]. split; [reflexivity|].
  cbv zeta. cbn [fst].
  destruct (JS.nullish (AddGeojsonOptions.fitBounds options) false);
    [destruct (calculateBbox data) as [bbox|]|].
  - right. exists bbox. reflexivity.
  - left. reflexivity.
  - left. reflexivity.
Qed.

End GeojsonFacts.

Lemma addGeojson_layer_kind_witness :
  AddGeojsonOptions.type AddGeojsonOptions.empty = None
  /\ geojson_layerType point_collection AddGeojsonOptions.empty = circle
  /\ geojson_layerType polygon_feature AddGeojsonOptions.empty = fill.
Proof.
  split; [reflexivity|]. split.
  - exact (proj1 (addGeojson_layer_kind fresh_map initial_counters noon
                    point_collection AddGeojsonOptions.empty eq_refl)).
  - exact (proj1 (addGeojson_layer_kind fresh_map initial_counters noon
                    polygon_feature AddGeojsonOptions.empty eq_refl)).
Defined.

(* ===================================================================== *)
(** ** The registry as a table *)
(* ===================================================================== *)

Section RegistryFacts.

Context {E : Type} `{Engine E}.




(** X4.  Storing a record and removing it again restores every lookup when the
    identifier was free. *)
Theorem store_then_remove (m : Map E) (layerId sourceId type : string)
    (options : StoredOptions) (k : string) :
  getLayerInfoById m layerId = None ->
  getLayerInfoById
    (removeLayerInfo (storeLayerInfo m layerId sourceId type options) layerId) k
  = getLayerInfoById m k.
Proof.
  intros Hfree. unfold getLayerInfoById in *.
  unfold removeLayerInfo, storeLayerInfo.
  rewrite !getLayerRegistry_set_registry.
  destruct (decide (k = layerId)) as [->|Hne].
  - now rewrite lookup_delete_eq, Hfree.
  - now rewrite lookup_delete_ne, lookup_insert_ne by congruence.
Qed.

End RegistryFacts.


Lemma store_then_remove_witness :
  getLayerInfoById fresh_map "a" = None
  /\ getLayerInfoById
       (removeLayerInfo
          (storeLayerInfo fresh_map "a" "s" "raster"
             (RasterOptions (raster_named "a" "s"))) "a") "a"
     = getLayerInfoById fresh_map "a".
Proof.
  split; [reflexivity|].
  exact (store_then_remove fresh_map "a" "s" "raster"
           (RasterOptions (raster_named "a" "s")) "a" eq_refl).
Defined.

(* ===================================================================== *)
(** ** What each operation does to the registry *)
(* ===================================================================== *)

Section RegistryEffect.

Context {E : Type} `{Engine E}.

Lemma alter_present (f : LayerInfo.t -> LayerInfo.t) k r
    (registry : gmap string LayerInfo.t) :
  registry !! k = Some r -> <[k := f r]> registry = alter f k registry.
Proof.
  intros Hr. apply map_eq. intros j.
  destruct (decide (j = k)) as [->|Hne].
  - now rewrite lookup_insert_eq, lookup_alter_eq, Hr.
  - now rewrite lookup_insert_ne, lookup_alter_ne by congruence.
Qed.

Lemma alter_absent (f : LayerInfo.t -> LayerInfo.t) k
    (registry : gmap string LayerInfo.t) :
  registry !! k = None -> registry = alter f k registry.
Proof.
  intros Hr. apply map_eq. intros j.
  destruct (decide (j = k)) as [->|Hne].
  - now rewrite lookup_alter_eq, Hr.
  - now rewrite lookup_alter_ne by congruence.
Qed.

Lemma getLayerRegistry_updateLayerVisibility (m : Map E) layerId visible :
  getLayerRegistry (updateLayerVisibility m layerId visible)
  = alter (fun r => LayerInfo.set_visible r visible) layerId
          (getLayerRegistry m).
Proof.
  unfold updateLayerVisibility.
  destruct (getLayerRegistry m !! layerId) as [r|] eqn:Hr.
  - rewrite getLayerRegistry_set_registry.
    exact (alter_present (fun r => LayerInfo.set_visible r visible) _ _ _ Hr).
  - now apply alter_absent.
Qed.

Lemma getLayerRegistry_updateLayerOpacity (m : Map E) layerId opacity :
  getLayerRegistry (updateLayerOpacity m layerId opacity)
  = alter (fun r => LayerInfo.set_opacity r opacity) layerId
          (getLayerRegistry m).
Proof.
  unfold updateLayerOpacity.
  destruct (getLayerRegistry m !! layerId) as [r|] eqn:Hr.
  - rewrite getLayerRegistry_set_registry.
    exact (alter_present (fun r => LayerInfo.set_opacity r opacity) _ _ _ Hr).
  - now apply alter_absent.
Qed.

(** The registry after each operation: a creation stores exactly the
    record of the call under its [layerId] (nothing when the fetch of a
    GeoJSON URL fails); removal deletes the record; visibility and opacity
    changes rewrite one field of one record, and only when the engine has
    the layer; basemap activation, reordering and fitting leave the
    registry as it was. *)
Lemma perform_registry (w : World E) (op : Operation) :
  getLayerRegistry (map (perform w op)) = registry_after w op.
Proof.
  destruct op as [retina bname|retina bname|clock data options|clock url options|clock url options|clock url options|clock baseUrl options|layerId|layerId visible|layerId opacity|layerId|layerId|layerId options];
    unfold registry_after, created_record; cbn [perform map on_map].
  - unfold addBasemap. destruct (getBasemapDefinition bname); [|reflexivity].
    cbv zeta. cbn [fst].
    change (getLayerRegistry (removeBasemap (map w)) = getLayerRegistry (map w)).
    unfold removeBasemap.
    destruct (JS.truthy (getLayer (engine (map w)) BASEMAP_LAYER_ID));
      cbn [engine on_engine];
      destruct (JS.truthy (getSource _ BASEMAP_SOURCE_ID)); reflexivity.
  - unfold setBasemap, addBasemap.
    destruct (getBasemapDefinition bname); [|reflexivity].
    cbv zeta. cbn [fst].
    change (getLayerRegistry (removeBasemap (map w)) = getLayerRegistry (map w)).
    unfold removeBasemap.
    destruct (JS.truthy (getLayer (engine (map w)) BASEMAP_LAYER_ID));
      cbn [engine on_engine];
      destruct (JS.truthy (getSource _ BASEMAP_SOURCE_ID)); reflexivity.
  - unfold addGeojson.
    destruct (id_or_generate _ generateSourceId _ _ _) as [sourceId ids1].
    destruct (id_or_generate _ generateLayerId _ _ _) as [layerId ids2].
    cbn [fst snd].
    destruct data as [d|u [d|e]]; try reflexivity;
      cbv zeta; cbn [fst snd]; unfold storeLayerInfo;
      rewrite getLayerRegistry_set_registry; f_equal;
      (destruct (JS.nullish (AddGeojsonOptions.fitBounds options) false);
       [destruct (calculateBbox d)|]); reflexivity.
  - unfold addVector.
    destruct (id_or_generate _ generateSourceId _ _ _) as [sourceId ids1].
    destruct (id_or_generate _ generateLayerId _ _ _) as [layerId ids2].
    cbn [fst snd]. cbv zeta. cbn [fst snd]. unfold storeLayerInfo.
    rewrite getLayerRegistry_set_registry. f_equal.
    destruct (JS.endsWith url ".pmtiles"); reflexivity.
  - unfold addRaster.
    destruct (id_or_generate _ generateSourceId _ _ _) as [sourceId ids1].
    destruct (id_or_generate _ generateLayerId _ _ _) as [layerId ids2].
    reflexivity.
  - unfold addCogLayer.
    destruct (id_or_generate _ generateSourceId _ _ _) as [sourceId ids1].
    destruct (id_or_generate _ generateLayerId _ _ _) as [layerId ids2].
    cbn [fst snd]. cbv zeta. cbn [fst snd]. unfold storeLayerInfo.
    rewrite getLayerRegistry_set_registry. f_equal.
    destruct (AddRasterOptions.bounds (AddCogOptions.raster options));
      reflexivity.
  - unfold addWmsLayer.
    destruct (id_or_generate _ generateSourceId _ _ _) as [sourceId ids1].
    destruct (id_or_generate _ generateLayerId _ _ _) as [layerId ids2].
    reflexivity.
  - apply removeLayerById_registry.
  - unfold setLayerVisibility.
    destruct (JS.truthy (getLayer (engine (map w)) layerId)); [|reflexivity].
    cbv zeta. now rewrite getLayerRegistry_updateLayerVisibility.
  - destruct (getLayer (engine (map w)) layerId) as [layer|] eqn:Hlayer.
    + rewrite (setLayerOpacity_present _ _ _ layer Hlayer).
      now rewrite getLayerRegistry_updateLayerOpacity.
    + unfold setLayerOpacity. now rewrite Hlayer.
  - unfold bringLayerToFront.
    now destruct (JS.truthy (getLayer (engine (map w)) layerId)).
  - unfold sendLayerToBack.
    destruct (JS.truthy (getLayer (engine (map w)) layerId)); [|reflexivity].
    cbv zeta. destruct (findIndex _ _) as [[|i]|]; try reflexivity.
    destruct (_ !! S i); [|reflexivity]. now destruct (negb _).
  - unfold fitToLayer.
    destruct (getLayerInfoById (map w) layerId) as [info|]; [|reflexivity].
    now destruct (options_bounds (LayerInfo.options info)).
Qed.

Lemma created_record_layerId (w : World E) (op : Operation) r :
  created_record w op = Some r ->
  exists sourceId type options,
    r = new_record (LayerInfo.layerId r) sourceId type options.
Proof.
  destruct op as [retina bname|retina bname|clock data options|clock url options|clock url options|clock url options|clock baseUrl options|layerId|layerId visible|layerId opacity|layerId|layerId|layerId options];
    try discriminate; unfold created_record;
    destruct (id_or_generate _ generateSourceId _ _ _) as [sourceId ids1];
    destruct (id_or_generate _ generateLayerId _ _ _) as [layerId ids2];
    cbn [fst snd]; try (intros [= <-]; eexists _, _, _; reflexivity).
  destruct data as [d|u [d|e]]; try discriminate;
    intros [= <-]; eexists _, _, _; reflexivity.
Qed.

Lemma perform_keyed (w : World E) (op : Operation) :
  keyed_by_layerId (map w) -> keyed_by_layerId (map (perform w op)).
Proof.
  intros Hkeyed k r. rewrite perform_registry.
  assert (Hdefault :
            match created_record w op with
            | Some r0 => <[LayerInfo.layerId r0 := r0]> (getLayerRegistry (map w))
            | None => getLayerRegistry (map w)
            end !! k = Some r -> LayerInfo.layerId r = k).
  { destruct (created_record w op) as [r0|]; [|apply Hkeyed].
    destruct (decide (k = LayerInfo.layerId r0)) as [->|Hne].
    - rewrite lookup_insert_eq. now intros [= ->].
    - rewrite lookup_insert_ne by congruence. apply Hkeyed. }
  destruct op as [retina bname|retina bname|clock data options|clock url options|clock url options|clock url options|clock baseUrl options|layerId|layerId visible|layerId opacity|layerId|layerId|layerId options];
    try exact Hdefault; unfold registry_after.
  - destruct (decide (k = layerId)) as [->|Hne].
    + rewrite lookup_delete_eq. discriminate.
    + rewrite lookup_delete_ne by congruence. apply Hkeyed.
  - destruct (JS.truthy _); [|apply Hkeyed].
    destruct (decide (k = layerId)) as [->|Hne].
    + rewrite lookup_alter_eq.
      destruct (getLayerRegistry (map w) !! layerId) as [r0|] eqn:Hr0;
        [|discriminate].
      intros [= <-]. exact (Hkeyed _ _ Hr0).
    + rewrite lookup_alter_ne by congruence. apply Hkeyed.
  - destruct (JS.truthy _); [|apply Hkeyed].
    destruct (decide (k = layerId)) as [->|Hne].
    + rewrite lookup_alter_eq.
      destruct (getLayerRegistry (map w) !! layerId) as [r0|] eqn:Hr0;
        [|discriminate].
      intros [= <-]. exact (Hkeyed _ _ Hr0).
    + rewrite lookup_alter_ne by congruence. apply Hkeyed.
Qed.

(** X5.  Every record sits under its own [layerId], whatever operations are
    run on a registry where this holds (an empty one, for a start).  In
    such a registry, the records that [removeLayerById] counts as other
    users of a source are the records under the other keys. *)
Theorem registry_keyed_always (w : World E) (ops : list Operation) :
  keyed_by_layerId (map w) ->
  keyed_by_layerId (map (perform_all w ops))
  /\ forall layerId sourceId,
       shared_source (map (perform_all w ops)) layerId sourceId
       <-> exists k r,
             getLayerRegistry (map (perform_all w ops)) !! k = Some r
             /\ LayerInfo.sourceId r = sourceId /\ k <> layerId.
Proof.
  intros Hkeyed.
  assert (Hall : keyed_by_layerId (map (perform_all w ops))).
  { unfold perform_all. revert w Hkeyed.
    induction ops as [|op ops IH]; intros w Hkeyed; simpl; [exact Hkeyed|].
    apply IH. now apply perform_keyed. }
  split; [exact Hall|].
  intros layerId sourceId. unfold shared_source.
  split; intros (k & r & Hk & Hs & Hl); exists k, r;
    (split; [exact Hk|]); (split; [exact Hs|]);
    pose proof (Hall k r Hk) as Hkey; congruence.
Qed.

End RegistryEffect.

Lemma registry_keyed_always_witness :
  keyed_by_layerId (map fresh_world)
  /\ keyed_by_layerId (map (perform_all fresh_world sample_operations)).
Proof.
  assert (Hfresh : keyed_by_layerId (map fresh_world)).
  { intros k r Hk. vm_compute in Hk. discriminate Hk. }
  split; [exact Hfresh|].
  exact (proj1 (registry_keyed_always fresh_world sample_operations Hfresh)).
Defined.

(* ===================================================================== *)
(** ** Basemaps: valid names, tile URLs, position in the style *)
(* ===================================================================== *)

Lemma getBasemapDefinition_known name :
  In name getBasemapNames <-> is_Some (getBasemapDefinition name).
Proof.
  unfold getBasemapNames, getBasemapDefinition. rewrite keys_In. split.
  - intros Hin. destruct (JS.obj_get basemaps name) eqn:Hget; [eauto|].
    apply obj_get_None in Hget. contradiction.
  - intros [d Hd] . apply obj_get_Some_In in Hd.
    now apply (in_map fst) in Hd.
Qed.

Lemma basemap_names_nonempty name :
  In name getBasemapNames -> JS.truthy_string name = true.
Proof.
  assert (Hall : forallb JS.truthy_string getBasemapNames = true)
    by (vm_compute; reflexivity).
  rewrite forallb_forall in Hall. apply Hall.
Qed.

Section BasemapActivation.

Context {E : Type} `{Engine E}.

(** X6.  Activation succeeds exactly for the names of the catalog, which are
    also exactly the names the validator accepts; after a successful
    activation, by either entry point, [getBasemap] returns the name just
    activated. *)
Theorem basemap_activation (retina : bool) (m : Map E) (name : BasemapName) :
  (In name getBasemapNames <-> snd (addBasemap retina m name) = Return tt)
  /\ (In name getBasemapNames <-> validateBasemapName name = Return tt)
  /\ (In name getBasemapNames ->
      getBasemap (fst (addBasemap retina m name)) = Some name
      /\ getBasemap (fst (setBasemap retina m name)) = Some name).
Proof.
  split; [|split].
  - rewrite getBasemapDefinition_known. unfold addBasemap.
    destruct (getBasemapDefinition name) as [d|]; cbn [snd].
    + split; [reflexivity | eauto].
    + split; [intros [d Hd]; discriminate Hd | discriminate].
  - unfold validateBasemapName.
    destruct (Array_includes getBasemapNames name) eqn:Hinc; cbn [negb].
    + apply Array_includes_In in Hinc. tauto.
    + split; [|discriminate]. intros Hin.
      apply Array_includes_In in Hin. congruence.
  - intros Hin. pose proof (basemap_names_nonempty name Hin) as Hname.
    apply getBasemapDefinition_known in Hin as [d Hd].
    unfold setBasemap, addBasemap. rewrite Hd. cbv zeta. cbn [fst].
    unfold getBasemap. cbn [currentBasemapMap set_currentBasemap].
    now rewrite Hname.
Qed.

(** X7.  A failed or successful activation never touches the layer registry,
    and no layer operation touches the tracked basemap. *)
Theorem basemap_and_layers_apart (w : World E) (op : Operation) :
  (is_basemap_operation op = true ->
   getLayerRegistry (map (perform w op)) = getLayerRegistry (map w)
   /\ ids (perform w op) = ids w)
  /\ (is_basemap_operation op = false ->
      currentBasemapMap (map (perform w op)) = currentBasemapMap (map w)).
Proof.
  split.
  - intros Hop. rewrite perform_registry.
    destruct op; try discriminate Hop; split; reflexivity.
  - intros Hop.
    destruct op as [retina bname|retina bname|clock data options
                   |clock url options|clock url options|clock url options
                   |clock baseUrl options|layerId|layerId visible
                   |layerId opacity|layerId|layerId|layerId options];
      try discriminate Hop; cbn [perform map on_map].
    + unfold addGeojson.
      destruct (id_or_generate _ generateSourceId _ _ _) as [sourceId ids1].
      destruct (id_or_generate _ generateLayerId _ _ _) as [layerId ids2].
      destruct data as [d|u [d|e]]; try reflexivity; cbv zeta; cbn [fst snd];
        (destruct (JS.nullish (AddGeojsonOptions.fitBounds options) false);
         [destruct (calculateBbox d)|]); reflexivity.
    + unfold addVector.
      destruct (id_or_generate _ generateSourceId _ _ _) as [sourceId ids1].
      destruct (id_or_generate _ generateLayerId _ _ _) as [layerId ids2].
      cbv zeta. cbn [fst snd].
      destruct (JS.endsWith url ".pmtiles"); reflexivity.
    + unfold addRaster.
      destruct (id_or_generate _ generateSourceId _ _ _) as [sourceId ids1].
      destruct (id_or_generate _ generateLayerId _ _ _) as [layerId ids2].
      reflexivity.
    + unfold addCogLayer.
      destruct (id_or_generate _ generateSourceId _ _ _) as [sourceId ids1].
      destruct (id_or_generate _ generateLayerId _ _ _) as [layerId ids2].
      cbv zeta. cbn [fst snd].
      destruct (AddRasterOptions.bounds (AddCogOptions.raster options));
        reflexivity.
    + unfold addWmsLayer.
      destruct (id_or_generate _ generateSourceId _ _ _) as [sourceId ids1].
      destruct (id_or_generate _ generateLayerId _ _ _) as [layerId ids2].
      reflexivity.
    + unfold removeLayerById, removeLayerInfo. cbv zeta.
      cbn [currentBasemapMap set_registry].
      destruct (getLayerInfoById (map w) layerId);
        destruct (JS.truthy (getLayer (engine (map w)) layerId));
        try reflexivity;
        (destruct (JS.truthy (getSource _ _)); [|reflexivity]);
        destruct (_ =? 0)%nat; reflexivity.
    + unfold setLayerVisibility.
      destruct (JS.truthy (getLayer (engine (map w)) layerId)); [|reflexivity].
      cbv zeta. unfold updateLayerVisibility.
      now destruct (getLayerRegistry _ !! layerId).
    + destruct (getLayer (engine (map w)) layerId) as [layer|] eqn:Hlayer.
      * rewrite (setLayerOpacity_present _ _ _ layer Hlayer).
        unfold updateLayerOpacity.
        now destruct (getLayerRegistry _ !! layerId).
      * unfold setLayerOpacity. now rewrite Hlayer.
    + unfold bringLayerToFront.
      now destruct (JS.truthy (getLayer (engine (map w)) layerId)).
    + unfold sendLayerToBack.
      destruct (JS.truthy (getLayer (engine (map w)) layerId)); [|reflexivity].
      cbv zeta. destruct (findIndex _ _) as [[|i]|]; try reflexivity.
      destruct (_ !! S i); [|reflexivity]. now destruct (negb _).
    + unfold fitToLayer.
      destruct (getLayerInfoById (map w) layerId) as [info|]; [|reflexivity].
      now destruct (options_bounds (LayerInfo.options info)).
Qed.

End BasemapActivation.

Lemma basemap_activation_witness :
  In "CartoDB.Positron" getBasemapNames
  /\ getBasemap (fst (addBasemap false positron_map "CartoDB.Positron"))
     = Some "CartoDB.Positron".
Proof.
  assert (Hin : In "CartoDB.Positron" getBasemapNames).
  { apply Array_includes_In. vm_compute. reflexivity. }
  split; [exact Hin|].
  exact (proj1 (proj2 (proj2 (basemap_activation false positron_map
                                "CartoDB.Positron")) Hin)).
Defined.

Lemma basemap_and_layers_apart_witness :
  is_basemap_operation (SetBasemap true "Esri.WorldImagery") = true
  /\ getLayerRegistry
       (map (perform one_layer_world (SetBasemap true "Esri.WorldImagery")))
     = getLayerRegistry (map one_layer_world).
Proof.
  split; [reflexivity|].
  exact (proj1 (proj1 (basemap_and_layers_apart one_layer_world
                         (SetBasemap true "Esri.WorldImagery")) eq_refl)).
Defined.

(** One tile URL per subdomain letter, a single one without subdomains. *)
Lemma split_chars_length s : length (JS.split_chars s) = String.length s.
Proof. induction s as [|c s IH]; simpl; congruence. Qed.

(** A pattern that does not occur is not replaced. *)
Lemma replace_absent s pat rep :
  JS.includes s pat = false -> JS.replace s pat rep = s.
Proof.
  induction s as [|c s IH]; simpl.
  - destruct pat; [discriminate | reflexivity].
  - intros Hinc. apply orb_false_iff in Hinc as [Hpre Hrest].
    destruct pat as [|p pat]; [discriminate Hpre|].
    simpl in Hpre. destruct (ascii_dec p c) as [->|Hne].
    + rewrite Hpre. now rewrite IH.
    + now rewrite IH.
Qed.

(** X8.  [buildTileUrls] gives one URL per subdomain letter, and a single URL
    when the definition has no subdomains; a definition without
    subdomains whose template has no density placeholder gives its
    template unchanged, on any display.  For every entry of the catalog
    and either display density, the URLs built keep the [{x}], [{y}],
    [{z}] placeholders and have no [{s}] or [{r}] left. *)
Theorem buildTileUrls_templates (retina : bool) (d : BasemapDefinition) :
  length (buildTileUrls retina d)
  = match subdomains d with
    | Some s => if JS.truthy_string s then String.length s else 1
    | None => 1
    end
  /\ (subdomains d = None -> JS.includes (url d) "{r}" = false ->
      buildTileUrls retina d = [url d])
  /\ (forall name, getBasemapDefinition name = Some d ->
      forallb tile_template_ok (buildTileUrls retina d) = true).
Proof.
  split; [|split].
  - unfold buildTileUrls. destruct (subdomains d) as [s|]; [|reflexivity].
    destruct (JS.truthy_string s); [|reflexivity].
    now rewrite List.length_map, split_chars_length.
  - intros Hsub Hr. unfold buildTileUrls. rewrite Hsub.
    now rewrite replace_absent.
  - intros name Hd.
    assert (Hall : forallb catalog_entry_ok (List.map snd basemaps) = true)
      by (vm_compute; reflexivity).
    rewrite forallb_forall in Hall.
    apply obj_get_Some_In in Hd. apply (in_map snd) in Hd.
    specialize (Hall d Hd). unfold catalog_entry_ok in Hall.
    repeat (apply andb_prop in Hall as [Hall ?]).
    now destruct retina.
Qed.

Lemma buildTileUrls_templates_witness :
  getBasemapDefinition "CartoDB.Positron" <> None
  /\ buildTileUrls true
       (default (mkBasemap "" "" "" 0 None)
                (getBasemapDefinition "CartoDB.Positron"))
     = ["https://a.basemaps.cartocdn.com/light_all/{z}/{x}/{y}@2x.png";
        "https://b.basemaps.cartocdn.com/light_all/{z}/{x}/{y}@2x.png";
        "https://c.basemaps.cartocdn.com/light_all/{z}/{x}/{y}@2x.png";
        "https://d.basemaps.cartocdn.com/light_all/{z}/{x}/{y}@2x.png"]
  /\ length (buildTileUrls true
               (default (mkBasemap "" "" "" 0 None)
                        (getBasemapDefinition "CartoDB.Positron")))
     = 4.
Proof.
  split; [vm_compute; discriminate|]. split; [vm_compute; reflexivity|].
  rewrite (proj1 (buildTileUrls_templates true _)). vm_compute. reflexivity.
Defined.

(* ===================================================================== *)
(** ** Opacity: range of the clamp, layer types without a case *)
(* ===================================================================== *)

Lemma clamp_unit_cases (v : JS.number) :
  (v = JS.NaN /\ clamp v JS.zero JS.one = JS.NaN)
  \/ clamp v JS.zero JS.one = JS.zero
  \/ clamp v JS.zero JS.one = JS.one
  \/ (clamp v JS.zero JS.one = v /\ JS.is_neg_zero v = false
      /\ JS.le JS.zero v = true /\ JS.le v JS.one = true).
Proof.
  destruct v as [s|s| |s m e].
  - right. left. now destruct s.
  - right. destruct s; [left | right; left]; reflexivity.
  - left. split; reflexivity.
  - right. destruct s; [left; reflexivity|].
    unfold clamp, JS.Math_max, JS.Math_min, JS.le, SFleb, JS.zero, JS.one,
      SFcompare, JS.is_neg_zero.
    destruct (e ?= -52)%Z.
    + destruct (Pos.compare_cont Eq m 4503599627370496).
      * right. right. repeat split; reflexivity.
      * right. right. repeat split; reflexivity.
      * right. left. reflexivity.
    + right. right. repeat split; reflexivity.
    + right. left. reflexivity.
Qed.

Lemma clamp_unit_bounds (v : JS.number) :
  is_number v = true ->
  JS.le JS.zero (clamp v JS.zero JS.one) = true
  /\ JS.le (clamp v JS.zero JS.one) JS.one = true.
Proof.
  intros Hnum.
  destruct (clamp_unit_cases v) as [[-> Hc]|[Hc|[Hc|(Hc & Hz & Hlo & Hhi)]]];
    rewrite ?Hc.
  - discriminate Hnum.
  - split; reflexivity.
  - split; reflexivity.
  - split; assumption.
Qed.

(** X9.  [clamp(v, 0, 1)] lies in [0, 1] for every input but NaN, which it
    returns; it never returns negative zero; and clamping a clamped value
    changes nothing. *)
Theorem clamp_unit_range (v : JS.number) :
  (is_number v = true ->
   JS.le JS.zero (clamp v JS.zero JS.one) = true
   /\ JS.le (clamp v JS.zero JS.one) JS.one = true)
  /\ (is_number v = false -> clamp v JS.zero JS.one = JS.NaN)
  /\ JS.is_neg_zero (clamp v JS.zero JS.one) = false
  /\ clamp (clamp v JS.zero JS.one) JS.zero JS.one = clamp v JS.zero JS.one.
Proof.
  split; [apply clamp_unit_bounds|].
  destruct (clamp_unit_cases v) as [[-> Hc]|[Hc|[Hc|(Hc & Hz & Hlo & Hhi)]]];
    rewrite ?Hc.
  - repeat split; reflexivity.
  - repeat split; try reflexivity.
    intros Hnan. destruct v; try discriminate Hnan.
    vm_compute in Hc. discriminate Hc.
  - repeat split; try reflexivity.
    intros Hnan. destruct v; try discriminate Hnan.
    vm_compute in Hc. discriminate Hc.
  - split; [intros Hnan; destruct v; try discriminate Hnan; reflexivity|].
    split; [exact Hz|]. reflexivity.
Qed.

Lemma clamp_unit_range_witness :
  is_number fifteen = true
  /\ JS.le (clamp fifteen JS.zero JS.one) JS.one = true.
Proof.
  split; [reflexivity|].
  exact (proj2 (proj1 (clamp_unit_range fifteen) eq_refl)).
Defined.

Lemma opacity_properties_unsupported layerType :
  opacity_supported layerType = false -> opacity_properties layerType = [].
Proof.
  unfold opacity_supported, opacity_properties. simpl.
  intros Hno.
  repeat (apply orb_false_iff in Hno as [? Hno]).
  repeat match goal with
         | Heq : String.eqb _ _ = false |- _ => rewrite Heq; clear Heq
         end.
  reflexivity.
Qed.

Section OpacityFacts.

Context {E : Type} `{Engine E}.

(** X10.  For a layer whose type is none of fill, line, circle, raster and
    symbol, [setLayerOpacity] sets no paint property, yet it records the
    clamped opacity in the registry record: the record and the rendering
    then differ. *)
Theorem setLayerOpacity_unsupported_type (m : Map E) (layerId : string)
    (opacity : JS.number) (layer : AddLayerObject.t) :
  getLayer (engine m) layerId = Some layer ->
  opacity_supported (AddLayerObject.type layer) = false ->
  engine (setLayerOpacity m layerId opacity) = engine m
  /\ getLayerRegistry (setLayerOpacity m layerId opacity)
     = alter (fun r => LayerInfo.set_opacity r (clamp opacity JS.zero JS.one))
             layerId (getLayerRegistry m).
Proof.
  intros Hlayer Hno.
  rewrite (setLayerOpacity_present m layerId opacity layer Hlayer).
  rewrite (opacity_properties_unsupported _ Hno).
  rewrite engine_updateLayerOpacity, getLayerRegistry_updateLayerOpacity.
  split; reflexivity.
Qed.

(** X11.  The opacity recorded by [setLayerOpacity] is a number of [0, 1]
    whenever the input is a number, even though the record may have held
    any value before. *)
Theorem setLayerOpacity_records_unit (m : Map E) (layerId : string)
    (opacity : JS.number) (layer : AddLayerObject.t) (r : LayerInfo.t) :
  getLayer (engine m) layerId = Some layer ->
  getLayerInfoById (setLayerOpacity m layerId opacity) layerId = Some r ->
  is_number opacity = true ->
  JS.le JS.zero (LayerInfo.opacity r) = true
  /\ JS.le (LayerInfo.opacity r) JS.one = true.
Proof.
  intros Hlayer Hr Hnum. unfold getLayerInfoById in Hr.
  rewrite (setLayerOpacity_present m layerId opacity layer Hlayer) in Hr.
  rewrite getLayerRegistry_updateLayerOpacity, lookup_alter_eq in Hr.
  rewrite getLayerRegistry_on_engine in Hr.
  destruct (getLayerRegistry m !! layerId) as [r0|]; [|discriminate Hr].
  injection Hr as <-. cbn [LayerInfo.opacity LayerInfo.set_opacity].
  exact (clamp_unit_bounds opacity Hnum).
Qed.

End OpacityFacts.

Lemma setLayerOpacity_unsupported_type_witness :
  getLayer (engine heatmap_map) "h" = Some heatmap_layer
  /\ opacity_supported (AddLayerObject.type heatmap_layer) = false
  /\ engine (setLayerOpacity heatmap_map "h" JS.half) = engine heatmap_map
  /\ LayerInfo.opacity <$> getLayerInfoById (setLayerOpacity heatmap_map "h" JS.half) "h"
     = Some JS.half.
Proof.
  assert (Hlayer : getLayer (engine heatmap_map) "h" = Some heatmap_layer)
    by (vm_compute; reflexivity).
  assert (Hno : opacity_supported (AddLayerObject.type heatmap_layer) = false)
    by reflexivity.
  destruct (setLayerOpacity_unsupported_type heatmap_map "h" JS.half
              heatmap_layer Hlayer Hno) as [Hengine Hregistry].
  split; [exact Hlayer|]. split; [exact Hno|]. split; [exact Hengine|].
  unfold getLayerInfoById. rewrite Hregistry. vm_compute. reflexivity.
Defined.

Lemma setLayerOpacity_records_unit_witness :
  getLayer (engine (map one_layer_world)) "a"
  = Some (raster_layer "a" "s" (raster_named "a" "s"))
  /\ JS.le (LayerInfo.opacity
              (LayerInfo.set_opacity (raster_record "a" "s") JS.one)) JS.one
     = true.
Proof.
  assert (Hlayer : getLayer (engine (map one_layer_world)) "a"
                   = Some (raster_layer "a" "s" (raster_named "a" "s")))
    by (vm_compute; reflexivity).
  split; [exact Hlayer|].
  refine (proj2 (setLayerOpacity_records_unit (map one_layer_world) "a" fifteen
                   _ _ Hlayer _ eq_refl)).
  vm_compute. reflexivity.
Defined.

(* ===================================================================== *)
(** ** Reordering, fitting and removal at the edges *)
(* ===================================================================== *)

Lemma findIndex_Some {A} (pred : A -> bool) (xs : list A) i :
  findIndex pred xs = Some i ->
  exists x, xs !! i = Some x /\ pred x = true
            /\ forall j y, j < i -> xs !! j = Some y -> pred y = false.
Proof.
  revert i. induction xs as [|x xs IH]; intros i; simpl; [discriminate|].
  destruct (pred x) eqn:Hx.
  - intros [= <-]. exists x. repeat split; [exact Hx|]. intros j y Hj. lia.
  - destruct (findIndex pred xs) as [i'|]; [|discriminate].
    intros [= <-]. destruct (IH i' eq_refl) as (x' & Hi & Hp & Hbefore).
    exists x'. repeat split; [exact Hi | exact Hp|].
    intros [|j] y Hj Hy.
    + injection Hy as <-. exact Hx.
    + apply (Hbefore j y); [lia | exact Hy].
Qed.

Section EdgeFacts.

Context {E : Type} `{Engine E}.



(** X14.  Removing a layer the registry does not know removes the engine layer
    of that name if there is one and nothing else: no source is removed
    and every registry lookup reads as before.  Removing twice leaves the
    registry as removing once. *)
Theorem removeLayerById_unknown (m : Map E) (layerId : string) :
  (getLayerInfoById m layerId = None ->
   engine (removeLayerById m layerId)
   = (if JS.truthy (getLayer (engine m) layerId)
      then removeLayer (engine m) layerId else engine m)
   /\ getLayerRegistry (removeLayerById m layerId) = getLayerRegistry m)
  /\ getLayerRegistry (removeLayerById (removeLayerById m layerId) layerId)
     = getLayerRegistry (removeLayerById m layerId).
Proof.
  split.
  - intros Hnone. split.
    + unfold removeLayerById. rewrite Hnone.
      now destruct (JS.truthy (getLayer (engine m) layerId)).
    + rewrite removeLayerById_registry. now apply delete_id.
  - rewrite !removeLayerById_registry. apply delete_id, lookup_delete_eq.
Qed.

End EdgeFacts.



Lemma removeLayerById_unknown_witness :
  getLayerInfoById (map one_layer_world) "zz" = None
  /\ getLayerRegistry (removeLayerById (map one_layer_world) "zz")
     = getLayerRegistry (map one_layer_world).
Proof.
  assert (Hnone : getLayerInfoById (map one_layer_world) "zz" = None)
    by (vm_compute; reflexivity).
  split; [exact Hnone|].
  exact (proj2 (proj1 (removeLayerById_unknown (map one_layer_world) "zz") Hnone)).
Defined.

(* ===================================================================== *)
(** ** Identifiers: the caller's or generated, and never twice the same *)
(* ===================================================================== *)

Lemma id_or_generate_usable (given : option string)
    (generate : option string -> Z -> Counters -> string * Counters)
    (prefix : string) (now : Z) (c : Counters) :
  id_or_generate given generate prefix now c
  = if usable_id given then (default EmptyString given, c)
    else generate (Some prefix) now c.
Proof.
  destruct given as [s|]; [|reflexivity]. unfold id_or_generate, usable_id.
  now destruct (JS.truthy_string s).
Qed.

Section CreationIdentifiers.

Context {E : Type} `{Engine E}.

Lemma creation_threads_ids (w : World E) (op : Operation) clock
    (given_source given_layer : option string) :
  creation_request op = Some (clock, given_source, given_layer) ->
  let source :=
    id_or_generate given_source generateSourceId (kind_tag op)
      (source_now clock) (ids w) in
  let layer :=
    id_or_generate given_layer generateLayerId (kind_tag op)
      (layer_now clock) (snd source) in
  ids (perform w op) = snd layer
  /\ created w op = if fetch_fails op then None else Some (fst layer).
Proof.
  destruct op as [retina bname|retina bname|clock' data options
                 |clock' url options|clock' url options|clock' url options
                 |clock' baseUrl options|layerId|layerId visible
                 |layerId opacity|layerId|layerId|layerId options];
    try discriminate; intros [= <- <- <-]; cbv zeta;
    cbn [perform created kind_tag fetch_fails ids].
  - unfold addGeojson.
    destruct (id_or_generate _ generateSourceId _ _ _) as [sourceId ids1].
    destruct (id_or_generate _ generateLayerId _ _ _) as [layerId ids2].
    cbn [fst snd].
    destruct data as [d|u [d|e]]; split; reflexivity.
  - unfold addVector.
    destruct (id_or_generate _ generateSourceId _ _ _) as [sourceId ids1].
    destruct (id_or_generate _ generateLayerId _ _ _) as [layerId ids2].
    split; reflexivity.
  - unfold addRaster.
    destruct (id_or_generate _ generateSourceId _ _ _) as [sourceId ids1].
    destruct (id_or_generate _ generateLayerId _ _ _) as [layerId ids2].
    split; reflexivity.
  - unfold addCogLayer.
    destruct (id_or_generate _ generateSourceId _ _ _) as [sourceId ids1].
    destruct (id_or_generate _ generateLayerId _ _ _) as [layerId ids2].
    split; reflexivity.
  - unfold addWmsLayer.
    destruct (id_or_generate _ generateSourceId _ _ _) as [sourceId ids1].
    destruct (id_or_generate _ generateLayerId _ _ _) as [layerId ids2].
    split; reflexivity.
Qed.

(** X15.  The identifiers of a creation call, for each of the five creation
    functions: a layer identifier given by the caller and not empty is
    the one returned; a missing or empty one is replaced by a generated
    identifier carrying the prefix of the kind and the next layer number.
    Each counter advances by one exactly when its identifier had to be
    generated, also when the fetch of a GeoJSON URL then fails. *)
Theorem creation_identifiers (w : World E) (op : Operation) (clock : Clock)
    (given_source given_layer : option string) :
  creation_request op = Some (clock, given_source, given_layer) ->
  (forall id, given_layer = Some id -> id <> EmptyString ->
              created w op = if fetch_fails op then None else Some id)
  /\ (usable_id given_layer = false ->
      created w op
      = if fetch_fails op then None
        else Some (render_id (kind_tag op) (layerCounter (ids w) + 1)
                     (JS.toString36 (layer_now clock))))
  /\ layerCounter (ids (perform w op))
     = (layerCounter (ids w) + if usable_id given_layer then 0 else 1)%N
  /\ sourceCounter (ids (perform w op))
     = (sourceCounter (ids w) + if usable_id given_source then 0 else 1)%N.
Proof.
  intros Hreq.
  destruct (creation_threads_ids w op clock given_source given_layer Hreq)
    as [Hids Hcreated].
  cbv zeta in Hids, Hcreated. rewrite Hids, Hcreated.
  rewrite !id_or_generate_usable.
  split; [|split; [|split]].
  - intros id -> Hid. unfold usable_id.
    destruct id; [congruence | reflexivity].
  - intros Hno. rewrite Hno.
    destruct (usable_id given_source); reflexivity.
  - destruct (usable_id given_layer), (usable_id given_source);
      cbn [snd layerCounter generateLayerId generateSourceId];
      now rewrite ?N.add_0_r.
  - destruct (usable_id given_layer), (usable_id given_source);
      cbn [snd sourceCounter generateLayerId generateSourceId];
      now rewrite ?N.add_0_r.
Qed.

End CreationIdentifiers.

Lemma creation_identifiers_witness :
  creation_request (AddRaster noon tiles_url (raster_named "a" "s"))
  = Some (noon, Some "s", Some "a")
  /\ created fresh_world (AddRaster noon tiles_url (raster_named "a" "s"))
     = (if fetch_fails (AddRaster noon tiles_url (raster_named "a" "s"))
        then None else Some "a").
Proof.
  split; [reflexivity|].
  refine (proj1 (creation_identifiers fresh_world
                   (AddRaster noon tiles_url (raster_named "a" "s"))
                   noon (Some "s") (Some "a") eq_refl) "a" eq_refl _).
  discriminate.
Defined.

Lemma split_last_dash_free s : dash_free s = true -> split_last s = None.
Proof.
  induction s as [|c s IH]; simpl; [reflexivity|].
  intros Hs. apply andb_prop in Hs as [Hc Hs].
  rewrite (IH Hs). apply negb_true_iff in Hc. now rewrite Hc.
Qed.

Lemma split_last_cons c s :
  split_last (String c s)
  = match split_last s with
    | Some (a, b) => Some (String c a, b)
    | None => if Ascii.eqb c "-" then Some ("", s) else None
    end.
Proof. reflexivity. Qed.

Lemma split_last_app a b :
  dash_free b = true -> split_last (a +:+ "-" +:+ b) = Some (a, b).
Proof.
  intros Hb. induction a as [|c a IH].
  - change ("" +:+ "-" +:+ b) with (String "-" b).
    rewrite split_last_cons, (split_last_dash_free b Hb). reflexivity.
  - change (String c a +:+ "-" +:+ b) with (String c (a +:+ "-" +:+ b)).
    rewrite split_last_cons, IH. reflexivity.
Qed.

Lemma append_assoc (a b c : string) : (a +:+ b) +:+ c = a +:+ (b +:+ c).
Proof.
  induction a as [|x a IH]; [reflexivity|].
  change (String x ((a +:+ b) +:+ c) = String x (a +:+ b +:+ c)).
  now rewrite IH.
Qed.

Lemma dash_free_uint d : dash_free (NilEmpty.string_of_uint d) = true.
Proof. induction d; simpl; auto. Qed.

Lemma String_of_N_inj n1 n2 :
  JS.String_of_N n1 = JS.String_of_N n2 -> n1 = n2.
Proof.
  unfold JS.String_of_N. intros Heq.
  apply (f_equal NilEmpty.uint_of_string) in Heq.
  rewrite !NilEmpty.usu in Heq. injection Heq as Heq.
  apply (f_equal N.of_uint) in Heq.
  now rewrite !DecimalN.Unsigned.of_to in Heq.
Qed.

Lemma digit36_not_dash d : (d < 36)%N -> Ascii.eqb (JS.digit36 d) "-" = false.
Proof.
  intros Hd. apply Ascii.eqb_neq. intros Heq.
  apply (f_equal N_of_ascii) in Heq. unfold JS.digit36 in Heq.
  destruct (d <? 10)%N eqn:Hlt.
  - rewrite N_ascii_embedding in Heq by lia. simpl in Heq. lia.
  - rewrite N_ascii_embedding in Heq by lia. simpl in Heq. lia.
Qed.

Lemma dash_free_radix36_aux fuel n acc :
  dash_free acc = true -> dash_free (JS.radix36_aux fuel n acc) = true.
Proof.
  revert n acc. induction fuel as [|fuel IH]; intros n acc Hacc; simpl;
    [exact Hacc|].
  assert (Hnext : dash_free (String (JS.digit36 (n mod 36)) acc) = true).
  { simpl. rewrite digit36_not_dash; [exact Hacc|].
    apply N.mod_lt. discriminate. }
  destruct (n / 36 =? 0)%N; [exact Hnext | now apply IH].
Qed.

Lemma dash_free_toString36 z :
  (0 <= z)%Z -> dash_free (JS.toString36 z) = true.
Proof.
  destruct z as [|p|p]; intros Hz; [reflexivity| |lia].
  unfold JS.toString36, JS.radix36. now apply dash_free_radix36_aux.
Qed.

(** Two identifiers with dash-free suffixes are equal only if their
    counter values are. *)
Lemma render_id_inj p1 n1 s1 p2 n2 s2 :
  dash_free s1 = true -> dash_free s2 = true ->
  render_id p1 n1 s1 = render_id p2 n2 s2 -> n1 = n2.
Proof.
  intros H1 H2 Heq. unfold render_id in Heq.
  assert (Hform : forall p n s,
             "mgl-extend-" +:+ p +:+ "-" +:+ JS.String_of_N n +:+ "-" +:+ s
             = (("mgl-extend-" +:+ p) +:+ "-" +:+ JS.String_of_N n)
               +:+ "-" +:+ s).
  { intros p n s. now rewrite !append_assoc. }
  rewrite (Hform p1), (Hform p2) in Heq.
  apply (f_equal split_last) in Heq.
  rewrite !split_last_app in Heq by assumption.
  injection Heq as Heq _.
  apply (f_equal split_last) in Heq.
  rewrite !split_last_app in Heq by apply dash_free_uint.
  injection Heq as _ Heq. now apply String_of_N_inj.
Qed.

Lemma id_run_above calls :
  forallb (fun call => negb (is_reset call)) calls = true ->
  forall c,
    List.Forall
      (fun g => match gen_kind g with
                | LayerId => (layerCounter c < gen_n g)%N
                | SourceId => (sourceCounter c < gen_n g)%N
                end)
      (snd (id_run c calls)).
Proof.
  induction calls as [|call calls IH]; intros Hepoch c; [constructor|].
  simpl in Hepoch. apply andb_prop in Hepoch as [Hcall Hepoch].
  specialize (IH Hepoch).
  destruct call as [prefix now|prefix now|]; [| |discriminate Hcall]; simpl.
  - specialize (IH {| layerCounter := layerCounter c + 1;
                      sourceCounter := sourceCounter c |}).
    destruct (id_run _ calls) as [c2 gs]. simpl in *.
    constructor; [simpl; lia|].
    eapply List.Forall_impl; [|exact IH].
    intros g. simpl. destruct (gen_kind g); lia.
  - specialize (IH {| layerCounter := layerCounter c;
                      sourceCounter := sourceCounter c + 1 |}).
    destruct (id_run _ calls) as [c2 gs]. simpl in *.
    constructor; [simpl; lia|].
    eapply List.Forall_impl; [|exact IH].
    intros g. simpl. destruct (gen_kind g); lia.
Qed.

Lemma id_run_suffix calls :
  forallb clock_nonneg calls = true ->
  forall c,
    List.Forall
      (fun g => gen_id g = render_id (gen_prefix g) (gen_n g) (gen_suffix g)
                /\ dash_free (gen_suffix g) = true)
      (snd (id_run c calls)).
Proof.
  induction calls as [|call calls IH]; intros Hclock c; [constructor|].
  simpl in Hclock. apply andb_prop in Hclock as [Hcall Hclock].
  specialize (IH Hclock).
  destruct call as [prefix now|prefix now|]; simpl.
  - specialize (IH {| layerCounter := layerCounter c + 1;
                      sourceCounter := sourceCounter c |}).
    destruct (id_run _ calls) as [c2 gs]. simpl in *.
    constructor; [|exact IH]. simpl. split; [reflexivity|].
    apply dash_free_toString36. now apply Z.leb_le.
  - specialize (IH {| layerCounter := layerCounter c;
                      sourceCounter := sourceCounter c + 1 |}).
    destruct (id_run _ calls) as [c2 gs]. simpl in *.
    constructor; [|exact IH]. simpl. split; [reflexivity|].
    apply dash_free_toString36. now apply Z.leb_le.
  - specialize (IH (resetCounters c)).
    destruct (id_run _ calls) as [c2 gs]. exact IH.
Qed.

(** X16.  Between two resets, and with a clock that reads no time before the
    epoch, the generator never returns the same layer identifier twice,
    nor the same source identifier twice, whatever the prefixes and even
    if the clock stands still: any two identifiers of one kind differ. *)
Theorem generated_ids_distinct (c : Counters) (calls : list IdCall) :
  forallb (fun call => negb (is_reset call)) calls = true ->
  forallb clock_nonneg calls = true ->
  StronglySorted
    (fun g1 g2 => gen_kind g1 = gen_kind g2 -> gen_id g1 <> gen_id g2)
    (snd (id_run c calls)).
Proof.
  intros Hepoch Hclock. revert c.
  induction calls as [|call calls IH]; intros c; [constructor|].
  pose proof (id_run_suffix (call :: calls) Hclock c) as Hsuffix.
  simpl in Hepoch, Hclock.
  apply andb_prop in Hepoch as [Hcall Hepoch].
  apply andb_prop in Hclock as [Hnow Hclock].
  specialize (IH Hepoch Hclock).
  destruct call as [prefix now|prefix now|]; [| |discriminate Hcall];
    simpl in *.
  - pose proof (id_run_above calls Hepoch
                  {| layerCounter := layerCounter c + 1;
                     sourceCounter := sourceCounter c |}) as Habove.
    specialize (IH {| layerCounter := layerCounter c + 1;
                      sourceCounter := sourceCounter c |}).
    destruct (id_run _ calls) as [c2 gs]. simpl in *.
    constructor; [exact IH|].
    apply List.Forall_forall. intros g Hg Hkind Hid. simpl in *.
    rewrite List.Forall_forall in Habove.
    specialize (Habove g Hg). rewrite <- Hkind in Habove. simpl in Habove.
    apply List.Forall_inv_tail in Hsuffix.
    rewrite List.Forall_forall in Hsuffix.
    destruct (Hsuffix g Hg) as [Hformat Hfree]. rewrite Hformat in Hid.
    apply render_id_inj in Hid;
      [lia | apply dash_free_toString36; now apply Z.leb_le | exact Hfree].
  - pose proof (id_run_above calls Hepoch
                  {| layerCounter := layerCounter c;
                     sourceCounter := sourceCounter c + 1 |}) as Habove.
    specialize (IH {| layerCounter := layerCounter c;
                      sourceCounter := sourceCounter c + 1 |}).
    destruct (id_run _ calls) as [c2 gs]. simpl in *.
    constructor; [exact IH|].
    apply List.Forall_forall. intros g Hg Hkind Hid. simpl in *.
    rewrite List.Forall_forall in Habove.
    specialize (Habove g Hg). rewrite <- Hkind in Habove. simpl in Habove.
    apply List.Forall_inv_tail in Hsuffix.
    rewrite List.Forall_forall in Hsuffix.
    destruct (Hsuffix g Hg) as [Hformat Hfree]. rewrite Hformat in Hid.
    apply render_id_inj in Hid;
      [lia | apply dash_free_toString36; now apply Z.leb_le | exact Hfree].
Qed.

Lemma generated_ids_distinct_witness :
  StronglySorted
    (fun g1 g2 => gen_kind g1 = gen_kind g2 -> gen_id g1 <> gen_id g2)
    (snd (id_run initial_counters
            [CallLayerId (Some "a-1") 35; CallLayerId (Some "a") 35;
             CallSourceId (Some "a") 35])).
Proof.
  exact (generated_ids_distinct initial_counters
           [CallLayerId (Some "a-1") 35; CallLayerId (Some "a") 35;
            CallSourceId (Some "a") 35] eq_refl eq_refl).
Defined.

(* ===================================================================== *)
(** ** Creation: what is returned, what is registered, what is painted *)
(* ===================================================================== *)

Section CreationFacts.

Context {E : Type} `{Engine E}.

Lemma created_created_record (w : World E) (op : Operation) :
  created w op = LayerInfo.layerId <$> created_record w op.
Proof.
  destruct op as [retina bname|retina bname|clock data options
                 |clock url options|clock url options|clock url options
                 |clock baseUrl options|layerId|layerId visible
                 |layerId opacity|layerId|layerId|layerId options];
    try reflexivity; unfold created, created_record.
  - unfold addGeojson.
    destruct (id_or_generate _ generateSourceId _ _ _) as [sourceId ids1].
    destruct (id_or_generate _ generateLayerId _ _ _) as [layerId ids2].
    cbn [fst snd]. destruct data as [d|u [d|e]]; reflexivity.
  - unfold addVector.
    destruct (id_or_generate _ generateSourceId _ _ _) as [sourceId ids1].
    destruct (id_or_generate _ generateLayerId _ _ _) as [layerId ids2].
    reflexivity.
  - unfold addRaster.
    destruct (id_or_generate _ generateSourceId _ _ _) as [sourceId ids1].
    destruct (id_or_generate _ generateLayerId _ _ _) as [layerId ids2].
    reflexivity.
  - unfold addCogLayer.
    destruct (id_or_generate _ generateSourceId _ _ _) as [sourceId ids1].
    destruct (id_or_generate _ generateLayerId _ _ _) as [layerId ids2].
    reflexivity.
  - unfold addWmsLayer.
    destruct (id_or_generate _ generateSourceId _ _ _) as [sourceId ids1].
    destruct (id_or_generate _ generateLayerId _ _ _) as [layerId ids2].
    reflexivity.
Qed.

Lemma created_record_tag (w : World E) (op : Operation) r :
  created_record w op = Some r -> LayerInfo.type r = kind_tag op.
Proof.
  destruct op as [retina bname|retina bname|clock data options
                 |clock url options|clock url options|clock url options
                 |clock baseUrl options|layerId|layerId visible
                 |layerId opacity|layerId|layerId|layerId options];
    try discriminate; unfold created_record;
    destruct (id_or_generate _ generateSourceId _ _ _) as [sourceId ids1];
    destruct (id_or_generate _ generateLayerId _ _ _) as [layerId ids2];
    cbn [fst snd]; try (intros [= <-]; reflexivity).
  destruct data as [d|u [d|e]]; try discriminate; intros [= <-]; reflexivity.
Qed.

(** X17.  The identifier a creation call returns is the one it registered: right
    after the call, the registry holds under that identifier a visible
    record bearing the same [layerId] and the kind tag of the operation
    (geojson, vector, raster, cog or wms). *)
Theorem creation_returns_registered (w : World E) (op : Operation)
    (layerId : string) :
  created w op = Some layerId ->
  exists r,
    getLayerInfoById (map (perform w op)) layerId = Some r
    /\ LayerInfo.layerId r = layerId
    /\ LayerInfo.type r = kind_tag op
    /\ LayerInfo.visible r = true.
Proof.
  rewrite created_created_record.
  destruct (created_record w op) as [r|] eqn:Hr; [|discriminate].
  intros [= <-]. exists r.
  unfold getLayerInfoById. rewrite perform_registry.
  assert (Hafter : registry_after w op
                   = <[LayerInfo.layerId r := r]> (getLayerRegistry (map w))).
  { unfold registry_after. rewrite Hr.
    destruct op; try reflexivity; discriminate Hr. }
  rewrite Hafter, lookup_insert_eq.
  split; [reflexivity|]. split; [reflexivity|].
  split; [exact (created_record_tag w op r Hr)|].
  destruct (created_record_layerId w op r Hr) as (s & t & o & ->). reflexivity.
Qed.

(** X18.  When the fetch of a GeoJSON URL fails, the error reaches the caller
    and the map is left as it was: no source, no layer, no record.  The
    identifiers were drawn before the fetch, so the counters have moved
    when none was given. *)
Theorem addGeojson_fetch_failure (m : Map E) (ids : Counters) (clock : Clock)
    (url : string) (e : exn) (options : AddGeojsonOptions.t) :
  let result := addGeojson m ids clock (FromUrl url (Throw e)) options in
  snd result = Throw e
  /\ fst (fst result) = m
  /\ snd (fst result)
     = snd (id_or_generate (AddGeojsonOptions.layerId options) generateLayerId
              "geojson" (layer_now clock)
              (snd (id_or_generate (AddGeojsonOptions.sourceId options)
                      generateSourceId "geojson" (source_now clock) ids))).
Proof.
  unfold addGeojson.
  destruct (id_or_generate _ generateSourceId _ _ _) as [sourceId ids1].
  cbn [snd].
  destruct (id_or_generate _ generateLayerId _ _ _) as [layerId ids2].
  repeat split.
Qed.

(** X19.  The paint of a GeoJSON layer: a property named in [options.paint]
    takes the caller's value, any other keeps the value computed from the
    individual options.  The computed fill opacity is [fillOpacity], else
    [opacity], else one half, a given zero being kept; line and circle
    layers use [opacity], else one.  An explicit [type] decides the kind
    of the layer whatever the data. *)
Theorem geojson_paint_precedence (layerId sourceId : string)
    (data : GeoJSON) (options : AddGeojsonOptions.t) (custom : JS.obj value) :
  AddGeojsonOptions.paint options = Some custom ->
  List.NoDup (List.map fst custom) ->
  (forall kind k,
      JS.obj_get (AddLayerObject.paint
                    (geojson_layer layerId sourceId kind options)) k
      = match JS.obj_get custom k with
        | Some v => Some v
        | None =>
            JS.obj_get
              (AddLayerObject.paint
                 (geojson_layer layerId sourceId kind
                    (computed_paint_only options))) k
        end)
  /\ (JS.obj_get custom "fill-opacity" = None ->
      JS.obj_get (AddLayerObject.paint
                    (geojson_layer layerId sourceId fill options)) "fill-opacity"
      = Some (VNum match AddGeojsonOptions.fillOpacity options with
                   | Some given => given
                   | None => match AddGeojsonOptions.opacity options with
                             | Some given => given
                             | None => JS.half
                             end
                   end))
  /\ (forall kind, AddGeojsonOptions.type options = Some kind ->
      geojson_layerType data options = kind).
Proof.
  intros Hpaint Hnd.
  assert (Hget : forall kind k,
             JS.obj_get (geojson_paint kind options) k
             = match JS.obj_get custom k with
               | Some v => Some v
               | None =>
                   JS.obj_get
                     (geojson_paint kind
                        (computed_paint_only options)) k
               end).
  { intros kind k. unfold geojson_paint at 1. rewrite Hpaint.
    rewrite obj_get_spread by exact Hnd. reflexivity. }
  split; [exact Hget|]. split.
  - intros Hnone.
    change (JS.obj_get (geojson_paint fill options) "fill-opacity" = Some
              (VNum match AddGeojsonOptions.fillOpacity options with
                    | Some given => given
                    | None => match AddGeojsonOptions.opacity options with
                              | Some given => given
                              | None => JS.half
                              end
                    end)).
    rewrite Hget, Hnone. unfold geojson_paint.
    unfold computed_paint_only.
    cbn [AddGeojsonOptions.paint AddGeojsonOptions.fillColor
         AddGeojsonOptions.fillOpacity AddGeojsonOptions.opacity
         AddGeojsonOptions.lineColor].
    destruct (AddGeojsonOptions.lineColor options) as [c|]; [|reflexivity].
    destruct (JS.truthy_string c); reflexivity.
  - intros kind Htype. unfold geojson_layerType. now rewrite Htype.
Qed.

(** X20.  A GeoJSON fill layer added without [opacity], [fillOpacity] and
    custom paint is painted at one half, while its registry record says
    opacity one: for that layer the record does not mirror the paint. *)
Theorem geojson_fill_record_differs (w : World E) (clock : Clock)
    (data : GeojsonData) (options : AddGeojsonOptions.t) (r : LayerInfo.t) :
  AddGeojsonOptions.opacity options = None ->
  AddGeojsonOptions.fillOpacity options = None ->
  AddGeojsonOptions.paint options = None ->
  created_record w (AddGeojson clock data options) = Some r ->
  JS.obj_get
    (AddLayerObject.paint
       (geojson_layer (LayerInfo.layerId r) (LayerInfo.sourceId r) fill options))
    "fill-opacity" = Some (VNum JS.half)
  /\ getLayerInfoById (map (perform w (AddGeojson clock data options)))
       (LayerInfo.layerId r) = Some r
  /\ LayerInfo.opacity r = JS.one.
Proof.
  intros Hopacity Hfill Hpaint Hr. split; [|split].
  - unfold geojson_layer, geojson_paint. cbn [AddLayerObject.paint].
    rewrite Hpaint, Hfill, Hopacity.
    destruct (AddGeojsonOptions.lineColor options) as [c|]; [|reflexivity].
    destruct (JS.truthy_string c); reflexivity.
  - unfold getLayerInfoById. rewrite perform_registry.
    unfold registry_after. rewrite Hr. apply lookup_insert_eq.
  - destruct (created_record_layerId w _ r Hr) as (s & t & o & Heq).
    revert Hr. unfold created_record.
    destruct (id_or_generate _ generateSourceId _ _ _) as [sourceId ids1].
    destruct (id_or_generate _ generateLayerId _ _ _) as [layerId ids2].
    cbn [fst snd].
    destruct data as [d|u [d|e]]; try discriminate; intros [= <-];
      unfold new_record; cbn [LayerInfo.opacity options_opacity];
      now rewrite Hopacity.
Qed.

End CreationFacts.

Lemma creation_returns_registered_witness :
  created fresh_world (AddRaster noon tiles_url (raster_named "a" "s")) = Some "a"
  /\ exists r,
       getLayerInfoById (map one_layer_world) "a" = Some r
       /\ LayerInfo.layerId r = "a"
       /\ LayerInfo.type r
          = kind_tag (AddRaster noon tiles_url (raster_named "a" "s"))
       /\ LayerInfo.visible r = true.
Proof.
  assert (Hcreated : created fresh_world
                       (AddRaster noon tiles_url (raster_named "a" "s"))
                     = Some "a") by reflexivity.
  split; [exact Hcreated|].
  exact (creation_returns_registered fresh_world
           (AddRaster noon tiles_url (raster_named "a" "s")) "a" Hcreated).
Defined.

Lemma geojson_paint_precedence_witness :
  AddGeojsonOptions.paint red_fill_options
  = Some [("fill-color", VStr "#ff0000")]
  /\ JS.obj_get
       (AddLayerObject.paint (geojson_layer "l" "s" fill red_fill_options))
       "fill-opacity"
     = Some (VNum match AddGeojsonOptions.fillOpacity red_fill_options with
                  | Some given => given
                  | None => match AddGeojsonOptions.opacity red_fill_options with
                            | Some given => given
                            | None => JS.half
                            end
                  end).
Proof.
  split; [reflexivity|].
  refine (proj1 (proj2 (geojson_paint_precedence "l" "s" polygon_feature
                          red_fill_options _ eq_refl _)) eq_refl).
  simpl. constructor; [intros []|constructor].
Defined.

Lemma geojson_fill_record_differs_witness :
  created_record fresh_world
    (AddGeojson noon (Inline polygon_feature) AddGeojsonOptions.empty)
  = Some (new_record "mgl-extend-geojson-1-m2r1bz7l"
            "mgl-extend-geojson-1-m2r1bz7k" "geojson"
            (GeojsonOptions AddGeojsonOptions.empty))
  /\ LayerInfo.opacity
       (new_record "mgl-extend-geojson-1-m2r1bz7l"
          "mgl-extend-geojson-1-m2r1bz7k" "geojson"
          (GeojsonOptions AddGeojsonOptions.empty)) = JS.one.
Proof.
  assert (Hr : created_record fresh_world
                 (AddGeojson noon (Inline polygon_feature)
                    AddGeojsonOptions.empty)
               = Some (new_record "mgl-extend-geojson-1-m2r1bz7l"
                         "mgl-extend-geojson-1-m2r1bz7k" "geojson"
                         (GeojsonOptions AddGeojsonOptions.empty)))
    by (vm_compute; reflexivity).
  split; [exact Hr|].
  exact (proj2 (proj2 (geojson_fill_record_differs fresh_world noon
                         (Inline polygon_feature) AddGeojsonOptions.empty _
                         eq_refl eq_refl eq_refl Hr))).
Defined.

(* ===================================================================== *)
(** ** URLs built for WMS and COG layers *)
(* ===================================================================== *)

Lemma query_safe_not_separator c :
  query_safe c = true -> negb (query_separator c) = true.
Proof.
  destruct c as [[] [] [] [] [] [] [] []]; vm_compute; intros Hs;
    first [reflexivity | discriminate Hs].
Qed.

Lemma all_query_safe_separator_free s :
  all_query_safe s = true -> separator_free s = true.
Proof.
  unfold all_query_safe, separator_free.
  rewrite !forallb_forall. intros Hall c Hc.
  apply query_safe_not_separator, Hall, Hc.
Qed.

Lemma all_query_safe_append a b :
  all_query_safe (a +:+ b) = all_query_safe a && all_query_safe b.
Proof.
  unfold all_query_safe. induction a as [|c a IH]; [reflexivity|].
  change (String c a +:+ b) with (String c (a +:+ b)).
  cbn [list_ascii_of_string forallb]. now rewrite IH, andb_assoc.
Qed.

Lemma hex_digit_safe d : (d < 16)%N -> query_safe (JS.hex_digit d) = true.
Proof.
  intros Hd.
  assert (Hcases : In d (List.map N.of_nat (List.seq 0 16))).
  { apply List.in_map_iff. exists (N.to_nat d). split; [lia|].
    apply List.in_seq. lia. }
  simpl in Hcases.
  repeat (destruct Hcases as [<-|Hcases]; [vm_compute; reflexivity|]).
  contradiction.
Qed.

Lemma percent_byte_safe c : all_query_safe (JS.percent_byte c) = true.
Proof.
  unfold JS.percent_byte, all_query_safe.
  cbn [list_ascii_of_string forallb].
  assert (Hn : (N_of_ascii c < 256)%N) by apply N_ascii_bounded.
  rewrite !hex_digit_safe.
  - reflexivity.
  - apply N.mod_lt. discriminate.
  - apply N.Div0.div_lt_upper_bound. exact Hn.
Qed.

Lemma form_urlencode_safe s : all_query_safe (JS.form_urlencode s) = true.
Proof.
  induction s as [|c s IH]; [reflexivity|].
  cbn [JS.form_urlencode]. rewrite all_query_safe_append, IH, andb_true_r.
  destruct (Ascii.eqb c " "); [reflexivity|].
  destruct (JS.is_alnum c || JS.ascii_in c "*-._") eqn:Hkeep;
    [|apply percent_byte_safe].
  unfold all_query_safe. cbn [list_ascii_of_string forallb].
  rewrite andb_true_r. unfold query_safe.
  apply orb_true_iff in Hkeep as [Ha|Hm]; [now rewrite Ha|].
  apply orb_true_iff. right.
  unfold JS.ascii_in in *. simpl in *.
  repeat (apply orb_true_iff in Hm as [Hm|Hm]; [rewrite Hm; now rewrite ?orb_true_r|]).
  discriminate Hm.
Qed.

Lemma encodeURIComponent_safe s :
  all_query_safe (JS.encodeURIComponent s) = true.
Proof.
  induction s as [|c s IH]; [reflexivity|].
  cbn [JS.encodeURIComponent]. rewrite all_query_safe_append, IH, andb_true_r.
  destruct (JS.is_alnum c || JS.ascii_in c "-_.!~*'()") eqn:Hkeep;
    [|apply percent_byte_safe].
  unfold all_query_safe. cbn [list_ascii_of_string forallb].
  rewrite andb_true_r. unfold query_safe.
  apply orb_true_iff in Hkeep as [Ha|Hm]; [now rewrite Ha|].
  apply orb_true_iff. right.
  unfold JS.ascii_in in *. simpl in *.
  repeat (apply orb_true_iff in Hm as [Hm|Hm]; [rewrite Hm; now rewrite ?orb_true_r|]).
  discriminate Hm.
Qed.

(** X21.  Every item of the WMS query string is [name=value] where neither side
    holds a query separator ([&], [=], [?], [#], [/]) or a brace: whatever
    the caller puts in [layers], in the dedicated options or in [params]
    stays inside its own parameter, and the only tile placeholders of the
    URL are those of the base URL. *)
Theorem wms_query_items_safe (baseUrl : string) (options : AddWmsOptions.t)
    (item : string) :
  In item (JS.query_items (wms_params options)) ->
  (exists k v,
      In (k, v) (JS.entries (wms_params options))
      /\ item = JS.form_urlencode k +:+ "=" +:+ JS.form_urlencode v
      /\ separator_free (JS.form_urlencode k) = true
      /\ separator_free (JS.form_urlencode v) = true)
  /\ wmsUrl baseUrl options
     = baseUrl +:+ "?" +:+ JS.join "&" (JS.query_items (wms_params options)).
Proof.
  intros Hin. split; [|reflexivity].
  unfold JS.query_items in Hin. apply List.in_map_iff in Hin as ([k v] & <- & Hkv).
  exists k, v. split; [exact Hkv|]. split; [reflexivity|].
  split; apply all_query_safe_separator_free, form_urlencode_safe.
Qed.

(** X22.  With a tile server, the tile URL of a COG layer is the server's tile
    route followed by the file URL as the [url] parameter, encoded so
    that it holds no query separator and no brace; without a tile server
    (absent or empty) the file URL itself is the tile URL, unchecked. *)
Theorem cog_tileUrl_encoded (url : string) (options : AddCogOptions.t) :
  (forall server,
      AddCogOptions.tileServerUrl options = Some server -> server <> "" ->
      cog_tileUrl url options
      = server +:+ "/cog/tiles/{z}/{x}/{y}?url=" +:+ JS.encodeURIComponent url
      /\ separator_free (JS.encodeURIComponent url) = true)
  /\ (AddCogOptions.tileServerUrl options = None
      \/ AddCogOptions.tileServerUrl options = Some "" ->
      cog_tileUrl url options = url).
Proof.
  unfold cog_tileUrl. split.
  - intros server -> Hserver. destruct server; [congruence|].
    split; [reflexivity|].
    apply all_query_safe_separator_free, encodeURIComponent_safe.
  - intros [-> | ->]; reflexivity.
Qed.

Lemma wms_query_items_safe_witness :
  In "layers=layer1%2Clayer2" (JS.query_items (wms_params wms_test_options))
  /\ wmsUrl "https://example.com/wms" wms_test_options
     = "https://example.com/wms" +:+ "?"
       +:+ JS.join "&" (JS.query_items (wms_params wms_test_options)).
Proof.
  assert (Hin : In "layers=layer1%2Clayer2"
                  (JS.query_items (wms_params wms_test_options))).
  { vm_compute. tauto. }
  split; [exact Hin|].
  exact (proj2 (wms_query_items_safe "https://example.com/wms"
                  wms_test_options _ Hin)).
Defined.

Lemma cog_tileUrl_encoded_witness :
  cog_tileUrl "https://example.com/raster.tif?a={z}&b=1" titiler_options
  = "https://titiler.example.com" +:+ "/cog/tiles/{z}/{x}/{y}?url="
    +:+ JS.encodeURIComponent "https://example.com/raster.tif?a={z}&b=1".
Proof.
  refine (proj1 (proj1 (cog_tileUrl_encoded _ titiler_options)
                   "https://titiler.example.com" eq_refl _)).
  discriminate.
Defined.

(* ===================================================================== *)
(** ** The bounding box of GeoJSON data *)
(* ===================================================================== *)

Lemma SFcompare_key (a b : JS.number) :
  is_number a = true -> is_number b = true ->
  SFcompare a b = Some (lex_compare (order_key a) (order_key b)).
Proof.
  intros Ha Hb.
  destruct a as [sa|sa| |sa ma ea]; try discriminate Ha;
    destruct b as [sb|sb| |sb mb eb]; try discriminate Hb;
    try destruct sa; try destruct sb; try reflexivity.
  unfold SFcompare, order_key, lex_compare.
    change (-1 ?= -1)%Z with Eq. cbv iota.
    rewrite Z.compare_opp, (Z.compare_antisym ea eb).
    destruct (ea ?= eb)%Z; reflexivity.
Qed.

Lemma lex_compare_refl k : lex_compare k k = Eq.
Proof. destruct k as [[k1 k2] k3]. simpl. now rewrite !Z.compare_refl. Qed.

Lemma lex_compare_antisym a b : lex_compare b a = CompOpp (lex_compare a b).
Proof.
  destruct a as [[a1 a2] a3], b as [[b1 b2] b3]. simpl.
  rewrite (Z.compare_antisym a1 b1), (Z.compare_antisym a2 b2),
    (Z.compare_antisym a3 b3).
  destruct (a1 ?= b1)%Z; try reflexivity.
  destruct (a2 ?= b2)%Z; reflexivity.
Qed.

Lemma lex_le_trans a b c :
  lex_compare a b <> Gt -> lex_compare b c <> Gt -> lex_compare a c <> Gt.
Proof.
  destruct a as [[a1 a2] a3], b as [[b1 b2] b3], c as [[c1 c2] c3]. simpl.
  destruct (Z.compare_spec a1 b1), (Z.compare_spec b1 c1),
    (Z.compare_spec a1 c1); try congruence; try lia;
    destruct (Z.compare_spec a2 b2), (Z.compare_spec b2 c2),
      (Z.compare_spec a2 c2); try congruence; try lia;
    destruct (Z.compare_spec a3 b3), (Z.compare_spec b3 c3),
      (Z.compare_spec a3 c3); try congruence; lia.
Qed.

Lemma le_numbers a b :
  JS.le a b = true -> is_number a = true /\ is_number b = true.
Proof.
  unfold JS.le, SFleb.
  destruct a, b; try discriminate; split; reflexivity.
Qed.

Lemma le_key a b :
  is_number a = true -> is_number b = true ->
  (JS.le a b = true <-> lex_compare (order_key a) (order_key b) <> Gt).
Proof.
  intros Ha Hb. unfold JS.le, SFleb. rewrite (SFcompare_key a b Ha Hb).
  destruct (lex_compare _ _); split; congruence.
Qed.

Lemma le_refl a : is_number a = true -> JS.le a a = true.
Proof.
  intros Ha. apply le_key; [exact Ha | exact Ha|].
  rewrite lex_compare_refl. discriminate.
Qed.

Lemma le_trans a b c : JS.le a b = true -> JS.le b c = true -> JS.le a c = true.
Proof.
  intros Hab Hbc.
  destruct (le_numbers a b Hab) as [Ha Hb].
  destruct (le_numbers b c Hbc) as [_ Hc].
  apply le_key; [exact Ha | exact Hc|].
  apply (lex_le_trans _ (order_key b)); now apply le_key.
Qed.

Lemma Math_min_le a b :
  is_number a = true -> is_number b = true ->
  JS.le (JS.Math_min a b) a = true /\ JS.le (JS.Math_min a b) b = true.
Proof.
  intros Ha Hb. unfold JS.Math_min.
  pose proof (SFcompare_key a b Ha Hb) as Hab.
  pose proof (SFcompare_key b a Hb Ha) as Hba.
  rewrite lex_compare_antisym in Hba.
  destruct (lex_compare (order_key a) (order_key b)) eqn:Hc; rewrite Hab.
  - destruct (JS.is_neg_zero b); split;
      try (now apply le_refl); unfold JS.le, SFleb;
      rewrite ?Hab, ?Hba; reflexivity.
  - split; [now apply le_refl|]. unfold JS.le, SFleb. now rewrite Hab.
  - split; [|now apply le_refl]. unfold JS.le, SFleb. now rewrite Hba.
Qed.

Lemma Math_max_le a b :
  is_number a = true -> is_number b = true ->
  JS.le a (JS.Math_max a b) = true /\ JS.le b (JS.Math_max a b) = true.
Proof.
  intros Ha Hb. unfold JS.Math_max.
  pose proof (SFcompare_key a b Ha Hb) as Hab.
  pose proof (SFcompare_key b a Hb Ha) as Hba.
  rewrite lex_compare_antisym in Hba.
  destruct (lex_compare (order_key a) (order_key b)) eqn:Hc; rewrite Hab.
  - destruct (JS.is_neg_zero a); split;
      try (now apply le_refl); unfold JS.le, SFleb;
      rewrite ?Hab, ?Hba; reflexivity.
  - split; [|now apply le_refl]. unfold JS.le, SFleb. now rewrite Hab.
  - split; [now apply le_refl|]. unfold JS.le, SFleb. now rewrite Hba.
Qed.

Lemma wider_refl box : box_numbers box -> wider box box.
Proof.
  destruct box as [[[w s] e] n]. intros (Hw & Hs & He & Hn).
  repeat split; now apply le_refl.
Qed.

Lemma wider_trans b1 b2 b3 : wider b1 b2 -> wider b2 b3 -> wider b1 b3.
Proof.
  destruct b1 as [[[w1 s1] e1] n1], b2 as [[[w2 s2] e2] n2],
    b3 as [[[w3 s3] e3] n3].
  intros (H1 & H2 & H3 & H4) (H5 & H6 & H7 & H8).
  repeat split; eapply le_trans; eassumption.
Qed.

Lemma inside_wider box box' lng lat :
  inside box lng lat -> wider box box' -> inside box' lng lat.
Proof.
  destruct box as [[[w s] e] n], box' as [[[w' s'] e'] n'].
  intros (H1 & H2 & H3 & H4) (H5 & H6 & H7 & H8).
  repeat split; eapply le_trans; eassumption.
Qed.

Lemma processCoords_wider (acc : Extent) (p : Position) :
  box_numbers acc -> numeric p = true ->
  box_numbers (processCoords acc p) /\ wider acc (processCoords acc p)
  /\ forall lng lat rest, p = lng :: lat :: rest ->
                          inside (processCoords acc p) lng lat.
Proof.
  destruct acc as [[[w s] e] n]. intros (Hw & Hs & He & Hn) Hp.
  destruct p as [|lng [|lat rest]].
  - split; [repeat split; assumption|].
    split; [apply wider_refl; repeat split; assumption | discriminate].
  - split; [repeat split; assumption|].
    split; [apply wider_refl; repeat split; assumption | discriminate].
  - unfold numeric in Hp. cbn [forallb] in Hp.
    apply andb_prop in Hp as [Hlng Hp]. apply andb_prop in Hp as [Hlat _].
    cbn [processCoords].
    destruct (Math_min_le w lng Hw Hlng) as [Hw1 Hw2].
    destruct (Math_min_le s lat Hs Hlat) as [Hs1 Hs2].
    destruct (Math_max_le e lng He Hlng) as [He1 He2].
    destruct (Math_max_le n lat Hn Hlat) as [Hn1 Hn2].
    split; [|split].
    + repeat split;
        [exact (proj1 (le_numbers _ _ Hw1)) | exact (proj1 (le_numbers _ _ Hs1))
        | exact (proj2 (le_numbers _ _ He1)) | exact (proj2 (le_numbers _ _ Hn1))].
    + repeat split; assumption.
    + intros lng' lat' rest' [= <- <- <-]. repeat split; assumption.
Qed.

Lemma fold_processCoords (ps : list Position) (acc : Extent) :
  box_numbers acc -> List.Forall (fun p => numeric p = true) ps ->
  box_numbers (fold_left processCoords ps acc)
  /\ wider acc (fold_left processCoords ps acc)
  /\ forall lng lat rest, In (lng :: lat :: rest) ps ->
                          inside (fold_left processCoords ps acc) lng lat.
Proof.
  revert acc. induction ps as [|p ps IH]; intros acc Hacc Hps.
  - split; [exact Hacc|]. split; [now apply wider_refl | intros ? ? ? []].
  - apply List.Forall_cons_iff in Hps as [Hp Hps]. cbn [fold_left].
    destruct (processCoords_wider acc p Hacc Hp) as (Hn1 & Hw1 & Hin1).
    destruct (IH (processCoords acc p) Hn1 Hps) as (Hn2 & Hw2 & Hin2).
    split; [exact Hn2|]. split; [eapply wider_trans; eassumption|].
    intros lng lat rest [->|Hin].
    + eapply inside_wider; [exact (Hin1 lng lat rest eq_refl) | exact Hw2].
    + exact (Hin2 lng lat rest Hin).
Qed.

Lemma fold_left_concat {A S} (f : S -> A -> S) (xss : list (list A)) (acc : S) :
  fold_left (fun acc xs => fold_left f xs acc) xss acc
  = fold_left f (List.concat xss) acc.
Proof.
  revert acc. induction xss as [|xs xss IH]; intros acc; simpl;
    [reflexivity|].
  now rewrite IH, fold_left_app.
Qed.

Lemma processGeometry_positions :
  forall (g : Geometry) (acc : Extent),
    processGeometry acc g = fold_left processCoords (Geometry_positions g) acc.
Proof.
  fix IH 1. intros g acc. destruct g as [c|cs|cs|css|css|csss|gs].
  - reflexivity.
  - reflexivity.
  - reflexivity.
  - apply (fold_left_concat processCoords).
  - apply (fold_left_concat processCoords).
  - cbn [processGeometry Geometry_positions]. unfold forEach.
    rewrite <- fold_left_concat.
    revert acc. induction csss as [|css csss IHc]; intros acc;
      [reflexivity|].
    cbn [List.map fold_left]. rewrite IHc. f_equal.
    apply (fold_left_concat processCoords).
  - cbn [processGeometry Geometry_positions].
    revert acc. induction gs as [|g gs IHgs]; intros acc; [reflexivity|].
    rewrite fold_left_app, <- IH. apply IHgs.
Qed.

Lemma calculateBbox_fold (data : GeoJSON) :
  calculateBbox data
  = let '(minLng, minLat, maxLng, maxLat) :=
      fold_left processCoords (GeoJSON_positions data)
        (JS.Infinity, JS.Infinity, JS.neg_Infinity, JS.neg_Infinity) in
    if JS.strict_eq minLng JS.Infinity then None
    else Some (minLng, minLat, maxLng, maxLat).
Proof.
  unfold calculateBbox.
  assert (Hfeature : forall acc f,
             processGeometry_opt acc (geometry f)
             = fold_left processCoords (Feature_positions f) acc).
  { intros acc f. unfold processGeometry_opt, Feature_positions.
    destruct (geometry f); [apply processGeometry_positions | reflexivity]. }
  destruct data as [f|features|g]; cbn [GeoJSON_positions].
  - now rewrite Hfeature.
  - unfold forEach. rewrite <- fold_left_concat.
    generalize (JS.Infinity, JS.Infinity, JS.neg_Infinity, JS.neg_Infinity).
    induction features as [|f features IH]; intros acc; [reflexivity|].
    cbn [List.map fold_left]. rewrite Hfeature.
    specialize (IH (fold_left processCoords (Feature_positions f) acc)).
    destruct (fold_left _ features _) as [[[a b] c] d].
    destruct (fold_left _ (List.map Feature_positions features) _)
      as [[[a' b'] c'] d'].
    exact IH.
  - now rewrite processGeometry_positions.
Qed.

Lemma le_lt_not_eq a b c :
  JS.le a b = true -> JS.lt b c = true -> JS.strict_eq a c = false.
Proof.
  intros Hab Hbc.
  destruct (le_numbers a b Hab) as [Ha Hb].
  assert (Hc : is_number c = true)
    by (unfold JS.lt, SFltb in Hbc; destruct b, c; try discriminate;
        reflexivity).
  apply (le_key a b Ha Hb) in Hab.
  unfold JS.lt, SFltb in Hbc. rewrite (SFcompare_key b c Hb Hc) in Hbc.
  unfold JS.strict_eq, SFeqb. rewrite (SFcompare_key a c Ha Hc).
  destruct (lex_compare (order_key a) (order_key c)) eqn:Hac;
    try reflexivity.
  exfalso. apply (lex_le_trans (order_key c) (order_key a) (order_key b)).
  - rewrite lex_compare_antisym, Hac. discriminate.
  - exact Hab.
  - rewrite lex_compare_antisym.
    destruct (lex_compare (order_key b) (order_key c));
      try discriminate Hbc. reflexivity.
Qed.

(** X23.  When every coordinate is a number, the box [calculateBbox]
    returns spans every position of the data that has a longitude and a
    latitude, wherever it sits in features, rings or nested collections. *)
Theorem calculateBbox_spans (data : GeoJSON) (box : BBox)
    (lng lat : JS.number) (rest : list JS.number) :
  calculateBbox data = Some box ->
  List.Forall (fun p => numeric p = true) (GeoJSON_positions data) ->
  In (lng :: lat :: rest) (GeoJSON_positions data) ->
  inside box lng lat.
Proof.
  rewrite calculateBbox_fold. intros Hbox Hnum Hin.
  assert (Hstart : box_numbers
                     (JS.Infinity, JS.Infinity, JS.neg_Infinity,
                      JS.neg_Infinity)) by (repeat split).
  destruct (fold_processCoords _ _ Hstart Hnum) as (_ & _ & Hinside).
  specialize (Hinside lng lat rest Hin).
  destruct (fold_left _ _ _) as [[[w s] e] n].
  destruct (JS.strict_eq w JS.Infinity); [discriminate Hbox|].
  now injection Hbox as <-.
Qed.

Lemma calculateBbox_spans_witness :
  inside (JS.zero, JS.zero, JS.one, JS.half) JS.one JS.half.
Proof.
  refine (calculateBbox_spans short_line _ JS.one JS.half [] _ _ _).
  - vm_compute; reflexivity.
  - repeat constructor.
  - right. left. reflexivity.
Defined.

(** X24.  [calculateBbox] returns no box when no position of the data has
    two coordinates: an empty collection, features without geometry,
    empty coordinate arrays. *)
Theorem calculateBbox_none (data : GeoJSON) :
  List.Forall (fun p => usable p = false) (GeoJSON_positions data) ->
  calculateBbox data = None.
Proof.
  rewrite calculateBbox_fold. intros Hnone.
  assert (Hsame : fold_left processCoords (GeoJSON_positions data)
                    (JS.Infinity, JS.Infinity, JS.neg_Infinity,
                     JS.neg_Infinity)
                  = (JS.Infinity, JS.Infinity, JS.neg_Infinity,
                     JS.neg_Infinity)).
  { generalize (JS.Infinity, JS.Infinity, JS.neg_Infinity, JS.neg_Infinity).
    induction (GeoJSON_positions data) as [|p ps IH]; intros acc;
      [reflexivity|].
    apply List.Forall_cons_iff in Hnone as [Hp Hps]. cbn [fold_left].
    rewrite <- (IH Hps acc) at 2. f_equal.
    destruct acc as [[[w s] e] n].
    destruct p as [|lng [|lat rest]]; [reflexivity | reflexivity|].
    discriminate Hp. }
  rewrite Hsame. reflexivity.
Qed.

Lemma calculateBbox_none_witness :
  calculateBbox (GFeatureCollection [bare_feature; bare_feature]) = None.
Proof.
  apply calculateBbox_none. repeat constructor.
Defined.

(** X25.  [calculateBbox] returns a box as soon as the data, all of whose
    coordinates are numbers, has one position with a latitude and a
    longitude below [Infinity]. *)
Theorem calculateBbox_defined (data : GeoJSON)
    (lng lat : JS.number) (rest : list JS.number) :
  List.Forall (fun p => numeric p = true) (GeoJSON_positions data) ->
  In (lng :: lat :: rest) (GeoJSON_positions data) ->
  JS.lt lng JS.Infinity = true ->
  exists box, calculateBbox data = Some box.
Proof.
  rewrite calculateBbox_fold. intros Hnum Hin Hfinite.
  assert (Hstart : box_numbers
                     (JS.Infinity, JS.Infinity, JS.neg_Infinity,
                      JS.neg_Infinity)) by (repeat split).
  destruct (fold_processCoords _ _ Hstart Hnum) as (_ & _ & Hinside).
  specialize (Hinside lng lat rest Hin).
  destruct (fold_left _ _ _) as [[[w s] e] n].
  destruct Hinside as (Hw & _).
  rewrite (le_lt_not_eq w lng JS.Infinity Hw Hfinite).
  eexists. reflexivity.
Qed.

Lemma calculateBbox_defined_witness :
  exists box, calculateBbox short_line = Some box.
Proof.
  refine (calculateBbox_defined short_line JS.one JS.half [] _ _ _).
  - repeat constructor.
  - right. left. reflexivity.
  - reflexivity.
Defined.
